(** * Employee attendance system: status classifier, record store and queries

    A shallow embedding of [server/routes.ts] and [server/storage.ts]
    (with the record types of [shared/schema.ts]) and the properties of
    the attendance engine stated over it.

    Conventions of the embedding.
    - JavaScript strings are [string]s; the code only compares, splits and
      concatenates them, and every string it builds is ASCII.
    - A JavaScript number is a [num]: [NaN] or a finite value kept as an
      exact rational.  The numbers the modelled code computes are integers,
      an integer divided by 60, and decimal literals with two fractional
      digits; the places where IEEE rounding could matter are discussed at
      [toFixed2] and [parseFloat].
    - A [Map] is an association list in insertion order with the semantics
      of [Map.prototype.get] and [Map.prototype.set].
    - [new Date()], [randomUUID()] and the session's user are inputs of the
      operation that reads them. *)

From Stdlib Require Import String Ascii List ZArith QArith Qround Lia Bool.
From Stdlib Require Import Permutation Sorted.
Import ListNotations.

Local Open Scope string_scope.
Local Open Scope Z_scope.

(* ================================================================== *)
(** * JavaScript values and built-ins used by the server *)
(* ================================================================== *)

Module JS.

(** ** Truthiness of [string | null] and [string | undefined] values *)

Definition truthy (v : option string) : bool :=
  match v with
  | None => false
  | Some s => negb (s =? "")%string
  end.

(** [a || b] on a [string | null] left operand and a string default. *)
Definition or_else (v : option string) (d : string) : string :=
  match v with
  | Some s => if (s =? "")%string then d else s
  | None => d
  end.

(** A value that TypeScript has narrowed to [string] (after a truthiness
    test, or by [!]). *)
Definition narrow (v : option string) : string :=
  match v with Some s => s | None => "" end.

(** ** Numbers *)

Inductive num : Type :=
| NaN
| Fin (q : Q).

Definition of_Z (z : Z) : num := Fin (inject_Z z).

Definition lift2 (f : Q -> Q -> Q) (a b : num) : num :=
  match a, b with
  | Fin x, Fin y => Fin (f x y)
  | _, _ => NaN
  end.

Definition add : num -> num -> num := lift2 Qplus.
Definition sub : num -> num -> num := lift2 Qminus.
Definition mul : num -> num -> num := lift2 Qmult.

(** Division by a non-zero constant (the code only divides by 60). *)
Definition div : num -> num -> num := lift2 Qdiv.

(** Relational operators: every comparison with [NaN] is [false]. *)
Definition le (a b : num) : bool :=
  match a, b with
  | Fin x, Fin y => Qle_bool x y
  | _, _ => false
  end.

Definition lt (a b : num) : bool :=
  match a, b with
  | Fin x, Fin y => negb (Qle_bool y x)
  | _, _ => false
  end.

Definition ge (a b : num) : bool := le b a.

(** [x || 0] on a number: [NaN] and [0] are the falsy numbers. *)
Definition or_zero (a : num) : num :=
  match a with
  | NaN => of_Z 0
  | Fin q => if Qeq_bool q 0 then of_Z 0 else Fin q
  end.

(** ** Decimal digits *)

Definition digit_of_ascii (c : ascii) : option Z :=
  let n := Z.of_nat (nat_of_ascii c) in
  if (48 <=? n) && (n <=? 57) then Some (n - 48) else None.

Definition is_digit (c : ascii) : bool :=
  match digit_of_ascii c with Some _ => true | None => false end.

Definition ascii_of_digit (d : Z) : ascii :=
  ascii_of_nat (Z.to_nat (48 + d)).

(** Value of a string of decimal digits read left to right, starting from
    the accumulator [acc]; [None] as soon as a non-digit is met. *)
Fixpoint digits_value (acc : Z) (s : string) : option Z :=
  match s with
  | EmptyString => Some acc
  | String c rest =>
      match digit_of_ascii c with
      | Some d => digits_value (10 * acc + d) rest
      | None => None
      end
  end.

(** [Number(s)] on the strings the server feeds it: a run of decimal digits
    is its value and the empty string is [0].  Every other string is mapped
    to [NaN]; signs, fractions, exponents, radix prefixes and surrounding
    white space are outside the modelled fragment (no [HH:mm:ss] field has
    them). *)
Definition Number (s : string) : num :=
  match digits_value 0 s with
  | Some z => of_Z z
  | None => NaN
  end.

(** [s.split(sep)] for a one-character separator. *)
Fixpoint split (sep : ascii) (s : string) : list string :=
  match s with
  | EmptyString => [EmptyString]
  | String c rest =>
      if Ascii.eqb c sep then EmptyString :: split sep rest
      else match split sep rest with
           | h :: t => String c h :: t
           | [] => [String c EmptyString]
           end
  end.

(** Array destructuring [const [a, b] = xs] reads indices 0 and 1; a
    missing element is [undefined], which arithmetic turns into [NaN]. *)
Definition index (xs : list num) (i : nat) : num := nth i xs NaN.

(** ** Printing and reading decimals *)

(** Decimal digits of a non-negative integer, most significant first.
    [fuel] bounds the number of digits. *)
Fixpoint digits_of (fuel : nat) (n : Z) (acc : string) : string :=
  match fuel with
  | O => acc
  | S fuel' =>
      let acc' := String (ascii_of_digit (n mod 10)) acc in
      if n <? 10 then acc' else digits_of fuel' (n / 10) acc'
  end.

Definition string_of_nonneg (n : Z) : string :=
  digits_of (S (Z.to_nat (Z.log2 n))) n EmptyString.

(** Two-character field [dd] of a value below 100. *)
Definition pad2 (n : Z) : string :=
  String (ascii_of_digit (n / 10)) (String (ascii_of_digit (n mod 10)) EmptyString).

(** [x.toFixed(2)].  ECMAScript: for [x < 0] print ["-"] and continue with
    [-x]; then let [n] be the integer for which [n / 100 - x] is as close to
    zero as possible, the larger one on a tie, and print [n] with a point
    before its last two digits.  On a rational [q >= 0] that integer is
    [floor (100 q + 1/2)].

    The server applies it to the double nearest to [d / 60] for an integer
    [d].  The scaled value [100 d / 60 = 5 d / 3] has fractional part 0,
    1/3 or 2/3, so it stays at least 1/6 away from every tie and the
    representation error of the double (below 2^-39 after scaling, for
    |d| < 2^13) cannot
    change [n]: the exact quotient and the double print the same string. *)
Definition toFixed2 (x : num) : string :=
  match x with
  | NaN => "NaN"
  | Fin q =>
      let neg := negb (Qle_bool 0 q) in
      let a := if neg then Qopp q else q in
      let n := Qfloor (a * 100 + (1 # 2))%Q in
      (if neg then "-" else "")
        ++ string_of_nonneg (n / 100) ++ "." ++ pad2 (n mod 100)
  end.

(** Longest prefix of decimal digits and the rest of the string. *)
Fixpoint span_digits (s : string) : string * string :=
  match s with
  | EmptyString => (EmptyString, EmptyString)
  | String c rest =>
      if is_digit c
      then let (ds, r) := span_digits rest in (String c ds, r)
      else (EmptyString, s)
  end.

Definition digits_or_zero (s : string) : Z :=
  match digits_value 0 s with Some z => z | None => 0 end.

(** Unsigned part of a decimal literal: digits, then optionally a point and
    more digits; at least one digit overall. *)
Definition parse_unsigned (s : string) : num :=
  let (ip, r) := span_digits s in
  let fp := match r with
            | String "." r' => fst (span_digits r')
            | _ => EmptyString
            end in
  if ((ip =? "") && (fp =? ""))%string then NaN
  else Fin (inject_Z (digits_or_zero ip)
            + inject_Z (digits_or_zero fp)
              / inject_Z (10 ^ Z.of_nat (String.length fp)))%Q.

(** [parseFloat(s)] on decimal literals: an optional sign, digits and an
    optional fraction; what follows the literal is ignored and a string
    with no leading literal is [NaN].  Leading white space, exponents and
    [Infinity] are outside the modelled fragment.  The value is kept exact:
    the server compares it with 4 only, and a decimal with two fractional
    digits is below 4 exactly when the double nearest to it is. *)
Definition parseFloat (s : string) : num :=
  match s with
  | String "-" r => match parse_unsigned r with Fin q => Fin (- q)%Q | NaN => NaN end
  | String "+" r => parse_unsigned r
  | _ => parse_unsigned s
  end.

(** Strings of digits, and strings that do not continue a run of digits. *)
Fixpoint all_digits (s : string) : bool :=
  match s with
  | EmptyString => true
  | String c rest => is_digit c && all_digits rest
  end.

Definition starts_nondigit (s : string) : bool :=
  match s with
  | EmptyString => true
  | String c _ => negb (is_digit c)
  end.

(** ** String comparison *)

(** [a <= b] and [a >= b] on strings: lexicographic on code units. *)
Definition str_le (a b : string) : bool := String.leb a b.
Definition str_ge (a b : string) : bool := String.leb b a.

(** ** Map *)

Section MapOps.
Context {V : Type}.

Definition Map := list (string * V).

Fixpoint get (m : Map) (k : string) : option V :=
  match m with
  | [] => None
  | (k', v) :: m' => if (k' =? k)%string then Some v else get m' k
  end.

(** [m.set(k, v)]: an existing key keeps its position, a new key goes
    last. *)
Fixpoint set (m : Map) (k : string) (v : V) : Map :=
  match m with
  | [] => [(k, v)]
  | (k', v') :: m' =>
      if (k' =? k)%string then (k, v) :: m' else (k', v') :: set m' k v
  end.

(** [Array.from(m.values())]. *)
Definition values (m : Map) : list V := map snd m.

Definition keys (m : Map) : list string := map fst m.
End MapOps.

Arguments Map : clear implicits.

(** ** Array.prototype.sort *)

(** [xs.sort(cmp)] is stable; with a comparator that is a total preorder
    its result is the unique stable sorted arrangement, computed here by
    insertion.  [cmp a b] is [Lt] when the comparator returns a negative
    number ([a] goes first), [Gt] when positive. *)
Section Sort.
Context {A : Type} (cmp : A -> A -> comparison).

Fixpoint insert (x : A) (l : list A) : list A :=
  match l with
  | [] => [x]
  | y :: l' =>
      match cmp x y with
      | Gt => y :: insert x l'
      | _ => x :: l
      end
  end.

Fixpoint sort (l : list A) : list A :=
  match l with
  | [] => []
  | x :: l' => insert x (sort l')
  end.
End Sort.

End JS.

(* ================================================================== *)
(** * Record types of [shared/schema.ts] *)
(* ================================================================== *)

(** Timestamps ([Date] values of [createdAt]) are milliseconds as [Z]. *)

Module User.
Record t : Type := mk {
  id : string;
  name : string;
  email : string;
  password : string;
  role : string;
  employeeId : string;
  department : string;
  createdAt : Z
}.
End User.

(** [Omit<User, "password">]. *)
Module UserWithoutPassword.
Record t : Type := mk {
  id : string;
  name : string;
  email : string;
  role : string;
  employeeId : string;
  department : string;
  createdAt : Z
}.
End UserWithoutPassword.

Module Attendance.
Record t : Type := mk {
  id : string;
  userId : string;
  date : string;
  checkInTime : option string;
  checkOutTime : option string;
  status : string;
  totalHours : option string;
  createdAt : Z
}.
End Attendance.

(** [InsertAttendance]: an attendance row without [id] and [createdAt]. *)
Module InsertAttendance.
Record t : Type := mk {
  userId : string;
  date : string;
  checkInTime : option string;
  checkOutTime : option string;
  status : string;
  totalHours : option string
}.
End InsertAttendance.

(** [Partial<Attendance>]: [None] is a key that the object does not have. *)
Module PartialAttendance.
Record t : Type := mk {
  id : option string;
  userId : option string;
  date : option string;
  checkInTime : option (option string);
  checkOutTime : option (option string);
  status : option string;
  totalHours : option (option string);
  createdAt : option Z
}.

Definition empty : t := mk None None None None None None None None.

Definition pick {A : Type} (old : A) (upd : option A) : A :=
  match upd with Some v => v | None => old end.

(** [{ ...record, ...updates }]. *)
Definition spread (r : Attendance.t) (u : t) : Attendance.t :=
  Attendance.mk
    (pick (Attendance.id r) (id u))
    (pick (Attendance.userId r) (userId u))
    (pick (Attendance.date r) (date u))
    (pick (Attendance.checkInTime r) (checkInTime u))
    (pick (Attendance.checkOutTime r) (checkOutTime u))
    (pick (Attendance.status r) (status u))
    (pick (Attendance.totalHours r) (totalHours u))
    (pick (Attendance.createdAt r) (createdAt u)).
End PartialAttendance.

(** [Attendance & { user?: UserWithoutPassword }]; [base] holds the spread
    attendance fields. *)
Module AttendanceWithUser.
Record t : Type := mk {
  base : Attendance.t;
  user : option UserWithoutPassword.t
}.

Definition status (r : t) : string := Attendance.status (base r).
Definition userId (r : t) : string := Attendance.userId (base r).
Definition totalHours (r : t) : option string := Attendance.totalHours (base r).
End AttendanceWithUser.

Module ManagerDashboardStats.
Record trend : Type := mkTrend {
  t_date : string;
  t_present : Z;
  t_absent : Z;
  t_late : Z
}.

Record dept : Type := mkDept {
  d_department : string;
  d_present : Z;
  d_absent : Z
}.

Record t : Type := mk {
  totalEmployees : Z;
  presentToday : Z;
  absentToday : Z;
  lateToday : Z;
  absentEmployees : list UserWithoutPassword.t;
  weeklyTrend : list trend;
  departmentStats : list dept
}.
End ManagerDashboardStats.

(* ================================================================== *)
(** * server/storage.ts *)
(* ================================================================== *)

Module Storage.
Import JS.

(** [xs.length] as a JavaScript number. *)
Definition len {A : Type} (xs : list A) : Z := Z.of_nat (List.length xs).

(** [xs.find(p)]. *)
Definition find {A : Type} (p : A -> bool) (xs : list A) : option A :=
  List.find p xs.

Definition removePassword (user : User.t) : UserWithoutPassword.t :=
  UserWithoutPassword.mk
    (User.id user) (User.name user) (User.email user) (User.role user)
    (User.employeeId user) (User.department user) (User.createdAt user).

(** The two private maps of [MemStorage].  ([employeeCounter] only feeds
    user registration, which is not modelled.) *)
Record MemStorage : Type := mkStorage {
  users : Map User.t;
  attendance : Map Attendance.t
}.

Definition with_attendance (st : MemStorage) (a : Map Attendance.t) : MemStorage :=
  mkStorage (users st) a.

Definition getUser (st : MemStorage) (id : string) : option User.t :=
  get (users st) id.

Definition getAllEmployees (st : MemStorage) : list UserWithoutPassword.t :=
  map removePassword
      (filter (fun user => (User.role user =? "employee")%string)
              (values (users st))).

Definition getAttendanceById (st : MemStorage) (id : string) : option Attendance.t :=
  get (attendance st) id.

Definition getAttendanceByUserAndDate (st : MemStorage) (userId date : string)
  : option Attendance.t :=
  find (fun record =>
          (Attendance.userId record =? userId)%string
          && (Attendance.date record =? date)%string)
       (values (attendance st)).

(** [id] is the value of [randomUUID()] and [now] that of [new Date()]. *)
Definition createAttendance (st : MemStorage) (insertAttendance : InsertAttendance.t)
           (id : string) (now : Z) : Attendance.t * MemStorage :=
  let record :=
    Attendance.mk id
      (InsertAttendance.userId insertAttendance)
      (InsertAttendance.date insertAttendance)
      (InsertAttendance.checkInTime insertAttendance)
      (InsertAttendance.checkOutTime insertAttendance)
      (InsertAttendance.status insertAttendance)
      (InsertAttendance.totalHours insertAttendance)
      now in
  (record, with_attendance st (set (attendance st) id record)).

Definition updateAttendance (st : MemStorage) (id : string)
           (updates : PartialAttendance.t) : option Attendance.t * MemStorage :=
  match get (attendance st) id with
  | None => (None, st)
  | Some record =>
      let updated := PartialAttendance.spread record updates in
      (Some updated, with_attendance st (set (attendance st) id updated))
  end.

(** The join of both manager views: the record with its owner's public
    profile, [undefined] when the owner is not in the directory. *)
Definition join_user (st : MemStorage) (record : Attendance.t) : AttendanceWithUser.t :=
  AttendanceWithUser.mk record
    (match getUser st (Attendance.userId record) with
     | Some user => Some (removePassword user)
     | None => None
     end).

Definition getAllAttendanceForDate (st : MemStorage) (date : string)
  : list AttendanceWithUser.t :=
  let records :=
    filter (fun record => (Attendance.date record =? date)%string)
           (values (attendance st)) in
  map (join_user st) records.

Section Collation.

(** [a.localeCompare(b)] of the host: [Lt], [Eq] or [Gt] for a negative,
    zero or positive result.  Its order is that of the host's collation
    and is a parameter of the queries that sort. *)
Variable localeCompare : string -> string -> comparison.

(** The comparator [(a, b) => b.date.localeCompare(a.date)]. *)
Definition by_date_desc (a b : Attendance.t) : comparison :=
  localeCompare (Attendance.date b) (Attendance.date a).

Definition getUserAttendanceHistory (st : MemStorage)
           (userId startDate endDate : string) : list Attendance.t :=
  sort by_date_desc
    (filter (fun record =>
               (Attendance.userId record =? userId)%string
               && str_ge (Attendance.date record) startDate
               && str_le (Attendance.date record) endDate)
            (values (attendance st))).

Definition getAttendanceReport (st : MemStorage) (startDate endDate : string)
           (employeeId : option string) : list AttendanceWithUser.t :=
  let records :=
    filter (fun record =>
              str_ge (Attendance.date record) startDate
              && str_le (Attendance.date record) endDate)
           (values (attendance st)) in
  let records :=
    match employeeId with
    | Some e =>
        if truthy employeeId && negb (e =? "all")%string
        then filter (fun record => (Attendance.userId record =? e)%string) records
        else records
    | None => records
    end in
  map (join_user st) (sort by_date_desc records).

End Collation.

(** ** Manager dashboard *)

Definition count_status (s : string) (rs : list AttendanceWithUser.t) : Z :=
  len (filter (fun r => (AttendanceWithUser.status r =? s)%string) rs).

(** [new Set(xs).has(x)]. *)
Definition has (xs : list string) (x : string) : bool :=
  existsb (fun y => (y =? x)%string) xs.

(** One [weeklyTrend] entry for the day [dateStr]. *)
Definition trend_of (st : MemStorage) (employees : list UserWithoutPassword.t)
           (dateStr : string) : ManagerDashboardStats.trend :=
  let records := getAllAttendanceForDate st dateStr in
  ManagerDashboardStats.mkTrend dateStr
    (count_status "present" records)
    (count_status "absent" records + (len employees - len records))
    (count_status "late" records).

(** The department counters: a [Map] from the department to its
    [{ present, absent }] object, updated in place. *)
Definition bump (present : bool) (m : Map (Z * Z)) (department : string)
  : Map (Z * Z) :=
  match get m department with
  | Some (p, a) =>
      set m department (if present then (p + 1, a) else (p, a + 1))
  | None => m
  end.

Definition departmentMap (employees : list UserWithoutPassword.t)
           (todayAttendance : list AttendanceWithUser.t)
           (checkedInUserIds : list string) : Map (Z * Z) :=
  let m0 :=
    fold_left
      (fun m emp =>
         match get m (UserWithoutPassword.department emp) with
         | Some _ => m
         | None => set m (UserWithoutPassword.department emp) (0, 0)
         end)
      employees [] in
  let m1 :=
    fold_left
      (fun m record =>
         match AttendanceWithUser.user record with
         | Some u =>
             if truthy (Some (UserWithoutPassword.department u))
             then bump (negb (AttendanceWithUser.status record =? "absent")%string)
                       m (UserWithoutPassword.department u)
             else m
         | None => m
         end)
      todayAttendance m0 in
  fold_left
    (fun m emp =>
       if negb (has checkedInUserIds (UserWithoutPassword.id emp))
       then bump false m (UserWithoutPassword.department emp)
       else m)
    employees m1.

(** [today] is [format(new Date(), "yyyy-MM-dd")] and [week] the formatted
    days [subDays(new Date(), i)] for [i] from 6 down to 0. *)
Definition getManagerDashboardStats (st : MemStorage) (today : string)
           (week : list string) : ManagerDashboardStats.t :=
  let employees := getAllEmployees st in
  let todayAttendance := getAllAttendanceForDate st today in
  let presentToday :=
    len (filter (fun r =>
                   (AttendanceWithUser.status r =? "present")%string
                   || (AttendanceWithUser.status r =? "late")%string
                   || (AttendanceWithUser.status r =? "half-day")%string)
                todayAttendance) in
  let absentToday :=
    len employees - len todayAttendance + count_status "absent" todayAttendance in
  let lateToday := count_status "late" todayAttendance in
  let checkedInUserIds := map AttendanceWithUser.userId todayAttendance in
  let absentEmployees :=
    filter (fun emp => negb (has checkedInUserIds (UserWithoutPassword.id emp)))
           employees in
  let weeklyTrend := map (trend_of st employees) week in
  let departmentStats :=
    map (fun '(department, (p, a)) => ManagerDashboardStats.mkDept department p a)
        (departmentMap employees todayAttendance checkedInUserIds) in
  ManagerDashboardStats.mk
    (len employees) presentToday absentToday lateToday
    absentEmployees weeklyTrend departmentStats.

End Storage.

(* ================================================================== *)
(** * server/routes.ts *)
(* ================================================================== *)

Module Routes.
Import JS Storage.

(** The wall-clock fields of a [Date] that [format(now, "HH:mm:ss")]
    prints. *)
Record Clock : Type := mkClock {
  hours : Z;
  minutes : Z;
  seconds : Z
}.

Definition clock_ok (c : Clock) : Prop :=
  0 <= hours c < 24 /\ 0 <= minutes c < 60 /\ 0 <= seconds c < 60.

(** The text [HH:mm:ss] of three two-digit fields. *)
Definition hhmmss (h m s : Z) : string :=
  pad2 h ++ ":" ++ pad2 m ++ ":" ++ pad2 s.

(** [format(now, "HH:mm:ss")]. *)
Definition format_time (now : Clock) : string :=
  hhmmss (hours now) (minutes now) (seconds now).

(** [const [hours, minutes] = t.split(":").map(Number)] followed by
    [hours * 60 + minutes]. *)
Definition minutes_of (t : string) : num :=
  let parts := map Number (split ":" t) in
  add (mul (index parts 0) (of_Z 60)) (index parts 1).

Definition calculateStatus (checkInTime : string) : string :=
  let checkInMinutes := minutes_of checkInTime in
  if le checkInMinutes (of_Z (9 * 60 + 30)) then "present"
  else if le checkInMinutes (of_Z (12 * 60)) then "late"
  else "half-day".

Definition calculateTotalHours (checkInTime checkOutTime : string) : string :=
  let inTotalMinutes := minutes_of checkInTime in
  let outTotalMinutes := minutes_of checkOutTime in
  let diffMinutes := sub outTotalMinutes inTotalMinutes in
  toFixed2 (div diffMinutes (of_Z 60)).

(** The status revision of the checkout handler:
    [let status = existing.status; if (hoursWorked < 4) status = "half-day"]. *)
Definition reconcileStatusOnCheckout (existingStatus : string) (hoursWorked : num)
  : string :=
  if lt hoursWorked (of_Z 4) then "half-day" else existingStatus.

(** ** Responses

    No operation of the modelled handlers throws, so their [catch]
    branches (status 500) are not reached and are left out. *)

Inductive body (A : Type) : Type :=
| Message (message : string)
| Json (value : A).

Arguments Message {A} message.
Arguments Json {A} value.

(** [res.status(code).json(body)]. *)
Definition Response (A : Type) : Type := (Z * body A)%type.

Definition Unauthorized {A : Type} : Response A := (401, Message "Unauthorized").
Definition Forbidden {A : Type} : Response A :=
  (403, Message "Forbidden: Manager access required").

(** The rejections of the two attendance writes, by the name of their
    error kind. *)
Definition AlreadyCheckedIn {A : Type} : Response A :=
  (400, Message "Already checked in today").
Definition NotCheckedIn {A : Type} : Response A :=
  (400, Message "You haven't checked in today").
Definition AlreadyCheckedOut {A : Type} : Response A :=
  (400, Message "Already checked out today").

(** ** Middleware: [None] is [next()]. *)

Definition requireAuth {A : Type} (session : option string) : option (Response A) :=
  if truthy session then None else Some Unauthorized.

Definition requireManager {A : Type} (st : MemStorage) (session : option string)
  : option (Response A) :=
  match session with
  | Some sid =>
      if truthy session
      then match getUser st sid with
           | Some user =>
               if negb (User.role user =? "manager")%string
               then Some Forbidden else None
           | None => Some Forbidden
           end
      else Some Unauthorized
  | None => Some Unauthorized
  end.

(** ** POST /api/attendance/checkin

    [userId] is [req.session.userId], [today] is
    [format(new Date(), "yyyy-MM-dd")], [now] the clock of [new Date()];
    [uuid] and [created] are what [createAttendance] draws from
    [randomUUID()] and [new Date()]. *)
Definition checkin (st : MemStorage) (userId today : string) (now : Clock)
           (uuid : string) (created : Z)
  : Response (option Attendance.t) * MemStorage :=
  let checkInTime := format_time now in
  let existing := getAttendanceByUserAndDate st userId today in
  match existing with
  | Some e =>
      if truthy (Attendance.checkInTime e)
      then (AlreadyCheckedIn, st)
      else
        let status := calculateStatus checkInTime in
        let (updated, st') :=
          updateAttendance st (Attendance.id e)
            (PartialAttendance.mk None None None (Some (Some checkInTime))
                                  None (Some status) None None) in
        ((200, Json updated), st')
  | None =>
      let status := calculateStatus checkInTime in
      let (attendance, st') :=
        createAttendance st
          (InsertAttendance.mk userId today (Some checkInTime) None status None)
          uuid created in
      ((201, Json (Some attendance)), st')
  end.

(** ** POST /api/attendance/checkout *)
Definition checkout (st : MemStorage) (userId today : string) (now : Clock)
  : Response (option Attendance.t) * MemStorage :=
  let checkOutTime := format_time now in
  let existing := getAttendanceByUserAndDate st userId today in
  match existing with
  | None => (NotCheckedIn, st)
  | Some e =>
      if negb (truthy (Attendance.checkInTime e)) then (NotCheckedIn, st)
      else if truthy (Attendance.checkOutTime e) then (AlreadyCheckedOut, st)
      else
        let totalHours :=
          calculateTotalHours (narrow (Attendance.checkInTime e)) checkOutTime in
        let hoursWorked := parseFloat totalHours in
        let status := reconcileStatusOnCheckout (Attendance.status e) hoursWorked in
        let (updated, st') :=
          updateAttendance st (Attendance.id e)
            (PartialAttendance.mk None None None None
                                  (Some (Some checkOutTime)) (Some status)
                                  (Some (Some totalHours)) None) in
        ((200, Json updated), st')
  end.

(** The routes behind [requireAuth]. *)
Definition post_checkin (st : MemStorage) (session : option string) (today : string)
           (now : Clock) (uuid : string) (created : Z)
  : Response (option Attendance.t) * MemStorage :=
  match requireAuth session with
  | Some r => (r, st)
  | None => checkin st (narrow session) today now uuid created
  end.

Definition post_checkout (st : MemStorage) (session : option string) (today : string)
           (now : Clock) : Response (option Attendance.t) * MemStorage :=
  match requireAuth session with
  | Some r => (r, st)
  | None => checkout st (narrow session) today now
  end.

(** ** GET /api/attendance/report *)

Record ReportSummary : Type := mkSummary {
  totalRecords : Z;
  presentCount : Z;
  absentCount : Z;
  lateCount : Z;
  halfDayCount : Z;
  totalHours : num
}.

Record Report : Type := mkReport {
  records : list AttendanceWithUser.t;
  summary : ReportSummary
}.

(** [records.reduce((sum, r) => sum + (parseFloat(r.totalHours || "0") || 0), 0)].
    The sum is kept exact; the double sum of the server may differ from it
    in the last bits once two or more terms are added. *)
Definition sum_hours (rs : list AttendanceWithUser.t) : num :=
  fold_left
    (fun sum r =>
       add sum (or_zero (parseFloat (or_else (AttendanceWithUser.totalHours r) "0"))))
    rs (of_Z 0).

Section Collation.
Variable localeCompare : string -> string -> comparison.

(** The handler; [startDate], [endDate] and [employee] are the query
    parameters of those names, [None] when the parameter is missing. *)
Definition report (st : MemStorage) (startDate endDate employee : option string)
  : Response Report :=
  if negb (truthy startDate) || negb (truthy endDate)
  then (400, Message "Start date and end date are required")
  else
    let records :=
      getAttendanceReport localeCompare st
        (narrow startDate) (narrow endDate) employee in
    let summary :=
      mkSummary (len records)
                (count_status "present" records)
                (count_status "absent" records)
                (count_status "late" records)
                (count_status "half-day" records)
                (sum_hours records) in
    (200, Json (mkReport records summary)).

Definition get_report (st : MemStorage) (session : option string)
           (startDate endDate employee : option string) : Response Report :=
  match requireManager st session with
  | Some r => r
  | None => report st startDate endDate employee
  end.
End Collation.

End Routes.

(* ================================================================== *)
(** * Vocabulary of the properties *)
(* ================================================================== *)

Module Spec.
Import JS Storage Routes.

(** ** Durations *)

(** Minutes from the time [h1:m1] to the time [h2:m2]. *)
Definition minutes_between (h1 m1 h2 m2 : Z) : Z :=
  (h2 * 60 + m2) - (h1 * 60 + m1).

(** The duration rule in the words of the specification: the minutes
    between check-in and check-out divided by 60 and truncated to two
    decimals, [floor(hours * 100) / 100]; the result in hundredths of an
    hour. *)
Definition truncated_hundredths (diffMinutes : Z) : Z :=
  Qfloor (inject_Z diffMinutes / 60 * 100)%Q.

(** ** The attendance map *)

(** What [MemStorage] maintains of its private map: keys are distinct (it
    is a [Map]) and every record is stored under its own [id]. *)
Definition store_ok (m : Map Attendance.t) : Prop :=
  NoDup (keys m) /\ Forall (fun kv => Attendance.id (snd kv) = fst kv) m.

Definition user_date (r : Attendance.t) : string * string :=
  (Attendance.userId r, Attendance.date r).

(** At most one record for each pair of a user and a date. *)
Definition unique_user_date (m : Map Attendance.t) : Prop :=
  NoDup (map user_date (values m)).

(** A time field is set when the server's tests see it: neither [null]
    nor the empty string. *)
Definition checked_in (r : Attendance.t) : Prop :=
  truthy (Attendance.checkInTime r) = true.

Definition checked_out (r : Attendance.t) : Prop :=
  truthy (Attendance.checkOutTime r) = true.

Definition checkout_has_checkin (m : Map Attendance.t) : Prop :=
  Forall (fun r => checked_out r -> checked_in r) (values m).

Definition record_for (st : MemStorage) (userId date : string) (r : Attendance.t)
  : Prop :=
  In r (values (attendance st))
  /\ Attendance.userId r = userId /\ Attendance.date r = date.

Definition no_record_for (st : MemStorage) (userId date : string) : Prop :=
  forall r, ~ record_for st userId date r.

(** The state invariant of the two attendance writes. *)
Definition Inv (st : MemStorage) : Prop :=
  store_ok (attendance st)
  /\ unique_user_date (attendance st)
  /\ checkout_has_checkin (attendance st).

(** ** Requests that write *)

Inductive Request : Type :=
| CheckIn (session : option string) (today : string) (now : Clock)
          (uuid : string) (created : Z)
| CheckOut (session : option string) (today : string) (now : Clock).

Definition handle (st : MemStorage) (rq : Request) : MemStorage :=
  match rq with
  | CheckIn session today now uuid created =>
      snd (post_checkin st session today now uuid created)
  | CheckOut session today now =>
      snd (post_checkout st session today now)
  end.

Definition run (st : MemStorage) (rqs : list Request) : MemStorage :=
  fold_left handle rqs st.

(** The records the two successful writes store. *)
Definition checked_in_record (r : Attendance.t) (now : Clock) : Attendance.t :=
  Attendance.mk (Attendance.id r) (Attendance.userId r) (Attendance.date r)
    (Some (format_time now)) (Attendance.checkOutTime r)
    (calculateStatus (format_time now))
    (Attendance.totalHours r) (Attendance.createdAt r).

Definition new_record (uuid userId today : string) (now : Clock) (created : Z)
  : Attendance.t :=
  Attendance.mk uuid userId today (Some (format_time now)) None
    (calculateStatus (format_time now)) None created.

Definition checked_out_record (r : Attendance.t) (now : Clock) : Attendance.t :=
  let totalHours :=
    calculateTotalHours (narrow (Attendance.checkInTime r)) (format_time now) in
  Attendance.mk (Attendance.id r) (Attendance.userId r) (Attendance.date r)
    (Attendance.checkInTime r) (Some (format_time now))
    (reconcileStatusOnCheckout (Attendance.status r) (parseFloat totalHours))
    (Some totalHours) (Attendance.createdAt r).

(** The values of [m'] are those of [m] with [r] replaced by [r'], in
    place. *)
Definition replaced (m m' : Map Attendance.t) (r r' : Attendance.t) : Prop :=
  exists l1 l2,
    values m = (l1 ++ r :: l2)%list /\ values m' = (l1 ++ r' :: l2)%list.

(** The outcomes of a check-in by [userId] on the day [today]. *)
Definition checkin_outcomes (st : MemStorage) (userId today : string) (now : Clock)
           (uuid : string) (created : Z) : Prop :=
  let out := checkin st userId today now uuid created in
  (fst out = AlreadyCheckedIn
   <-> exists r, record_for st userId today r /\ checked_in r)
  /\ (no_record_for st userId today ->
      let r' := new_record uuid userId today now created in
      out = ((201, Json (Some r')),
             with_attendance st (set (attendance st) uuid r'))
      /\ (get (attendance st) uuid = None ->
          values (attendance (snd out)) = (values (attendance st) ++ [r'])%list))
  /\ (forall r,
        record_for st userId today r -> ~ checked_in r ->
        let r' := checked_in_record r now in
        out = ((200, Json (Some r')),
               with_attendance st (set (attendance st) (Attendance.id r) r'))
        /\ replaced (attendance st) (attendance (snd out)) r r').

(** The outcomes of a check-out by [userId] on the day [today]. *)
Definition checkout_outcomes (st : MemStorage) (userId today : string) (now : Clock)
  : Prop :=
  let out := checkout st userId today now in
  (fst out = NotCheckedIn
   <-> no_record_for st userId today
       \/ exists r, record_for st userId today r /\ ~ checked_in r)
  /\ (fst out = AlreadyCheckedOut
      <-> exists r, record_for st userId today r /\ checked_out r)
  /\ (forall r,
        record_for st userId today r -> checked_in r -> ~ checked_out r ->
        let r' := checked_out_record r now in
        out = ((200, Json (Some r')),
               with_attendance st (set (attendance st) (Attendance.id r) r'))
        /\ replaced (attendance st) (attendance (snd out)) r r').

(** ** Dates and their order *)

(** A canonical [YYYY-MM-DD] text. *)
Definition canonical_date (s : string) : bool :=
  match s with
  | String y1 (String y2 (String y3 (String y4 (String h1
      (String m1 (String m2 (String h2 (String d1 (String d2 EmptyString))))))))) =>
      is_digit y1 && is_digit y2 && is_digit y3 && is_digit y4
      && Ascii.eqb h1 "-" && is_digit m1 && is_digit m2
      && Ascii.eqb h2 "-" && is_digit d1 && is_digit d2
  | _ => false
  end.

Definition dates_canonical (st : MemStorage) : Prop :=
  Forall (fun r => canonical_date (Attendance.date r) = true)
         (values (attendance st)).

(** The assumption on the host's collation: on canonical dates it orders
    as the code units do. *)
Definition collates_dates (localeCompare : string -> string -> comparison) : Prop :=
  forall a b,
    canonical_date a = true -> canonical_date b = true ->
    localeCompare a b = String.compare a b.

(** [startDate <= date <= endDate] on strings. *)
Definition in_range (startDate endDate : string) (r : Attendance.t) : bool :=
  String.leb startDate (Attendance.date r) && String.leb (Attendance.date r) endDate.

(** The records [getUserAttendanceHistory] is to return. *)
Definition by_user_in_range (userId startDate endDate : string) (r : Attendance.t)
  : bool :=
  (Attendance.userId r =? userId)%string && in_range startDate endDate r.

(** The report narrows to one user when an employee id is given, is not
    empty and is not ["all"]. *)
Definition one_user (employeeId : option string) : option string :=
  match employeeId with
  | Some e => if (e =? "")%string || (e =? "all")%string then None else Some e
  | None => None
  end.

Definition in_report (startDate endDate : string) (employeeId : option string)
           (r : Attendance.t) : bool :=
  in_range startDate endDate r
  && match one_user employeeId with
     | Some e => (Attendance.userId r =? e)%string
     | None => true
     end.

Definition date_desc (a b : Attendance.t) : Prop :=
  String.leb (Attendance.date b) (Attendance.date a) = true.

Definition date_strictly_desc (a b : Attendance.t) : Prop :=
  String.ltb (Attendance.date b) (Attendance.date a) = true.

(** ** Records of a day *)

Definition records_on (st : MemStorage) (day : string) : list Attendance.t :=
  filter (fun r => (Attendance.date r =? day)%string) (values (attendance st)).

Definition has_status (s : string) (r : Attendance.t) : bool :=
  (Attendance.status r =? s)%string.

Definition counts_as_present (r : Attendance.t) : bool :=
  has_status "present" r || has_status "late" r || has_status "half-day" r.

(** ** Public profiles *)

Definition public_directory (us : Map User.t) : Map UserWithoutPassword.t :=
  map (fun kv => (fst kv, removePassword (snd kv))) us.

(** Two directories that differ at most in password values. *)
Definition same_public (us1 us2 : Map User.t) : Prop :=
  public_directory us1 = public_directory us2.

(** ** Responses *)

Definition rejected {A : Type} (r : Response A) : bool := 400 <=? fst r.

Definition empty_summary : ReportSummary := mkSummary 0 0 0 0 0 (of_Z 0).

End Spec.

(* ================================================================== *)
(** * A small store *)
(* ================================================================== *)

(** Five employees and a manager, as the seed creates them, and the
    records of two days: on 2024-03-04 two employees are present, one is
    marked absent and two have no record. *)
Module Examples.
Import JS Storage Routes Spec.

Definition employee (id name email employeeId department : string) : User.t :=
  User.mk id name email "password123" "employee" employeeId department 0.

Definition directory : Map User.t :=
  [ ("u1", employee "u1" "John Smith" "john@company.com" "EMP001" "Engineering");
    ("u2", employee "u2" "Jane Doe" "jane@company.com" "EMP002" "Product");
    ("u3", employee "u3" "Bob Wilson" "bob@company.com" "EMP003" "Engineering");
    ("u4", employee "u4" "Alice Brown" "alice@company.com" "EMP004" "Design");
    ("u5", employee "u5" "Charlie Davis" "charlie@company.com" "EMP005" "Marketing");
    ("m1", User.mk "m1" "Sarah Manager" "manager@company.com" "password123"
                   "manager" "EMP006" "Management" 0) ].

Definition records : Map Attendance.t :=
  [ ("a1", Attendance.mk "a1" "u1" "2024-03-01"
             (Some "10:30:00") (Some "18:00:00") "late" (Some "7.50") 0);
    ("a2", Attendance.mk "a2" "u2" "2024-03-01"
             (Some "09:00:00") (Some "13:00:00") "half-day" (Some "4.00") 0);
    ("a3", Attendance.mk "a3" "u1" "2024-03-04"
             (Some "09:15:00") None "present" None 0);
    ("a4", Attendance.mk "a4" "u2" "2024-03-04"
             (Some "08:50:00") (Some "17:20:00") "present" (Some "8.50") 0);
    ("a5", Attendance.mk "a5" "u3" "2024-03-04" None None "absent" None 0) ].

Definition store : MemStorage := mkStorage directory records.

(** The same store after every seeded password was replaced by a hash. *)
Definition rehash (u : User.t) : User.t :=
  User.mk (User.id u) (User.name u) (User.email u)
          ("$2b$10$" ++ User.password u) (User.role u) (User.employeeId u)
          (User.department u) (User.createdAt u).

Definition hashed_directory : Map User.t :=
  map (fun kv => (fst kv, rehash (snd kv))) directory.

(** A morning of requests on 2024-03-05. *)
Definition morning : list Request :=
  [ CheckIn (Some "u1") "2024-03-05" (mkClock 9 15 0) "b1" 1;
    CheckIn (Some "u2") "2024-03-05" (mkClock 11 0 0) "b2" 2;
    CheckIn (Some "u1") "2024-03-05" (mkClock 9 20 0) "b3" 3;
    CheckOut (Some "u3") "2024-03-05" (mkClock 12 0 0);
    CheckOut (Some "u2") "2024-03-05" (mkClock 12 30 0);
    CheckOut (Some "u1") "2024-03-05" (mkClock 17 0 0);
    CheckOut (Some "u1") "2024-03-05" (mkClock 17 5 0);
    CheckIn None "2024-03-05" (mkClock 9 0 0) "b4" 4 ].

End Examples.

(* ================================================================== *)
(** * server/storage.ts: the user directory *)
(* ================================================================== *)

(** [InsertUser]: a user row without [id] and [createdAt].  ([role] has a
    column default and is optional in the type; the register route always
    gives it.) *)
Module InsertUser.
Record t : Type := mk {
  name : string;
  email : string;
  password : string;
  role : string;
  employeeId : string;
  department : string
}.
End InsertUser.

Module Directory.
Import JS Storage.

(** [s.padStart(n, c)] for a one-character filler. *)
Fixpoint repeat_char (c : ascii) (n : nat) : string :=
  match n with
  | O => EmptyString
  | S n' => String c (repeat_char c n')
  end.

Definition padStart (n : nat) (c : ascii) (s : string) : string :=
  repeat_char c (n - String.length s) ++ s.

(** [MemStorage] with its counter of issued employee codes. *)
Record State : Type := mkState {
  mem : MemStorage;
  employeeCounter : Z
}.

(** The code the counter value [n] is printed as: [String(n)] of a
    non-negative integer is its decimal digits. *)
Definition employee_code (n : Z) : string :=
  "EMP" ++ padStart 3 "0" (string_of_nonneg n).

Definition generateEmployeeId (s : State) : string * State :=
  let counter := employeeCounter s + 1 in
  (employee_code counter, mkState (mem s) counter).

Definition getUserByEmail (st : MemStorage) (email : string) : option User.t :=
  find (fun user => (User.email user =? email)%string) (values (users st)).

(** [id] is the value of [randomUUID()] and [now] that of [new Date()]. *)
Definition createUser (s : State) (insertUser : InsertUser.t) (id : string) (now : Z)
  : User.t * State :=
  let (employeeId, s1) := generateEmployeeId s in
  let user :=
    User.mk id
      (InsertUser.name insertUser)
      (InsertUser.email insertUser)
      (InsertUser.password insertUser)
      (InsertUser.role insertUser)
      employeeId
      (InsertUser.department insertUser)
      now in
  (user,
   mkState (mkStorage (set (users (mem s1)) id user) (attendance (mem s1)))
           (employeeCounter s1)).

End Directory.

(* ================================================================== *)
(** * server/storage.ts: summaries, calendar and employee dashboard *)
(* ================================================================== *)

Module AttendanceSummary.
Record t : Type := mk {
  presentDays : Z;
  absentDays : Z;
  lateDays : Z;
  halfDays : Z;
  totalHours : JS.num
}.
End AttendanceSummary.

Module CalendarDay.
Record t : Type := mk {
  date : string;
  present : Z;
  absent : Z;
  late : Z;
  halfDay : Z;
  total : Z;
  records : list AttendanceWithUser.t
}.
End CalendarDay.

Module DashboardStats.
Record t : Type := mk {
  todayStatus : option Attendance.t;
  monthlySummary : AttendanceSummary.t;
  recentAttendance : list Attendance.t
}.
End DashboardStats.

Module Views.
Import JS Storage.

(** [rs.filter((r) => r.status === s).length] on attendance rows. *)
Definition count_rows (s : string) (rs : list Attendance.t) : Z :=
  len (filter (fun r => (Attendance.status r =? s)%string) rs).

(** [parseFloat(r.totalHours || "0") || 0]. *)
Definition hours_of (totalHours : option string) : num :=
  or_zero (parseFloat (or_else totalHours "0")).

(** [records.reduce((sum, r) => sum + hours(r), 0)], the sum kept exact. *)
Definition sum_rows (rs : list Attendance.t) : num :=
  fold_left (fun sum r => add sum (hours_of (Attendance.totalHours r)))
            rs (of_Z 0).

Section Collation.
Variable localeCompare : string -> string -> comparison.

(** [startDate] and [endDate] are the texts [format(monthStart, "yyyy-MM-dd")]
    and [format(monthEnd, "yyyy-MM-dd")] that date-fns derives from the
    [month] argument. *)
Definition getUserMonthlySummary (st : MemStorage) (userId startDate endDate : string)
  : AttendanceSummary.t :=
  let records := getUserAttendanceHistory localeCompare st userId startDate endDate in
  AttendanceSummary.mk
    (count_rows "present" records)
    (count_rows "absent" records)
    (count_rows "late" records)
    (count_rows "half-day" records)
    (sum_rows records).

(** [today], [monthStart], [monthEnd] and [sevenDaysAgo] are the formatted
    dates that the function derives from [new Date()]. *)
Definition getEmployeeDashboardStats (st : MemStorage)
           (userId today monthStart monthEnd sevenDaysAgo : string)
  : DashboardStats.t :=
  DashboardStats.mk
    (getAttendanceByUserAndDate st userId today)
    (getUserMonthlySummary st userId monthStart monthEnd)
    (getUserAttendanceHistory localeCompare st userId sevenDaysAgo today).
End Collation.

(** [days] holds [format(day, "yyyy-MM-dd")] for the days of
    [eachDayOfInterval({ start: monthStart, end: monthEnd })], in order. *)
Definition getCalendarData (st : MemStorage) (days : list string)
  : list CalendarDay.t :=
  map (fun dateStr =>
         let records := getAllAttendanceForDate st dateStr in
         CalendarDay.mk dateStr
           (count_status "present" records)
           (count_status "absent" records)
           (count_status "late" records)
           (count_status "half-day" records)
           (len records)
           records)
      days.

End Views.

(* ================================================================== *)
(** * server/routes.ts: sessions and the read routes *)
(* ================================================================== *)

Module Auth.
Import JS Storage Routes Directory Views.

(** [s.startsWith(p)]. *)
Definition startsWith (s p : string) : bool := String.prefix p s.

(** ** POST /api/auth/register, for a body that [registerSchema] accepts

    The five texts are the fields of [parsed.data]; [hashedPassword] is
    what [bcrypt.hash(password, 10)] returned, [uuid] and [created] what
    [createUser] draws.  The result holds the response, the storage and
    [req.session.userId] after the request. *)
Definition register (s : State) (session : option string)
           (name email password role department hashedPassword uuid : string)
           (created : Z)
  : Response UserWithoutPassword.t * State * option string :=
  match getUserByEmail (mem s) email with
  | Some existingUser => ((400, Message "Email already registered"), s, session)
  | None =>
      let (user, s') :=
        createUser s
          (InsertUser.mk name email hashedPassword role "" department)
          uuid created in
      ((201, Json (removePassword user)), s', Some (User.id user))
  end.

Section Bcrypt.
(** [bcrypt.compare(password, hash)]. *)
Variable bcryptCompare : string -> string -> bool.

(** ** POST /api/auth/login, for a body that [loginSchema] accepts *)
Definition login (st : MemStorage) (session : option string)
           (email password : string)
  : Response UserWithoutPassword.t * option string :=
  match getUserByEmail st email with
  | None => ((401, Message "Invalid email or password"), session)
  | Some user =>
      let isValidPassword :=
        if startsWith (User.password user) "$2b$"
        then bcryptCompare password (User.password user)
        else (User.password user =? password)%string in
      if negb isValidPassword
      then ((401, Message "Invalid email or password"), session)
      else ((200, Json (removePassword user)), Some (User.id user))
  end.
End Bcrypt.

(** ** GET /api/auth/me *)
Definition get_me (st : MemStorage) (session : option string)
  : Response UserWithoutPassword.t :=
  match requireAuth session with
  | Some r => r
  | None =>
      match getUser st (narrow session) with
      | None => (404, Message "User not found")
      | Some user => (200, Json (removePassword user))
      end
  end.

(** ** GET /api/attendance/today *)
Definition get_today (st : MemStorage) (session : option string) (today : string)
  : Response (option Attendance.t) :=
  match requireAuth session with
  | Some r => r
  | None => (200, Json (getAttendanceByUserAndDate st (narrow session) today))
  end.

(** ** GET /api/employees *)
Definition get_employees (st : MemStorage) (session : option string)
  : Response (list UserWithoutPassword.t) :=
  match requireManager st session with
  | Some r => r
  | None => (200, Json (getAllEmployees st))
  end.

(** ** GET /api/attendance/all; [date] is the query parameter, [today] the
    formatted [new Date()] that replaces a missing or empty one. *)
Definition get_all (st : MemStorage) (session : option string)
           (date : option string) (today : string)
  : Response (list AttendanceWithUser.t) :=
  match requireManager st session with
  | Some r => r
  | None => (200, Json (getAllAttendanceForDate st (or_else date today)))
  end.

(** ** GET /api/attendance/calendar, for a [month] parameter that
    date-fns can read; [days] as in [getCalendarData]. *)
Definition get_calendar (st : MemStorage) (session : option string)
           (days : list string) : Response (list CalendarDay.t) :=
  match requireManager st session with
  | Some r => r
  | None => (200, Json (getCalendarData st days))
  end.

(** ** GET /api/dashboard/manager *)
Definition get_manager_dashboard (st : MemStorage) (session : option string)
           (today : string) (week : list string)
  : Response ManagerDashboardStats.t :=
  match requireManager st session with
  | Some r => r
  | None => (200, Json (getManagerDashboardStats st today week))
  end.

Section Collation.
Variable localeCompare : string -> string -> comparison.

(** ** GET /api/attendance/my-history, for a [month] parameter that
    date-fns can read; [startDate] and [endDate] are the formatted bounds
    of that month. *)
Definition get_my_history (st : MemStorage) (session : option string)
           (startDate endDate : string)
  : Response (list Attendance.t * AttendanceSummary.t) :=
  match requireAuth session with
  | Some r => r
  | None =>
      let userId := narrow session in
      (200, Json (getUserAttendanceHistory localeCompare st userId startDate endDate,
                  getUserMonthlySummary localeCompare st userId startDate endDate))
  end.

(** ** GET /api/dashboard/employee *)
Definition get_employee_dashboard (st : MemStorage) (session : option string)
           (today monthStart monthEnd sevenDaysAgo : string)
  : Response DashboardStats.t :=
  match requireAuth session with
  | Some r => r
  | None =>
      (200, Json (getEmployeeDashboardStats localeCompare st (narrow session)
                    today monthStart monthEnd sevenDaysAgo))
  end.
End Collation.

End Auth.

(* ================================================================== *)
(** * Vocabulary of the further properties *)
(* ================================================================== *)

Module Laws.
Import JS Storage Routes Spec Directory Views Auth.

(** ** Statuses *)

Definition valid_status (s : string) : Prop :=
  s = "present" \/ s = "absent" \/ s = "late" \/ s = "half-day".

Definition statuses_valid (st : MemStorage) : Prop :=
  Forall (fun r => valid_status (Attendance.status r)) (values (attendance st)).

(** The statuses of a check-in from the earliest bracket to the latest. *)
Definition status_rank (s : string) : Z :=
  if (s =? "present")%string then 0
  else if (s =? "late")%string then 1
  else if (s =? "half-day")%string then 2
  else 3.

(** ** Department counters *)

Definition sum_present (ds : list ManagerDashboardStats.dept) : Z :=
  fold_right (fun d acc => ManagerDashboardStats.d_present d + acc) 0 ds.

Definition sum_absent (ds : list ManagerDashboardStats.dept) : Z :=
  fold_right (fun d acc => ManagerDashboardStats.d_absent d + acc) 0 ds.

(** The rows [departmentStats] is made of. *)
Definition dept_rows (m : Map (Z * Z)) : list ManagerDashboardStats.dept :=
  map (fun '(department, (p, a)) => ManagerDashboardStats.mkDept department p a) m.

(** A joined record whose owner is known and has a department among the
    texts [ks]. *)
Definition counted_among (ks : list string) (x : AttendanceWithUser.t) : bool :=
  match AttendanceWithUser.user x with
  | Some u =>
      negb (UserWithoutPassword.department u =? "")%string
      && has ks (UserWithoutPassword.department u)
  | None => false
  end.

(** The texts of a list without their later repetitions. *)
Fixpoint first_occurrences (seen xs : list string) : list string :=
  match xs with
  | [] => []
  | x :: xs' =>
      if has seen x then first_occurrences seen xs'
      else x :: first_occurrences (seen ++ [x])%list xs'
  end.

(** A joined record whose owner is known, has a department, and that
    department is one of the employees'. *)
Definition counted_in_department (employees : list UserWithoutPassword.t)
           (x : AttendanceWithUser.t) : bool :=
  match AttendanceWithUser.user x with
  | Some u =>
      negb (UserWithoutPassword.department u =? "")%string
      && has (map UserWithoutPassword.department employees)
             (UserWithoutPassword.department u)
  | None => false
  end.

Definition is_absent (x : AttendanceWithUser.t) : bool :=
  (AttendanceWithUser.status x =? "absent")%string.

(** ** The directory *)

Definition emails_unique (st : MemStorage) : Prop :=
  NoDup (map User.email (values (users st))).

(** Every employee code in the directory was issued by the counter, and
    no two users share one. *)
Definition codes_issued (s : State) : Prop :=
  0 <= employeeCounter s
  /\ NoDup (map User.employeeId (values (users (mem s))))
  /\ Forall (fun u => exists k, 1 <= k <= employeeCounter s
                                /\ User.employeeId u = employee_code k)
            (values (users (mem s))).

Inductive Registration : Type :=
| Register (session : option string)
           (name email password role department hashedPassword uuid : string)
           (created : Z).

Definition enroll (s : State) (rq : Registration) : State :=
  match rq with
  | Register session name email password role department hashedPassword uuid created =>
      snd (fst (register s session name email password role department
                         hashedPassword uuid created))
  end.

Definition enroll_all (s : State) (rqs : list Registration) : State :=
  fold_left enroll rqs s.

(** The session belongs to a manager of the directory. *)
Definition manager_session (st : MemStorage) (session : option string) : Prop :=
  exists sid user,
    session = Some sid /\ sid <> ""
    /\ getUser st sid = Some user /\ User.role user = "manager".

(** ** A stand-in for bcrypt in the examples: the hash of [p] is
    ["$2b$"] followed by [p]. *)
Definition toy_hash (p : string) : string := "$2b$" ++ p.
Definition toy_compare (p h : string) : bool := (h =? toy_hash p)%string.

(** The small store with its six codes issued, and two registrations: a
    new employee, and a second one with the email of the first. *)
Definition office : State := mkState Examples.store 6.

Definition enrolments : list Registration :=
  [ Register None "Dana Egan" "dana@company.com" "secret1" "employee"
             "Design" (toy_hash "secret1") "u7" 7;
    Register None "Dan Egan" "dana@company.com" "secret2" "manager"
             "Product" (toy_hash "secret2") "u8" 8 ].

End Laws.

(* ================================================================== *)
(** * Facts about the JavaScript built-ins *)
(* ================================================================== *)

Module JSFacts.
Import JS.

Ltac digit_cases d :=
  let H := fresh in
  assert (H : d = 0 \/ d = 1 \/ d = 2 \/ d = 3 \/ d = 4 \/
              d = 5 \/ d = 6 \/ d = 7 \/ d = 8 \/ d = 9) by lia;
  repeat (destruct H as [H | H]; [subst d | ]); [ .. | subst d].

Lemma digit_of_ascii_of_digit (d : Z) :
  0 <= d <= 9 -> digit_of_ascii (ascii_of_digit d) = Some d.
Proof. intro Hd. digit_cases d; reflexivity. Qed.

Lemma is_digit_ascii_of_digit (d : Z) :
  0 <= d <= 9 -> is_digit (ascii_of_digit d) = true.
Proof.
  intro Hd. unfold is_digit. now rewrite digit_of_ascii_of_digit.
Qed.

Lemma ascii_of_digit_not_colon (d : Z) :
  0 <= d <= 9 -> Ascii.eqb (ascii_of_digit d) ":" = false.
Proof. intro Hd. digit_cases d; reflexivity. Qed.

Lemma div10_digit (n : Z) : 0 <= n < 100 -> 0 <= n / 10 <= 9.
Proof.
  intro H. split.
  - apply Z.div_pos; lia.
  - assert (n / 10 < 10) by (apply Z.div_lt_upper_bound; lia). lia.
Qed.

Lemma mod10_digit (n : Z) : 0 <= n mod 10 <= 9.
Proof. pose proof (Z.mod_pos_bound n 10). lia. Qed.

Lemma digits_value_pad2 (n : Z) :
  0 <= n < 100 -> digits_value 0 (pad2 n) = Some n.
Proof.
  intro H. unfold pad2. cbn [digits_value].
  rewrite (digit_of_ascii_of_digit (n / 10)) by now apply div10_digit.
  rewrite (digit_of_ascii_of_digit (n mod 10)) by apply mod10_digit.
  f_equal. pose proof (Z.div_mod n 10). lia.
Qed.

Lemma Number_pad2 (n : Z) : 0 <= n < 100 -> Number (pad2 n) = of_Z n.
Proof. intro H. unfold Number. now rewrite digits_value_pad2. Qed.

Lemma split_pad2 (n : Z) (rest : string) :
  0 <= n < 100 ->
  split ":" (pad2 n ++ ":" ++ rest) = pad2 n :: split ":" rest.
Proof.
  intro H. unfold pad2. cbn [append split].
  rewrite (ascii_of_digit_not_colon (n / 10)) by now apply div10_digit.
  rewrite (ascii_of_digit_not_colon (n mod 10)) by apply mod10_digit.
  reflexivity.
Qed.

Lemma split_pad2_end (n : Z) :
  0 <= n < 100 -> split ":" (pad2 n) = [pad2 n].
Proof.
  intro H. unfold pad2. cbn [split].
  rewrite (ascii_of_digit_not_colon (n / 10)) by now apply div10_digit.
  rewrite (ascii_of_digit_not_colon (n mod 10)) by apply mod10_digit.
  reflexivity.
Qed.

(** Comparing and flooring the rationals the server builds from integers. *)

Lemma le_minutes (h m k : Z) :
  le (add (mul (of_Z h) (of_Z 60)) (of_Z m)) (of_Z k) = (h * 60 + m <=? k).
Proof.
  unfold le, add, mul, lift2, of_Z, Qle_bool. cbn.
  f_equal; lia.
Qed.

Lemma toFixed2_Qeq (q q' : Q) : (q == q')%Q -> toFixed2 (Fin q) = toFixed2 (Fin q').
Proof.
  intro H. unfold toFixed2.
  assert (Hb : Qle_bool 0 q = Qle_bool 0 q') by now rewrite H.
  rewrite Hb.
  destruct (negb (Qle_bool 0 q')).
  - assert (Hf : Qfloor (- q * 100 + (1 # 2)) = Qfloor (- q' * 100 + (1 # 2))) by now rewrite H.
    now rewrite Hf.
  - assert (Hf : Qfloor (q * 100 + (1 # 2)) = Qfloor (q' * 100 + (1 # 2))) by now rewrite H.
    now rewrite Hf.
Qed.

Lemma Qfloor_hundredths (a : Z) :
  Qfloor ((a # 60) * 100 + (1 # 2)) = (10 * a + 3) / 6.
Proof.
  assert (H : ((a # 60) * 100 + (1 # 2) == (10 * a + 3) # 6)%Q).
  { unfold Qeq. cbn -[Z.mul Z.add]. lia. }
  rewrite H. reflexivity.
Qed.

Lemma toFixed2_sixtieths (d : Z) :
  toFixed2 (Fin (d # 60)) =
    (if d <? 0 then "-" else "")
      ++ string_of_nonneg ((10 * Z.abs d + 3) / 6 / 100)
      ++ "." ++ pad2 (((10 * Z.abs d + 3) / 6) mod 100).
Proof.
  unfold toFixed2.
  assert (Hs : Qle_bool 0 (d # 60) = (0 <=? d)).
  { unfold Qle_bool. cbn -[Z.mul]. f_equal; lia. }
  rewrite Hs.
  destruct (Z.leb_spec 0 d) as [Hd | Hd]; cbn [negb].
  - assert (Hn : (d <? 0) = false) by (apply Z.ltb_ge; lia).
    rewrite Hn, Qfloor_hundredths, Z.abs_eq by lia. reflexivity.
  - assert (Hn : (d <? 0) = true) by (apply Z.ltb_lt; lia).
    rewrite Hn.
    assert (Ho : (- (d # 60) == (Z.abs d # 60))%Q).
    { unfold Qeq. cbn -[Z.mul Z.add Z.abs]. lia. }
    assert (Hf : Qfloor (- (d # 60) * 100 + (1 # 2))
                 = Qfloor ((Z.abs d # 60) * 100 + (1 # 2))) by now rewrite Ho.
    rewrite Hf, Qfloor_hundredths. reflexivity.
Qed.

Lemma div_sub_minutes (h1 m1 h2 m2 : Z) :
  exists q,
    div (sub (add (mul (of_Z h2) (of_Z 60)) (of_Z m2))
             (add (mul (of_Z h1) (of_Z 60)) (of_Z m1))) (of_Z 60) = Fin q
    /\ (q == ((h2 * 60 + m2) - (h1 * 60 + m1)) # 60)%Q.
Proof.
  eexists. split; [reflexivity | ].
  unfold Qeq. cbn -[Z.mul Z.add Z.sub]. lia.
Qed.

Lemma append_assoc' (a b c : string) : ((a ++ b) ++ c = a ++ (b ++ c))%string.
Proof. induction a as [| x a IH]; cbn; [reflexivity | now rewrite IH]. Qed.

Lemma digits_of_app (fuel : nat) : forall n acc,
  digits_of fuel n acc = (digits_of fuel n "" ++ acc)%string.
Proof.
  induction fuel as [| fuel IH]; intros n acc; cbn [digits_of].
  - reflexivity.
  - destruct (n <? 10).
    + reflexivity.
    + rewrite (IH _ (String _ acc)), (IH _ (String _ "")).
      now rewrite append_assoc'.
Qed.

Lemma all_digits_digits_of (fuel : nat) : forall n acc,
  0 <= n -> all_digits acc = true -> all_digits (digits_of fuel n acc) = true.
Proof.
  induction fuel as [| fuel IH]; intros n acc Hn Hacc; cbn [digits_of].
  - assumption.
  - assert (Hd : all_digits (String (ascii_of_digit (n mod 10)) acc) = true).
    { cbn [all_digits]. rewrite is_digit_ascii_of_digit by apply mod10_digit.
      assumption. }
    destruct (n <? 10); [assumption | ].
    apply IH; [ | assumption].
    apply Z.div_pos; lia.
Qed.

Lemma digits_value_digits_of (fuel : nat) : forall n acc,
  0 <= n < 10 ^ Z.of_nat fuel ->
  digits_value 0 (digits_of fuel n acc) = digits_value n acc.
Proof.
  induction fuel as [| fuel IH]; intros n acc Hn; cbn [digits_of].
  - cbn in Hn. now replace n with 0 by lia.
  - destruct (Z.ltb_spec n 10) as [Hlt | Hge].
    + cbn [digits_value].
      rewrite digit_of_ascii_of_digit by apply mod10_digit.
      rewrite Z.mod_small by lia. reflexivity.
    + rewrite IH.
      * cbn [digits_value].
        rewrite digit_of_ascii_of_digit by apply mod10_digit.
        f_equal. pose proof (Z.div_mod n 10). lia.
      * split; [apply Z.div_pos; lia | ].
        apply Z.div_lt_upper_bound; [lia | ].
        rewrite Nat2Z.inj_succ, Z.pow_succ_r in Hn by lia. lia.
Qed.

Lemma lt_pow10_log2 (n : Z) : 0 <= n -> n < 10 ^ Z.of_nat (S (Z.to_nat (Z.log2 n))).
Proof.
  intro Hn.
  rewrite Nat2Z.inj_succ, Z2Nat.id by apply Z.log2_nonneg.
  destruct (Z.eq_dec n 0) as [-> | Hz]; [reflexivity | ].
  assert (H2 : n < 2 ^ Z.succ (Z.log2 n)) by (apply Z.log2_spec; lia).
  assert (Hle : 2 ^ Z.succ (Z.log2 n) <= 10 ^ Z.succ (Z.log2 n)).
  { apply Z.pow_le_mono_l. lia. }
  lia.
Qed.

Lemma digits_value_string_of_nonneg (n : Z) :
  0 <= n -> digits_value 0 (string_of_nonneg n) = Some n.
Proof.
  intro Hn. unfold string_of_nonneg.
  rewrite digits_value_digits_of
    by (split; [assumption | now apply lt_pow10_log2]).
  reflexivity.
Qed.

Lemma all_digits_string_of_nonneg (n : Z) :
  0 <= n -> all_digits (string_of_nonneg n) = true.
Proof. intro Hn. now apply all_digits_digits_of. Qed.

Lemma string_of_nonneg_head (n : Z) :
  0 <= n ->
  exists c rest, string_of_nonneg n = String c rest /\ is_digit c = true.
Proof.
  intro Hn. pose proof (all_digits_string_of_nonneg n Hn) as Ha.
  unfold string_of_nonneg in *. cbn [digits_of] in *.
  destruct (n <? 10).
  - eexists _, _. split; [reflexivity | ].
    cbn [all_digits] in Ha. now apply andb_true_iff in Ha.
  - rewrite digits_of_app in Ha |- *.
    destruct (digits_of _ _ "") as [| c rest]; cbn [append] in *.
    + eexists _, _. split; [reflexivity | ].
      cbn [all_digits] in Ha. now apply andb_true_iff in Ha.
    + eexists _, _. split; [reflexivity | ].
      cbn [all_digits] in Ha. now apply andb_true_iff in Ha.
Qed.

Lemma span_digits_app (p r : string) :
  all_digits p = true -> starts_nondigit r = true ->
  span_digits (p ++ r) = (p, r).
Proof.
  intros Hp Hr. induction p as [| c p IH]; cbn [append].
  - destruct r as [| c r]; [reflexivity | ].
    cbn [span_digits]. cbn in Hr.
    now destruct (is_digit c).
  - cbn [all_digits] in Hp. apply andb_true_iff in Hp as [Hc Hp].
    cbn [span_digits]. rewrite Hc, (IH Hp). reflexivity.
Qed.

Lemma span_digits_all (p : string) :
  all_digits p = true -> span_digits p = (p, "").
Proof.
  intro Hp. induction p as [| c p IH]; [reflexivity | ].
  cbn [all_digits] in Hp. apply andb_true_iff in Hp as [Hc Hp].
  cbn [span_digits]. now rewrite Hc, (IH Hp).
Qed.

Lemma all_digits_pad2 (j : Z) : 0 <= j < 100 -> all_digits (pad2 j) = true.
Proof.
  intro Hj. unfold pad2. cbn [all_digits].
  rewrite is_digit_ascii_of_digit by now apply div10_digit.
  rewrite is_digit_ascii_of_digit by apply mod10_digit.
  reflexivity.
Qed.

Lemma parse_unsigned_fixed2 (k j : Z) :
  0 <= k -> 0 <= j < 100 ->
  parse_unsigned (string_of_nonneg k ++ "." ++ pad2 j)
  = Fin (inject_Z k + inject_Z j / inject_Z 100)%Q.
Proof.
  intros Hk Hj. unfold parse_unsigned.
  rewrite span_digits_app
    by (try reflexivity; now apply all_digits_string_of_nonneg).
  cbn [append].
  rewrite (span_digits_all (pad2 j)) by now apply all_digits_pad2.
  cbn [fst].
  destruct (string_of_nonneg_head k Hk) as (c & rest & Hs & _).
  rewrite Hs at 1. cbn [String.eqb andb].
  unfold digits_or_zero.
  rewrite digits_value_string_of_nonneg, digits_value_pad2 by assumption.
  reflexivity.
Qed.

Lemma parseFloat_digit_head (c : ascii) (rest : string) :
  is_digit c = true -> parseFloat (String c rest) = parse_unsigned (String c rest).
Proof.
  destruct c as [[] [] [] [] [] [] [] []]; intro H; try discriminate H; reflexivity.
Qed.

Lemma parseFloat_fixed2 (neg : bool) (k j : Z) :
  0 <= k -> 0 <= j < 100 ->
  parseFloat ((if neg then "-" else "") ++ string_of_nonneg k ++ "." ++ pad2 j)
  = if neg then Fin (- (inject_Z k + inject_Z j / inject_Z 100))%Q
    else Fin (inject_Z k + inject_Z j / inject_Z 100)%Q.
Proof.
  intros Hk Hj. destruct neg.
  - change (parseFloat (String "-" (string_of_nonneg k ++ "." ++ pad2 j))
            = Fin (- (inject_Z k + inject_Z j / inject_Z 100))%Q).
    unfold parseFloat. now rewrite parse_unsigned_fixed2.
  - destruct (string_of_nonneg_head k Hk) as (c & rest & Hs & Hc).
    rewrite <- (parse_unsigned_fixed2 k j) by assumption.
    rewrite Hs. now apply parseFloat_digit_head.
Qed.

End JSFacts.

(* ================================================================== *)
(** * The status classifier *)
(* ================================================================== *)

Module ClassifierFacts.
Import JS Routes JSFacts.

Lemma split_hhmmss (h m s : Z) :
  0 <= h < 100 -> 0 <= m < 100 -> 0 <= s < 100 ->
  split ":" (hhmmss h m s) = [pad2 h; pad2 m; pad2 s].
Proof.
  intros Hh Hm Hs. unfold hhmmss.
  rewrite split_pad2 by assumption.
  rewrite split_pad2 by assumption.
  now rewrite split_pad2_end.
Qed.

Lemma minutes_of_hhmmss (h m s : Z) :
  0 <= h < 100 -> 0 <= m < 100 -> 0 <= s < 100 ->
  minutes_of (hhmmss h m s) = add (mul (of_Z h) (of_Z 60)) (of_Z m).
Proof.
  intros Hh Hm Hs. unfold minutes_of.
  rewrite split_hhmmss by assumption.
  cbn [map index nth].
  now rewrite !Number_pad2.
Qed.

Lemma calculateStatus_hhmmss (h m s : Z) :
  0 <= h < 100 -> 0 <= m < 100 -> 0 <= s < 100 ->
  calculateStatus (hhmmss h m s) =
    if h * 60 + m <=? 570 then "present"
    else if h * 60 + m <=? 720 then "late"
    else "half-day".
Proof.
  intros Hh Hm Hs. unfold calculateStatus.
  rewrite minutes_of_hhmmss by assumption.
  now rewrite !le_minutes.
Qed.

(** C1. For every check-in time written [HH:MM:SS], [calculateStatus]
    answers ["present"] when [hours * 60 + minutes] is at most 570
    (09:30), ["late"] when it is above 570 and at most 720 (12:00), and
    ["half-day"] when it is above 720; the boundary times [09:30:00] and
    [12:00:00] are ["present"] and ["late"]. *)
Theorem calculateStatus_brackets (h m s : Z) :
  0 <= h < 100 -> 0 <= m < 100 -> 0 <= s < 100 ->
  (h * 60 + m <= 570 -> calculateStatus (hhmmss h m s) = "present")
  /\ (570 < h * 60 + m <= 720 -> calculateStatus (hhmmss h m s) = "late")
  /\ (720 < h * 60 + m -> calculateStatus (hhmmss h m s) = "half-day")
  /\ calculateStatus "09:30:00" = "present"
  /\ calculateStatus "12:00:00" = "late".
Proof.
  intros Hh Hm Hs.
  rewrite calculateStatus_hhmmss by assumption.
  repeat split.
  - intro H. apply Z.leb_le in H. now rewrite H.
  - intros [H1 H2].
    apply Z.leb_gt in H1. apply Z.leb_le in H2. now rewrite H1, H2.
  - intro H.
    assert (H1 : (h * 60 + m <=? 570) = false) by (apply Z.leb_gt; lia).
    assert (H2 : (h * 60 + m <=? 720) = false) by (apply Z.leb_gt; lia).
    now rewrite H1, H2.
Qed.

Lemma calculateStatus_brackets_witness :
  (0 <= 10 < 100 /\ 0 <= 45 < 100 /\ 0 <= 30 < 100)
  /\ 570 < 10 * 60 + 45 <= 720
  /\ calculateStatus (hhmmss 10 45 30) = "late".
Proof.
  split; [lia | ]. split; [lia | ].
  refine (proj1 (proj2 (calculateStatus_brackets 10 45 30 _ _ _)) _); lia.
Defined.

End ClassifierFacts.

Module DurationFacts.
Import JS Routes Spec JSFacts ClassifierFacts.

Lemma calculateTotalHours_hhmmss (h1 m1 s1 h2 m2 s2 : Z) :
  0 <= h1 < 100 -> 0 <= m1 < 100 -> 0 <= s1 < 100 ->
  0 <= h2 < 100 -> 0 <= m2 < 100 -> 0 <= s2 < 100 ->
  calculateTotalHours (hhmmss h1 m1 s1) (hhmmss h2 m2 s2)
  = toFixed2 (Fin (minutes_between h1 m1 h2 m2 # 60)).
Proof.
  intros. unfold calculateTotalHours.
  rewrite !minutes_of_hhmmss by assumption.
  destruct (div_sub_minutes h1 m1 h2 m2) as (q & Hq & Heq).
  rewrite Hq. now apply toFixed2_Qeq.
Qed.

Lemma nearest_hundredth (a : Z) :
  0 <= a ->
  0 <= (10 * a + 3) / 6 /\ Z.abs (6 * ((10 * a + 3) / 6) - 10 * a) < 3.
Proof.
  intro Ha.
  pose proof (Z.div_mod (10 * a + 3) 6 ltac:(lia)) as Hd.
  pose proof (Z.mod_pos_bound (10 * a + 3) 6 ltac:(lia)) as Hm.
  split.
  - apply Z.div_pos; lia.
  - lia.
Qed.

Lemma hoursWorked_sixtieths (d : Z) :
  exists q,
    parseFloat (toFixed2 (Fin (d # 60))) = Fin q
    /\ (q * 100 == inject_Z (Z.sgn d * ((10 * Z.abs d + 3) / 6)))%Q.
Proof.
  rewrite toFixed2_sixtieths.
  set (n := (10 * Z.abs d + 3) / 6).
  assert (Hn : 0 <= n) by (apply nearest_hundredth; lia).
  pose proof (Z.div_mod n 100 ltac:(lia)) as Hdm.
  pose proof (Z.mod_pos_bound n 100 ltac:(lia)) as Hmod.
  rewrite parseFloat_fixed2 by (try assumption; apply Z.div_pos; lia).
  destruct (Z.ltb_spec d 0) as [Hneg | Hpos]; eexists; (split; [reflexivity | ]).
  - unfold Qeq. cbn -[Z.mul Z.add Z.div Z.modulo Z.sgn].
    rewrite Z.sgn_neg by lia. lia.
  - unfold Qeq. cbn -[Z.mul Z.add Z.div Z.modulo Z.sgn].
    destruct (Z.eq_dec d 0) as [-> | Hnz].
    + subst n. cbn. reflexivity.
    + rewrite Z.sgn_pos by lia. lia.
Qed.

Lemma lt_Fin_iff (q : Q) (k : Z) : lt (Fin q) (of_Z k) = true <-> (q < inject_Z k)%Q.
Proof.
  unfold lt, of_Z. rewrite negb_true_iff.
  split.
  - intro H. apply Qnot_le_lt. intro Hle.
    apply Qle_bool_iff in Hle. congruence.
  - intro H. destruct (Qle_bool (inject_Z k) q) eqn:E; [ | reflexivity].
    apply Qle_bool_iff in E. exfalso. now apply (Qlt_not_le _ _ H).
Qed.

Lemma hoursWorked_below_4 (d : Z) :
  lt (parseFloat (toFixed2 (Fin (d # 60)))) (of_Z 4) = (d <? 240).
Proof.
  destruct (hoursWorked_sixtieths d) as (q & Hq & Heq).
  rewrite Hq.
  assert (Hn := nearest_hundredth (Z.abs d) ltac:(lia)).
  remember ((10 * Z.abs d + 3) / 6) as n eqn:Hdef. clear Hdef.
  assert (Hiff : (q < inject_Z 4)%Q <-> Z.sgn d * n < 400).
  { split; intro H.
    - assert (H' : (q * 100 < inject_Z 400)%Q).
      { change (inject_Z 400) with (inject_Z 4 * 100)%Q.
        apply Qmult_lt_compat_r; [reflexivity | assumption]. }
      rewrite Heq in H'. now rewrite <- Zlt_Qlt in H'.
    - apply (Qmult_lt_r _ _ 100); [reflexivity | ].
      rewrite Heq. change (inject_Z 4 * 100)%Q with (inject_Z 400).
      now rewrite <- Zlt_Qlt. }
  destruct (Z.ltb_spec d 240) as [Hd | Hd].
  - apply lt_Fin_iff, Hiff.
    destruct (Z.lt_trichotomy d 0) as [Hs | [-> | Hs]].
    + rewrite Z.sgn_neg by lia. lia.
    + cbn. lia.
    + rewrite Z.sgn_pos by lia. lia.
  - destruct (lt (Fin q) (of_Z 4)) eqn:E; [ | reflexivity].
    apply lt_Fin_iff, Hiff in E.
    rewrite Z.sgn_pos in E by lia. lia.
Qed.

(** C2 (as amended). For check-in and check-out times written [HH:MM:SS],
    [calculateTotalHours] prints, with two decimals, the hundredth of an
    hour nearest to the minutes between them divided by 60, as
    [toFixed(2)] rounds it: one minute gives ["0.02"], 09:00:00 to
    17:30:00 gives ["8.50"], and a check-out before the check-in is not
    guarded and gives a negative text. *)
Theorem calculateTotalHours_rounds (h1 m1 s1 h2 m2 s2 : Z) :
  0 <= h1 < 100 -> 0 <= m1 < 100 -> 0 <= s1 < 100 ->
  0 <= h2 < 100 -> 0 <= m2 < 100 -> 0 <= s2 < 100 ->
  let d := minutes_between h1 m1 h2 m2 in
  (exists n,
      0 <= n
      /\ Z.abs (6 * n - 10 * Z.abs d) < 3
      /\ calculateTotalHours (hhmmss h1 m1 s1) (hhmmss h2 m2 s2)
         = (if d <? 0 then "-" else "")
             ++ string_of_nonneg (n / 100) ++ "." ++ pad2 (n mod 100)
      /\ exists q,
          parseFloat (calculateTotalHours (hhmmss h1 m1 s1) (hhmmss h2 m2 s2))
          = Fin q
          /\ (q * 100 == inject_Z (Z.sgn d * n))%Q)
  /\ calculateTotalHours "09:00:00" "09:01:00" = "0.02"
  /\ calculateTotalHours "09:00:00" "17:30:00" = "8.50"
  /\ calculateTotalHours "17:00:00" "09:00:00" = "-8.00".
Proof.
  intros Hh1 Hm1 Hs1 Hh2 Hm2 Hs2 d.
  split; [ | repeat split; reflexivity].
  exists ((10 * Z.abs d + 3) / 6).
  rewrite calculateTotalHours_hhmmss by assumption. fold d.
  pose proof (nearest_hundredth (Z.abs d) ltac:(lia)) as [Hn Hnear].
  repeat split; try assumption.
  - apply toFixed2_sixtieths.
  - apply hoursWorked_sixtieths.
Qed.

Lemma calculateTotalHours_rounds_witness :
  (0 <= 9 < 100 /\ 0 <= 15 < 100 /\ 0 <= 0 < 100
   /\ 0 <= 17 < 100 /\ 0 <= 0 < 100 /\ 0 <= 0 < 100)
  /\ exists n,
      0 <= n
      /\ Z.abs (6 * n - 10 * Z.abs (minutes_between 9 15 17 0)) < 3
      /\ calculateTotalHours (hhmmss 9 15 0) (hhmmss 17 0 0)
         = (if minutes_between 9 15 17 0 <? 0 then "-" else "")
             ++ string_of_nonneg (n / 100) ++ "." ++ pad2 (n mod 100)
      /\ exists q,
          parseFloat (calculateTotalHours (hhmmss 9 15 0) (hhmmss 17 0 0)) = Fin q
          /\ (q * 100 == inject_Z (Z.sgn (minutes_between 9 15 17 0) * n))%Q.
Proof.
  split; [lia | ].
  refine (proj1 (calculateTotalHours_rounds 9 15 0 17 0 0 _ _ _ _ _ _)); lia.
Defined.

(** C2, the claim as written, fails: for a one-minute interval the server
    stores 0.02 hours, where truncation to two decimals gives 0.01. *)
Lemma calculateTotalHours_not_truncated :
  calculateTotalHours "09:00:00" "09:01:00" = "0.02"
  /\ parseFloat "0.02" = Fin (0 + 2 / 100)%Q
  /\ truncated_hundredths (minutes_between 9 0 9 1) = 1
  /\ ~ (0 + 2 / 100 == inject_Z (truncated_hundredths (minutes_between 9 0 9 1)) / 100)%Q.
Proof.
  repeat split. intro H. discriminate H.
Qed.

(** C3. The status revision at checkout answers ["half-day"] whenever the
    hours worked are below 4, whatever the stored status, and the stored
    status itself whenever they are 4 or more: ["late"] with 3.5 hours
    becomes ["half-day"], ["present"] with 8 hours stays ["present"], and
    ["late"] never becomes ["present"]. *)
Theorem reconcileStatusOnCheckout_rule (s : string) (q : Q) :
  ((q < 4)%Q -> reconcileStatusOnCheckout s (Fin q) = "half-day")
  /\ ((4 <= q)%Q -> reconcileStatusOnCheckout s (Fin q) = s)
  /\ reconcileStatusOnCheckout "late" (Fin (7 # 2)) = "half-day"
  /\ reconcileStatusOnCheckout "present" (Fin 8) = "present"
  /\ (forall h, reconcileStatusOnCheckout "late" h <> "present").
Proof.
  unfold reconcileStatusOnCheckout.
  repeat split.
  - intro H. apply (lt_Fin_iff q 4) in H. now rewrite H.
  - intro H. destruct (lt (Fin q) (of_Z 4)) eqn:E; [ | reflexivity].
    apply lt_Fin_iff in E. exfalso. now apply (Qlt_not_le _ _ E).
  - intro h. destruct (lt h (of_Z 4)); discriminate.
Qed.

Lemma reconcileStatusOnCheckout_rule_witness :
  ((3 # 2) < 4)%Q /\ reconcileStatusOnCheckout "late" (Fin (3 # 2)) = "half-day".
Proof.
  split; [reflexivity | ].
  exact (proj1 (reconcileStatusOnCheckout_rule "late" (3 # 2)) eq_refl).
Defined.

End DurationFacts.

(* ================================================================== *)
(** * The attendance map under check-in and check-out *)
(* ================================================================== *)

Module MapFacts.
Import JS.
Local Open Scope list_scope.

Section WithValues.
Context {V : Type}.
Implicit Types (m : Map V) (k : string) (v : V).

Lemma get_In m k v : get m k = Some v -> In (k, v) m.
Proof.
  induction m as [| [k' v'] m IH]; cbn [get]; [discriminate | ].
  destruct (String.eqb_spec k' k) as [-> | Hne]; intro H.
  - injection H as ->. now left.
  - right. now apply IH.
Qed.

Lemma get_None m k : get m k = None -> ~ In k (keys m).
Proof.
  induction m as [| [k' v'] m IH]; cbn [get keys map fst In]; [tauto | ].
  destruct (String.eqb_spec k' k) as [-> | Hne]; intro H; [discriminate | ].
  intros [Heq | Hin]; [contradiction | now apply IH].
Qed.

Lemma In_get m k v : NoDup (keys m) -> In (k, v) m -> get m k = Some v.
Proof.
  induction m as [| [k' v'] m IH]; cbn [get keys map fst In]; [tauto | ].
  intros Hnd [Heq | Hin].
  - injection Heq as -> ->. now rewrite String.eqb_refl.
  - apply NoDup_cons_iff in Hnd as [Hk Hnd].
    destruct (String.eqb_spec k' k) as [-> | Hne].
    + exfalso. apply Hk. change k with (fst (k, v)). now apply in_map.
    + now apply IH.
Qed.

Lemma set_found m k old v :
  get m k = Some old ->
  exists l1 l2, m = l1 ++ (k, old) :: l2 /\ set m k v = l1 ++ (k, v) :: l2.
Proof.
  induction m as [| [k' v'] m IH]; cbn [get set]; [discriminate | ].
  destruct (String.eqb_spec k' k) as [-> | Hne]; intro H.
  - injection H as ->. now exists [], m.
  - destruct (IH H) as (l1 & l2 & -> & ->).
    now exists ((k', v') :: l1), l2.
Qed.

Lemma set_fresh m k v : get m k = None -> set m k v = m ++ [(k, v)].
Proof.
  induction m as [| [k' v'] m IH]; cbn [get set]; [reflexivity | ].
  destruct (String.eqb_spec k' k) as [-> | Hne]; intro H; [discriminate | ].
  cbn [app]. now rewrite IH.
Qed.

Lemma keys_set_found m k old v : get m k = Some old -> keys (set m k v) = keys m.
Proof.
  intro H. destruct (set_found m k old v H) as (l1 & l2 & -> & ->).
  unfold keys. now rewrite !map_app.
Qed.

(** Writing [v] leaves only [v] and old values in the map. *)
Lemma In_values_set m k v x :
  In x (values (set m k v)) -> x = v \/ In x (values m).
Proof.
  unfold values. destruct (get m k) as [old | ] eqn:E.
  - destruct (set_found m k old v E) as (l1 & l2 & -> & ->).
    rewrite !map_app, !in_app_iff. cbn [map snd In]. intuition auto.
  - rewrite (set_fresh m k v E), map_app, in_app_iff. cbn. intuition auto.
Qed.

Lemma In_values m v : In v (values m) -> exists k, In (k, v) m.
Proof.
  unfold values. intro H. apply in_map_iff in H as ([k v'] & Heq & Hin).
  cbn in Heq. subst v'. now exists k.
Qed.
End WithValues.

End MapFacts.

Module StoreFacts.
Import JS Storage Routes Spec MapFacts.
Local Open Scope list_scope.

Lemma NoDup_map_inj {A B : Type} (f : A -> B) (l : list A) (a b : A) :
  NoDup (map f l) -> In a l -> In b l -> f a = f b -> a = b.
Proof.
  induction l as [| x l IH]; cbn [map In]; [tauto | ].
  intros Hnd Ha Hb Hf. apply NoDup_cons_iff in Hnd as [Hx Hnd].
  destruct Ha as [-> | Ha], Hb as [-> | Hb]; auto.
  - exfalso. apply Hx. rewrite Hf. now apply in_map.
  - exfalso. apply Hx. rewrite <- Hf. now apply in_map.
Qed.

Lemma NoDup_replace {B : Type} (l1 l2 : list B) (a b : B) :
  NoDup (l1 ++ a :: l2) -> ~ In b (l1 ++ l2) -> NoDup (l1 ++ b :: l2).
Proof.
  intros Hnd Hb. apply NoDup_remove_1 in Hnd.
  apply (Permutation_NoDup (Permutation_middle l1 l2 b)).
  now constructor.
Qed.

Lemma NoDup_snoc {B : Type} (l : list B) (b : B) :
  NoDup l -> ~ In b l -> NoDup (l ++ [b]).
Proof.
  intros Hnd Hb.
  apply (Permutation_NoDup (Permutation_cons_append l b)).
  now constructor.
Qed.

(** ** The lookup by user and date *)

Lemma lookup_found st u d e :
  getAttendanceByUserAndDate st u d = Some e -> record_for st u d e.
Proof.
  unfold getAttendanceByUserAndDate, find. intro H.
  apply find_some in H as [Hin Hp].
  apply andb_true_iff in Hp as [Hu Hd].
  apply String.eqb_eq in Hu, Hd. now repeat split.
Qed.

Lemma lookup_none st u d :
  getAttendanceByUserAndDate st u d = None -> no_record_for st u d.
Proof.
  unfold getAttendanceByUserAndDate, find. intros H r (Hin & Hu & Hd).
  pose proof (find_none _ _ H r Hin) as Hp. cbn beta in Hp.
  subst u d. now rewrite !String.eqb_refl in Hp.
Qed.

Lemma record_unique st u d r1 r2 :
  unique_user_date (attendance st) ->
  record_for st u d r1 -> record_for st u d r2 -> r1 = r2.
Proof.
  intros Hu (Hin1 & Hu1 & Hd1) (Hin2 & Hu2 & Hd2).
  apply (NoDup_map_inj user_date (values (attendance st))); try assumption.
  unfold user_date. congruence.
Qed.

Lemma lookup_record st u d r :
  unique_user_date (attendance st) ->
  record_for st u d r -> getAttendanceByUserAndDate st u d = Some r.
Proof.
  intros Hu Hr.
  destruct (getAttendanceByUserAndDate st u d) as [e | ] eqn:E.
  - f_equal. apply (record_unique st u d); try assumption.
    now apply lookup_found.
  - exfalso. now apply (lookup_none st u d E r).
Qed.

Lemma get_own_id m r :
  store_ok m -> In r (values m) -> get m (Attendance.id r) = Some r.
Proof.
  intros [Hnd Hid] Hin.
  destruct (In_values m r Hin) as (k & Hk).
  rewrite Forall_forall in Hid. specialize (Hid _ Hk). cbn in Hid.
  rewrite Hid. now apply In_get.
Qed.

(** ** Writing one record *)

Lemma store_ok_set m k v :
  store_ok m -> Attendance.id v = k -> store_ok (set m k v).
Proof.
  intros [Hnd Hid] Hv. destruct (get m k) as [old | ] eqn:E.
  - split.
    + now rewrite (keys_set_found m k old v E).
    + destruct (set_found m k old v E) as (l1 & l2 & -> & ->).
      rewrite Forall_app in Hid |- *. destruct Hid as [H1 H2].
      split; [assumption | ].
      inversion H2; subst. now constructor.
  - rewrite (set_fresh m k v E). split.
    + unfold keys in *. rewrite map_app. cbn [map fst].
      apply NoDup_snoc; [assumption | now apply get_None].
    + rewrite Forall_app. split; [assumption | ]. now repeat constructor.
Qed.

Lemma unique_set_same m k old v :
  unique_user_date m -> get m k = Some old -> user_date v = user_date old ->
  unique_user_date (set m k v).
Proof.
  unfold unique_user_date, values. intros Hu E Hv.
  destruct (set_found m k old v E) as (l1 & l2 & -> & ->).
  rewrite !map_app in *. cbn [map snd] in *. now rewrite Hv.
Qed.

Lemma unique_set_new m k v :
  unique_user_date m ->
  (forall r, In r (values m) -> user_date r <> user_date v) ->
  unique_user_date (set m k v).
Proof.
  unfold unique_user_date, values. intros Hu Hnew.
  assert (Hnot : ~ In (user_date v) (map user_date (map snd m))).
  { intro H. apply in_map_iff in H as (r & Hr & Hin). now apply (Hnew r). }
  destruct (get m k) as [old | ] eqn:E.
  - destruct (set_found m k old v E) as (l1 & l2 & -> & ->).
    rewrite !map_app in *. cbn [map snd] in *.
    apply (NoDup_replace _ _ (user_date old)); [assumption | ].
    intro H. apply Hnot. rewrite in_app_iff in *. cbn [In]. tauto.
  - rewrite (set_fresh m k v E), !map_app. cbn [map snd].
    now apply NoDup_snoc.
Qed.

Lemma checkout_has_checkin_set m k v :
  checkout_has_checkin m -> (checked_out v -> checked_in v) ->
  checkout_has_checkin (set m k v).
Proof.
  unfold checkout_has_checkin. rewrite !Forall_forall. intros Hm Hv x Hx.
  apply In_values_set in Hx as [-> | Hx]; auto.
Qed.

Lemma truthy_format_time now : truthy (Some (format_time now)) = true.
Proof. reflexivity. Qed.


(** ** The three outcomes of each handler *)

Lemma checkin_rejects st u d now uuid created e :
  getAttendanceByUserAndDate st u d = Some e ->
  truthy (Attendance.checkInTime e) = true ->
  checkin st u d now uuid created = (AlreadyCheckedIn, st).
Proof. intros He Hci. unfold checkin. now rewrite He, Hci. Qed.

Lemma checkin_fills st u d now uuid created e :
  store_ok (attendance st) ->
  getAttendanceByUserAndDate st u d = Some e ->
  truthy (Attendance.checkInTime e) = false ->
  checkin st u d now uuid created
  = ((200, Json (Some (checked_in_record e now))),
     with_attendance st
       (set (attendance st) (Attendance.id e) (checked_in_record e now))).
Proof.
  intros Hok He Hci. unfold checkin. rewrite He, Hci.
  unfold updateAttendance.
  rewrite (get_own_id _ e Hok) by apply (lookup_found st u d e He).
  reflexivity.
Qed.

Lemma checkin_creates st u d now uuid created :
  getAttendanceByUserAndDate st u d = None ->
  checkin st u d now uuid created
  = ((201, Json (Some (new_record uuid u d now created))),
     with_attendance st
       (set (attendance st) uuid (new_record uuid u d now created))).
Proof. intro He. unfold checkin. now rewrite He. Qed.

Lemma checkout_rejects_missing st u d now :
  getAttendanceByUserAndDate st u d = None ->
  checkout st u d now = (NotCheckedIn, st).
Proof. intro He. unfold checkout. now rewrite He. Qed.

Lemma checkout_rejects_unchecked st u d now e :
  getAttendanceByUserAndDate st u d = Some e ->
  truthy (Attendance.checkInTime e) = false ->
  checkout st u d now = (NotCheckedIn, st).
Proof. intros He Hci. unfold checkout. now rewrite He, Hci. Qed.

Lemma checkout_rejects_done st u d now e :
  getAttendanceByUserAndDate st u d = Some e ->
  truthy (Attendance.checkInTime e) = true ->
  truthy (Attendance.checkOutTime e) = true ->
  checkout st u d now = (AlreadyCheckedOut, st).
Proof. intros He Hci Hco. unfold checkout. now rewrite He, Hci, Hco. Qed.

Lemma checkout_writes st u d now e :
  store_ok (attendance st) ->
  getAttendanceByUserAndDate st u d = Some e ->
  truthy (Attendance.checkInTime e) = true ->
  truthy (Attendance.checkOutTime e) = false ->
  checkout st u d now
  = ((200, Json (Some (checked_out_record e now))),
     with_attendance st
       (set (attendance st) (Attendance.id e) (checked_out_record e now))).
Proof.
  intros Hok He Hci Hco. unfold checkout. rewrite He, Hci, Hco.
  cbn [negb]. unfold updateAttendance.
  rewrite (get_own_id _ e Hok) by apply (lookup_found st u d e He).
  reflexivity.
Qed.

(** ** The invariant is kept *)

Lemma Inv_checkin st u d now uuid created :
  Inv st -> Inv (snd (checkin st u d now uuid created)).
Proof.
  intros (Hok & Hu & Hc).
  destruct (getAttendanceByUserAndDate st u d) as [e | ] eqn:He.
  - destruct (truthy (Attendance.checkInTime e)) eqn:Hci.
    + rewrite (checkin_rejects st u d now uuid created e He Hci).
      now split.
    + rewrite (checkin_fills st u d now uuid created e Hok He Hci).
      pose proof (lookup_found st u d e He) as (Hin & _).
      split; [ | split]; cbn [snd with_attendance attendance].
      * now apply store_ok_set.
      * apply (unique_set_same _ _ e); try assumption; try reflexivity.
        now apply get_own_id.
      * apply checkout_has_checkin_set; [assumption | ].
        intros _. apply truthy_format_time.
  - rewrite (checkin_creates st u d now uuid created He).
    split; [ | split]; cbn [snd with_attendance attendance].
    + now apply store_ok_set.
    + apply unique_set_new; [assumption | ].
      intros r Hr Heq. unfold user_date in Heq. cbn in Heq.
      injection Heq as Hru Hrd.
      now apply (lookup_none st u d He r).
    + apply checkout_has_checkin_set; [assumption | ].
      intro H. discriminate H.
Qed.

Lemma Inv_checkout st u d now :
  Inv st -> Inv (snd (checkout st u d now)).
Proof.
  intros (Hok & Hu & Hc).
  destruct (getAttendanceByUserAndDate st u d) as [e | ] eqn:He.
  - destruct (truthy (Attendance.checkInTime e)) eqn:Hci.
    + destruct (truthy (Attendance.checkOutTime e)) eqn:Hco.
      * rewrite (checkout_rejects_done st u d now e He Hci Hco).
        now split.
      * rewrite (checkout_writes st u d now e Hok He Hci Hco).
        pose proof (lookup_found st u d e He) as (Hin & _).
        split; [ | split]; cbn [snd with_attendance attendance].
        -- now apply store_ok_set.
        -- apply (unique_set_same _ _ e); try assumption; try reflexivity.
           now apply get_own_id.
        -- apply checkout_has_checkin_set; [assumption | ].
           intros _. exact Hci.
    + rewrite (checkout_rejects_unchecked st u d now e He Hci).
      now split.
  - rewrite (checkout_rejects_missing st u d now He). now split.
Qed.

Lemma Inv_handle st rq : Inv st -> Inv (handle st rq).
Proof.
  intro H. destruct rq as [session today now uuid created | session today now];
    cbn [handle]; unfold post_checkin, post_checkout;
    destruct (requireAuth session); cbn [snd]; try assumption.
  - now apply Inv_checkin.
  - now apply Inv_checkout.
Qed.

Lemma Inv_run rqs : forall st, Inv st -> Inv (run st rqs).
Proof.
  induction rqs as [| rq rqs IH]; intros st H; cbn [run fold_left].
  - assumption.
  - apply IH. now apply Inv_handle.
Qed.

Lemma Inv_empty us : Inv (mkStorage us []).
Proof.
  repeat split; cbn; constructor.
Qed.

(** C5. From a store whose map is well formed, holds at most one record
    for each user and date, and holds a check-in time in every record that
    has a check-out time, every sequence of check-in and check-out requests
    leads to a store with both properties. *)
Theorem reachable_store_invariants (st : MemStorage) (rqs : list Request) :
  store_ok (attendance st) ->
  unique_user_date (attendance st) ->
  checkout_has_checkin (attendance st) ->
  unique_user_date (attendance (run st rqs))
  /\ checkout_has_checkin (attendance (run st rqs)).
Proof.
  intros Hok Hu Hc.
  destruct (Inv_run rqs st) as (_ & Hu' & Hc'); [now split | ].
  now split.
Qed.


Lemma replaced_set m r r' :
  store_ok m -> In r (values m) -> replaced m (set m (Attendance.id r) r') r r'.
Proof.
  intros Hok Hin. pose proof (get_own_id m r Hok Hin) as E.
  destruct (set_found m _ r r' E) as (l1 & l2 & Hm & Hs).
  exists (values l1), (values l2). unfold values.
  rewrite Hs. rewrite Hm at 1. now rewrite !map_app.
Qed.

Lemma not_true_false (b : bool) : b <> true -> b = false.
Proof. now destruct b. Qed.

Lemma checkin_outcomes_hold st u d now uuid created :
  Inv st -> checkin_outcomes st u d now uuid created.
Proof.
  intros (Hok & Hu & Hc). unfold checkin_outcomes. cbv zeta.
  split; [ | split].
  - split.
    + intro Hout.
      destruct (getAttendanceByUserAndDate st u d) as [e | ] eqn:He.
      * destruct (truthy (Attendance.checkInTime e)) eqn:Hci.
        -- exists e. split; [now apply lookup_found | exact Hci].
        -- rewrite (checkin_fills st u d now uuid created e Hok He Hci) in Hout.
           discriminate Hout.
      * rewrite (checkin_creates st u d now uuid created He) in Hout.
        discriminate Hout.
    + intros (r & Hr & Hci).
      now rewrite (checkin_rejects st u d now uuid created r
                     (lookup_record st u d r Hu Hr) Hci).
  - intro Hnone.
    assert (He : getAttendanceByUserAndDate st u d = None).
    { destruct (getAttendanceByUserAndDate st u d) as [e | ] eqn:He;
        [ | reflexivity].
      exfalso. apply (Hnone e). now apply lookup_found. }
    rewrite (checkin_creates st u d now uuid created He).
    split; [reflexivity | ].
    intro Hfresh. cbn [snd with_attendance attendance].
    rewrite (set_fresh _ _ _ Hfresh). unfold values. now rewrite map_app.
  - intros r Hr Hci. apply not_true_false in Hci.
    rewrite (checkin_fills st u d now uuid created r Hok
               (lookup_record st u d r Hu Hr) Hci).
    split; [reflexivity | ].
    cbn [snd with_attendance attendance].
    apply replaced_set; [assumption | apply Hr].
Qed.

Lemma checkout_outcomes_hold st u d now :
  Inv st -> checkout_outcomes st u d now.
Proof.
  intros (Hok & Hu & Hc). unfold checkout_outcomes. cbv zeta.
  split; [ | split].
  - split.
    + intro Hout.
      destruct (getAttendanceByUserAndDate st u d) as [e | ] eqn:He.
      * right. exists e. split; [now apply lookup_found | ].
        destruct (truthy (Attendance.checkInTime e)) eqn:Hci;
          [ | unfold checked_in; congruence].
        destruct (truthy (Attendance.checkOutTime e)) eqn:Hco.
        -- rewrite (checkout_rejects_done st u d now e He Hci Hco) in Hout.
           discriminate Hout.
        -- rewrite (checkout_writes st u d now e Hok He Hci Hco) in Hout.
           discriminate Hout.
      * left. now apply lookup_none.
    + intros [Hnone | (r & Hr & Hci)].
      * destruct (getAttendanceByUserAndDate st u d) as [e | ] eqn:He.
        -- exfalso. apply (Hnone e). now apply lookup_found.
        -- now rewrite (checkout_rejects_missing st u d now He).
      * apply not_true_false in Hci.
        now rewrite (checkout_rejects_unchecked st u d now r
                       (lookup_record st u d r Hu Hr) Hci).
  - split.
    + intro Hout.
      destruct (getAttendanceByUserAndDate st u d) as [e | ] eqn:He.
      * destruct (truthy (Attendance.checkInTime e)) eqn:Hci.
        -- destruct (truthy (Attendance.checkOutTime e)) eqn:Hco.
           ++ exists e. split; [now apply lookup_found | exact Hco].
           ++ rewrite (checkout_writes st u d now e Hok He Hci Hco) in Hout.
              discriminate Hout.
        -- rewrite (checkout_rejects_unchecked st u d now e He Hci) in Hout.
           discriminate Hout.
      * rewrite (checkout_rejects_missing st u d now He) in Hout.
        discriminate Hout.
    + intros (r & Hr & Hco).
      assert (Hci : checked_in r).
      { unfold checkout_has_checkin in Hc. rewrite Forall_forall in Hc.
        apply Hc; [apply Hr | exact Hco]. }
      now rewrite (checkout_rejects_done st u d now r
                     (lookup_record st u d r Hu Hr) Hci Hco).
  - intros r Hr Hci Hco. apply not_true_false in Hco.
    rewrite (checkout_writes st u d now r Hok
               (lookup_record st u d r Hu Hr) Hci Hco).
    split; [reflexivity | ].
    cbn [snd with_attendance attendance].
    apply replaced_set; [assumption | apply Hr].
Qed.

(** The status a check-out stores, by the minutes worked: below 240 minutes
    it is ["half-day"], otherwise the status of the check-in stays. *)
Lemma checked_out_status r now h m s :
  Attendance.checkInTime r = Some (hhmmss h m s) ->
  0 <= h < 100 -> 0 <= m < 100 -> 0 <= s < 100 -> clock_ok now ->
  Attendance.status (checked_out_record r now)
  = if minutes_between h m (hours now) (minutes now) <? 240
    then "half-day" else Attendance.status r.
Proof.
  intros Hci Hh Hm Hs (Hnh & Hnm & Hns).
  unfold checked_out_record. cbn [Attendance.status].
  rewrite Hci. cbn [narrow]. unfold format_time.
  rewrite DurationFacts.calculateTotalHours_hhmmss by lia.
  unfold reconcileStatusOnCheckout.
  now rewrite DurationFacts.hoursWorked_below_4.
Qed.

(** C4. On a store that satisfies the invariant, for every user and day:
    check-in answers [AlreadyCheckedIn] exactly when a record of that user
    and day exists with its check-in time set, and otherwise creates the
    record, or fills the record that has no check-in time, with the status
    of the check-in time; check-out answers [NotCheckedIn] exactly when
    there is no such record or it has no check-in time, [AlreadyCheckedOut]
    exactly when its check-out time is set, and otherwise writes the
    check-out time, the duration and the reconciled status. *)
Theorem checkin_checkout_outcomes
        (st : MemStorage) (userId today : string) (now : Clock)
        (uuid : string) (created : Z) :
  Inv st ->
  checkin_outcomes st userId today now uuid created
  /\ checkout_outcomes st userId today now.
Proof.
  intro H. split.
  - now apply checkin_outcomes_hold.
  - now apply checkout_outcomes_hold.
Qed.

(** C10. A check-in answered [AlreadyCheckedIn] and a check-out answered
    [NotCheckedIn] or [AlreadyCheckedOut] leave the store as it was. *)
Theorem rejected_write_keeps_store
        (st : MemStorage) (userId today : string) (now : Clock)
        (uuid : string) (created : Z) :
  (fst (checkin st userId today now uuid created) = AlreadyCheckedIn ->
   snd (checkin st userId today now uuid created) = st)
  /\ (fst (checkout st userId today now) = NotCheckedIn ->
      snd (checkout st userId today now) = st)
  /\ (fst (checkout st userId today now) = AlreadyCheckedOut ->
      snd (checkout st userId today now) = st).
Proof.
  unfold checkin, checkout.
  destruct (getAttendanceByUserAndDate st userId today) as [e | ].
  - destruct (truthy (Attendance.checkInTime e)); cbn [negb].
    + split; [reflexivity | ].
      destruct (truthy (Attendance.checkOutTime e)).
      * split; reflexivity.
      * destruct (updateAttendance st _ _) as [updated st'].
        split; intro H; discriminate H.
    + destruct (updateAttendance st _ _) as [updated st'].
      repeat split. intro H. discriminate H.
  - unfold createAttendance. repeat split; intro H; discriminate H.
Qed.

End StoreFacts.

(* ================================================================== *)
(** * Sorting and the order of date strings *)
(* ================================================================== *)

Module SortFacts.
Import JS.
Local Open Scope list_scope.

Section Insertion.
Context {A : Type}.
Implicit Types (cmp : A -> A -> comparison) (l : list A).

Lemma insert_perm cmp x l : Permutation (insert cmp x l) (x :: l).
Proof.
  induction l as [| y l IH]; cbn [insert]; [reflexivity | ].
  destruct (cmp x y); try reflexivity.
  rewrite IH. apply perm_swap.
Qed.

Lemma sort_perm cmp l : Permutation (sort cmp l) l.
Proof.
  induction l as [| x l IH]; cbn [sort]; [reflexivity | ].
  rewrite insert_perm. now constructor.
Qed.

Lemma In_sort cmp l x : In x (sort cmp l) <-> In x l.
Proof.
  split; apply Permutation_in;
    [apply sort_perm | apply Permutation_sym, sort_perm].
Qed.

Lemma insert_ext cmp cmp' x l :
  (forall y, In y l -> cmp x y = cmp' x y) ->
  insert cmp x l = insert cmp' x l.
Proof.
  induction l as [| y l IH]; intro H; cbn [insert]; [reflexivity | ].
  rewrite (H y) by now left.
  rewrite IH by (intros z Hz; apply H; now right).
  reflexivity.
Qed.

(** The result depends on the comparator through the elements only. *)
Lemma sort_ext cmp cmp' l :
  (forall x y, In x l -> In y l -> cmp x y = cmp' x y) ->
  sort cmp l = sort cmp' l.
Proof.
  induction l as [| x l IH]; intro H; cbn [sort]; [reflexivity | ].
  rewrite IH by (intros a b Ha Hb; apply H; now right).
  apply insert_ext. intros y Hy. apply H; [now left | right].
  now apply (In_sort cmp' l y).
Qed.

Section Sorted.
Variable cmp : A -> A -> comparison.
Variable R : A -> A -> Prop.
Hypothesis R_trans : forall a b c, R a b -> R b c -> R a c.
Hypothesis cmp_Gt : forall a b, cmp a b = Gt -> R b a.
Hypothesis cmp_not_Gt : forall a b, cmp a b <> Gt -> R a b.

Lemma insert_sorted x l :
  StronglySorted R l -> StronglySorted R (insert cmp x l).
Proof.
  induction l as [| y l IH]; intro Hs; cbn [insert].
  - repeat constructor.
  - apply StronglySorted_inv in Hs as [Hl Hy].
    assert (Hfront : cmp x y <> Gt -> StronglySorted R (x :: y :: l)).
    { intro Hc. constructor; [now constructor | ].
      constructor; [now apply cmp_not_Gt | ].
      rewrite Forall_forall in Hy |- *. intros z Hz.
      apply (R_trans x y z); [now apply cmp_not_Gt | now apply Hy]. }
    destruct (cmp x y) eqn:E; try (apply Hfront; congruence).
    constructor; [now apply IH | ].
    rewrite Forall_forall in Hy |- *. intros z Hz.
    apply (Permutation_in _ (insert_perm cmp x l)) in Hz as [<- | Hz].
    + now apply cmp_Gt.
    + now apply Hy.
Qed.

Lemma sort_sorted l : StronglySorted R (sort cmp l).
Proof.
  induction l as [| x l IH]; cbn [sort]; [constructor | ].
  now apply insert_sorted.
Qed.
End Sorted.
End Insertion.

(** ** The lexicographic order of strings *)

Lemma compare_not_Gt_trans (a : string) : forall b c,
  String.compare a b <> Gt -> String.compare b c <> Gt ->
  String.compare a c <> Gt.
Proof.
  induction a as [| x a IH]; intros [| y b] [| z c]; cbn [String.compare];
    try congruence.
  unfold Ascii.compare.
  destruct (N.compare_spec (N_of_ascii x) (N_of_ascii y)) as [Hxy | Hxy | Hxy],
           (N.compare_spec (N_of_ascii y) (N_of_ascii z)) as [Hyz | Hyz | Hyz],
           (N.compare_spec (N_of_ascii x) (N_of_ascii z)) as [Hxz | Hxz | Hxz];
    try congruence; try (exfalso; lia).
  apply IH.
Qed.

Lemma leb_not_Gt (a b : string) : String.leb a b = true <-> String.compare a b <> Gt.
Proof.
  unfold String.leb. destruct (String.compare a b); split; congruence.
Qed.

Lemma leb_trans (a b c : string) :
  String.leb a b = true -> String.leb b c = true -> String.leb a c = true.
Proof.
  rewrite !leb_not_Gt. apply compare_not_Gt_trans.
Qed.

Lemma compare_Gt_leb (a b : string) : String.compare a b = Gt -> String.leb b a = true.
Proof.
  intro H. apply leb_not_Gt. rewrite String.compare_antisym, H. discriminate.
Qed.

Lemma leb_neq_ltb (a b : string) :
  String.leb a b = true -> a <> b -> String.ltb a b = true.
Proof.
  unfold String.leb, String.ltb. intros H Hne.
  destruct (String.compare a b) eqn:E; try congruence.
  now apply String.compare_eq_iff in E.
Qed.

End SortFacts.

(* ================================================================== *)
(** * Range queries, joined views and the dashboard *)
(* ================================================================== *)

Module QueryFacts.
Import JS Storage Routes Spec MapFacts SortFacts.
Local Open Scope list_scope.

Lemma filter_twice {A : Type} (p q : A -> bool) (l : list A) :
  filter q (filter p l) = filter (fun x => p x && q x) l.
Proof.
  induction l as [| x l IH]; cbn [filter]; [reflexivity | ].
  destruct (p x); cbn [filter andb]; [ | assumption].
  destruct (q x); now rewrite IH.
Qed.

Lemma base_join st l : map AttendanceWithUser.base (map (join_user st) l) = l.
Proof.
  rewrite map_map. cbn [join_user AttendanceWithUser.base]. apply map_id.
Qed.

Lemma NoDup_map_filter {A B : Type} (p : A -> bool) (f : A -> B) :
  forall l : list A, NoDup (map f l) -> NoDup (map f (filter p l)).
Proof.
  intro l. induction l as [| x l IH]; cbn [map filter]; intro H; [constructor | ].
  apply NoDup_cons_iff in H as [Hx Hl].
  destruct (p x); cbn [map]; [ | now apply IH].
  constructor; [ | now apply IH].
  intro Hin. apply Hx. apply in_map_iff in Hin as (y & Hy & Hin).
  apply filter_In in Hin as [Hin _]. rewrite <- Hy. now apply in_map.
Qed.

Lemma NoDup_map_finer {A B C : Type} (f : A -> B) (g : A -> C) (l : list A) :
  (forall a b, In a l -> In b l -> g a = g b -> f a = f b) ->
  NoDup (map f l) -> NoDup (map g l).
Proof.
  induction l as [| x l IH]; cbn [map]; intros Hfg H; [constructor | ].
  apply NoDup_cons_iff in H as [Hx Hl].
  constructor.
  - intro Hin. apply Hx. apply in_map_iff in Hin as (y & Hy & Hin).
    rewrite <- (Hfg y x); [now apply in_map | now right | now left | assumption].
  - apply IH; [ | assumption].
    intros a b Ha Hb. apply Hfg; now right.
Qed.

Lemma sorted_strict {A : Type} (f : A -> string) (l : list A) :
  NoDup (map f l) ->
  StronglySorted (fun a b => String.leb (f b) (f a) = true) l ->
  StronglySorted (fun a b => String.ltb (f b) (f a) = true) l.
Proof.
  induction l as [| x l IH]; cbn [map]; intros Hnd Hs; [constructor | ].
  apply NoDup_cons_iff in Hnd as [Hx Hnd].
  apply StronglySorted_inv in Hs as [Hl Hall].
  constructor; [now apply IH | ].
  rewrite Forall_forall in Hall |- *. intros y Hy.
  apply leb_neq_ltb; [now apply Hall | ].
  intro Heq. apply Hx. rewrite <- Heq. now apply in_map.
Qed.

(** ** What the two range queries select *)

Lemma history_sorts st lc u s e :
  getUserAttendanceHistory lc st u s e
  = sort (by_date_desc lc)
         (filter (by_user_in_range u s e) (values (attendance st))).
Proof.
  unfold getUserAttendanceHistory. f_equal.
  apply filter_ext. intro r.
  unfold by_user_in_range, in_range, str_ge, str_le.
  now rewrite andb_assoc.
Qed.

Lemma report_joins st lc s e emp :
  getAttendanceReport lc st s e emp
  = map (join_user st)
        (sort (by_date_desc lc)
              (filter (in_report s e emp) (values (attendance st)))).
Proof.
  unfold getAttendanceReport. do 2 f_equal.
  unfold in_report, one_user.
  destruct emp as [x | ].
  - cbn [truthy].
    destruct (x =? "")%string, (x =? "all")%string; cbn [negb andb orb].
    + apply filter_ext. intro r. now rewrite andb_true_r.
    + apply filter_ext. intro r. now rewrite andb_true_r.
    + apply filter_ext. intro r. now rewrite andb_true_r.
    + now rewrite filter_twice.
  - apply filter_ext. intro r. now rewrite andb_true_r.
Qed.

Lemma report_sorts st lc s e emp :
  map AttendanceWithUser.base (getAttendanceReport lc st s e emp)
  = sort (by_date_desc lc) (filter (in_report s e emp) (values (attendance st))).
Proof. rewrite report_joins. apply base_join. Qed.

Section Collation.
Variable localeCompare : string -> string -> comparison.
Hypothesis localeCompare_dates : collates_dates localeCompare.

Lemma sort_by_code_units (l : list Attendance.t) :
  Forall (fun r => canonical_date (Attendance.date r) = true) l ->
  sort (by_date_desc localeCompare) l = sort (by_date_desc String.compare) l.
Proof.
  intro H. rewrite Forall_forall in H.
  apply sort_ext. intros x y Hx Hy. unfold by_date_desc.
  apply localeCompare_dates; now apply H.
Qed.

Lemma sorted_desc (l : list Attendance.t) :
  Forall (fun r => canonical_date (Attendance.date r) = true) l ->
  StronglySorted date_desc (sort (by_date_desc localeCompare) l).
Proof.
  intro H. rewrite (sort_by_code_units l H).
  apply sort_sorted; unfold date_desc, by_date_desc.
  - intros a b c Hab Hbc. now apply (leb_trans _ (Attendance.date b)).
  - intros a b. apply compare_Gt_leb.
  - intros a b. apply leb_not_Gt.
Qed.
End Collation.

Lemma Forall_filter {A : Type} (P : A -> Prop) (p : A -> bool) (l : list A) :
  Forall P l -> Forall P (filter p l).
Proof.
  rewrite !Forall_forall. intros H x Hx. apply filter_In in Hx as [Hx _]. auto.
Qed.

(** C7. With the host collating canonical dates as their code units, on a
    store of canonical dates with at most one record for each user and
    date: [getUserAttendanceHistory] returns exactly the records of the
    user whose date lies between the bounds, both included, in the
    lexicographic order of strings, sorted strictly descending by date;
    [getAttendanceReport] returns the records in the same inclusive range,
    of one user exactly when an employee id is given that is neither empty
    nor ["all"], sorted descending by date. *)
Theorem range_queries
        (localeCompare : string -> string -> comparison)
        (st : MemStorage) (userId startDate endDate : string)
        (employeeId : option string) :
  let history := getUserAttendanceHistory localeCompare st userId startDate endDate in
  let report :=
    map AttendanceWithUser.base
        (getAttendanceReport localeCompare st startDate endDate employeeId) in
  (forall r,
      In r history
      <-> In r (values (attendance st))
          /\ Attendance.userId r = userId
          /\ String.leb startDate (Attendance.date r) = true
          /\ String.leb (Attendance.date r) endDate = true)
  /\ Permutation history
       (filter (by_user_in_range userId startDate endDate)
               (values (attendance st)))
  /\ Permutation report
       (filter (in_report startDate endDate employeeId) (values (attendance st)))
  /\ (forall r,
        In r report
        <-> In r (values (attendance st))
            /\ String.leb startDate (Attendance.date r) = true
            /\ String.leb (Attendance.date r) endDate = true
            /\ match employeeId with
               | Some e => e = "" \/ e = "all" \/ Attendance.userId r = e
               | None => True
               end)
  /\ (collates_dates localeCompare -> dates_canonical st ->
      StronglySorted date_desc history /\ StronglySorted date_desc report)
  /\ (collates_dates localeCompare -> dates_canonical st ->
      unique_user_date (attendance st) ->
      StronglySorted date_strictly_desc history).
Proof.
  intros history report.
  subst history report. rewrite history_sorts, report_sorts.
  set (m := values (attendance st)) in *.
  assert (Hh : Permutation
                 (sort (by_date_desc localeCompare)
                       (filter (by_user_in_range userId startDate endDate) m))
                 (filter (by_user_in_range userId startDate endDate) m))
    by apply sort_perm.
  assert (Hr : Permutation
                 (sort (by_date_desc localeCompare)
                       (filter (in_report startDate endDate employeeId) m))
                 (filter (in_report startDate endDate employeeId) m))
    by apply sort_perm.
  split; [ | split; [ | split; [ | split; [ | split]]]].
  - intro r. rewrite In_sort, filter_In.
    unfold by_user_in_range, in_range.
    rewrite !andb_true_iff, String.eqb_eq. tauto.
  - exact Hh.
  - exact Hr.
  - intro r. rewrite In_sort, filter_In.
    unfold in_report, in_range, one_user.
    rewrite !andb_true_iff.
    destruct employeeId as [x | ]; [ | tauto].
    destruct (String.eqb_spec x ""), (String.eqb_spec x "all");
      cbn [orb]; rewrite ?String.eqb_eq; intuition congruence.
  - intros Hlc Hdates.
    split; apply sorted_desc; try assumption; now apply Forall_filter.
  - intros Hlc Hdates Huniq.
    apply (sorted_strict Attendance.date).
    + apply (Permutation_NoDup (Permutation_map Attendance.date
                                                (Permutation_sym Hh))).
      apply (NoDup_map_finer user_date).
      * intros a b Ha Hb Hd. apply filter_In in Ha as [_ Ha], Hb as [_ Hb].
        unfold by_user_in_range in Ha, Hb.
        apply andb_true_iff in Ha as [Ha _], Hb as [Hb _].
        apply String.eqb_eq in Ha, Hb. unfold user_date. congruence.
      * now apply NoDup_map_filter.
    + apply sorted_desc; [assumption | now apply Forall_filter].
Qed.

(** ** Joined views *)

Lemma get_public (us : Map User.t) (k : string) :
  get (public_directory us) k = option_map removePassword (get us k).
Proof.
  induction us as [| [k' u] us IH]; cbn [public_directory map get fst snd];
    [reflexivity | ].
  destruct (k' =? k)%string; [reflexivity | apply IH].
Qed.

Lemma joined_user st r :
  AttendanceWithUser.user (join_user st r)
  = option_map removePassword (getUser st (Attendance.userId r)).
Proof.
  unfold join_user. cbn [AttendanceWithUser.user].
  now destruct (getUser st (Attendance.userId r)).
Qed.

Lemma join_user_public us us' att att' r :
  same_public us us' ->
  join_user (mkStorage us att) r = join_user (mkStorage us' att') r.
Proof.
  intro H.
  assert (Hu : AttendanceWithUser.user (join_user (mkStorage us att) r)
               = AttendanceWithUser.user (join_user (mkStorage us' att') r)).
  { rewrite !joined_user. unfold getUser. cbn [users].
    rewrite <- !get_public. now rewrite H. }
  unfold join_user in *. cbn [AttendanceWithUser.user] in Hu. now rewrite Hu.
Qed.

(** C9. [getAllAttendanceForDate] and [getAttendanceReport] return one
    entry for each matching record; the [user] of an entry is the owner's
    profile without its password, and [undefined] when the owner is not in
    the directory, in which case the entry is still returned; and
    directories that differ in password values only give the same views. *)
Theorem joined_views
        (localeCompare : string -> string -> comparison)
        (us : Map User.t) (att : Map Attendance.t)
        (date startDate endDate : string) (employeeId : option string) :
  let st := mkStorage us att in
  let forDate := getAllAttendanceForDate st date in
  let report := getAttendanceReport localeCompare st startDate endDate employeeId in
  map AttendanceWithUser.base forDate
  = filter (fun r => (Attendance.date r =? date)%string) (values att)
  /\ Permutation (map AttendanceWithUser.base report)
       (filter (in_report startDate endDate employeeId) (values att))
  /\ (forall x,
        In x forDate \/ In x report ->
        AttendanceWithUser.user x
        = option_map removePassword (getUser st (AttendanceWithUser.userId x)))
  /\ (forall r,
        In r (values att) -> getUser st (Attendance.userId r) = None ->
        (Attendance.date r = date -> In (AttendanceWithUser.mk r None) forDate)
        /\ (in_report startDate endDate employeeId r = true ->
            In (AttendanceWithUser.mk r None) report))
  /\ (forall us',
        same_public us us' ->
        getAllAttendanceForDate (mkStorage us' att) date = forDate
        /\ getAttendanceReport localeCompare (mkStorage us' att)
             startDate endDate employeeId = report).
Proof.
  intros st forDate report.
  assert (Hrep : report
                 = map (join_user st)
                       (sort (by_date_desc localeCompare)
                             (filter (in_report startDate endDate employeeId)
                                     (values att)))).
  { apply report_joins. }
  split; [ | split; [ | split; [ | split]]].
  - subst forDate. unfold getAllAttendanceForDate. apply base_join.
  - rewrite Hrep, base_join. apply sort_perm.
  - intros x [Hx | Hx].
    + subst forDate. unfold getAllAttendanceForDate in Hx.
      apply in_map_iff in Hx as (r & <- & _). apply joined_user.
    + rewrite Hrep in Hx.
      apply in_map_iff in Hx as (r & <- & _). apply joined_user.
  - intros r Hin Hnone.
    assert (Hj : join_user st r = AttendanceWithUser.mk r None).
    { unfold join_user. now rewrite Hnone. }
    split; intro H; rewrite <- Hj.
    + subst forDate. unfold getAllAttendanceForDate.
      apply in_map, filter_In. split; [assumption | now apply String.eqb_eq].
    + rewrite Hrep. apply in_map, In_sort, filter_In. now split.
  - intros us' Hsame. split.
    + subst forDate. unfold getAllAttendanceForDate. cbn [attendance st].
      apply map_ext. intro r. symmetry. now apply join_user_public.
    + subst report. unfold getAttendanceReport. cbn [attendance st].
      apply map_ext. intro r. symmetry. now apply join_user_public.
Qed.

(** ** The manager dashboard *)

Lemma len_map {A B : Type} (f : A -> B) (l : list A) : len (map f l) = len l.
Proof. unfold len. now rewrite length_map. Qed.

Lemma len_filter_joined st (p : Attendance.t -> bool) (l : list Attendance.t) :
  len (filter (fun x => p (AttendanceWithUser.base x)) (map (join_user st) l))
  = len (filter p l).
Proof.
  unfold len. f_equal.
  induction l as [| r l IH]; cbn [map filter]; [reflexivity | ].
  cbn [join_user AttendanceWithUser.base].
  destruct (p r); cbn [List.length]; now rewrite IH.
Qed.

Lemma has_false (ids : list string) (x : string) :
  has ids x = false <-> forall y, In y ids -> y <> x.
Proof.
  unfold has. split.
  - intros H y Hy ->.
    assert (Ht : existsb (fun y => (y =? x)%string) ids = true).
    { apply existsb_exists. exists x. split; [assumption | apply String.eqb_refl]. }
    congruence.
  - intro H. destruct (existsb _ ids) eqn:E; [ | reflexivity].
    apply existsb_exists in E as (y & Hy & Heq).
    apply String.eqb_eq in Heq. now destruct (H y Hy).
Qed.

(** C6. The dashboard's [totalEmployees] is the number of users of role
    ["employee"]; [presentToday] the number of the day's records whose
    status is ["present"], ["late"] or ["half-day"]; [absentToday] is
    [totalEmployees] minus the number of the day's records plus the number
    of its ["absent"] records; [lateToday] the number of its ["late"]
    records; [absentEmployees] holds exactly the employees with no record
    on the day.  With five employees, two present, one marked absent and
    two without a record: 2 present, 3 absent, and the two listed. *)
Theorem manager_dashboard_counts
        (st : MemStorage) (today : string) (week : list string) :
  let stats := getManagerDashboardStats st today week in
  let recordsToday := records_on st today in
  ManagerDashboardStats.totalEmployees stats
  = len (filter (fun u => (User.role u =? "employee")%string) (values (users st)))
  /\ ManagerDashboardStats.presentToday stats
     = len (filter counts_as_present recordsToday)
  /\ ManagerDashboardStats.absentToday stats
     = ManagerDashboardStats.totalEmployees stats - len recordsToday
       + len (filter (has_status "absent") recordsToday)
  /\ ManagerDashboardStats.lateToday stats
     = len (filter (has_status "late") recordsToday)
  /\ (forall emp,
        In emp (ManagerDashboardStats.absentEmployees stats)
        <-> In emp (getAllEmployees st)
            /\ forall r, In r recordsToday ->
                         Attendance.userId r <> UserWithoutPassword.id emp)
  /\ (let example := getManagerDashboardStats Examples.store "2024-03-04" [] in
      ManagerDashboardStats.totalEmployees example = 5
      /\ len (records_on Examples.store "2024-03-04") = 3
      /\ len (filter (has_status "present") (records_on Examples.store "2024-03-04")) = 2
      /\ len (filter (has_status "absent") (records_on Examples.store "2024-03-04")) = 1
      /\ ManagerDashboardStats.presentToday example = 2
      /\ ManagerDashboardStats.absentToday example = 3
      /\ map UserWithoutPassword.id (ManagerDashboardStats.absentEmployees example)
         = ["u4"; "u5"]).
Proof.
  intros stats recordsToday.
  subst stats recordsToday.
  unfold getManagerDashboardStats, records_on, getAllAttendanceForDate,
    count_status.
  cbn [ManagerDashboardStats.totalEmployees ManagerDashboardStats.presentToday
       ManagerDashboardStats.absentToday ManagerDashboardStats.lateToday
       ManagerDashboardStats.absentEmployees].
  set (today_records :=
         filter (fun r => (Attendance.date r =? today)%string)
                (values (attendance st))).
  split; [ | split; [ | split; [ | split; [ | split]]]].
  - unfold getAllEmployees. apply len_map.
  - apply (len_filter_joined st counts_as_present).
  - rewrite len_map.
    now rewrite (len_filter_joined st (has_status "absent")).
  - apply (len_filter_joined st (has_status "late")).
  - intro emp. rewrite filter_In, negb_true_iff, has_false.
    split; intros [Hin Hno]; (split; [assumption | ]).
    + intros r Hr. apply Hno.
      rewrite map_map. cbn [AttendanceWithUser.userId join_user
                                                       AttendanceWithUser.base].
      now apply in_map.
    + intros y Hy. rewrite map_map in Hy.
      apply in_map_iff in Hy as (r & <- & Hr). now apply Hno.
  - repeat split.
Qed.

(** ** Date ranges of the report *)

Lemma filter_none {A : Type} (p : A -> bool) (l : list A) :
  (forall x, In x l -> p x = false) -> filter p l = [].
Proof.
  induction l as [| x l IH]; intro H; cbn [filter]; [reflexivity | ].
  rewrite (H x) by now left. apply IH. intros y Hy. apply H. now right.
Qed.

Lemma inverted_range_empty (startDate endDate : string) (r : Attendance.t) :
  String.ltb endDate startDate = true -> in_range startDate endDate r = false.
Proof.
  intro Hinv. unfold in_range.
  destruct (String.leb startDate (Attendance.date r)) eqn:E1; [ | reflexivity].
  destruct (String.leb (Attendance.date r) endDate) eqn:E2; [ | reflexivity].
  pose proof (leb_trans _ _ _ E1 E2) as Hle.
  unfold String.leb, String.ltb in *.
  rewrite String.compare_antisym in Hle.
  destruct (String.compare endDate startDate); discriminate.
Qed.

Lemma report_inverted st lc s e emp :
  String.ltb e s = true -> getAttendanceReport lc st s e emp = [].
Proof.
  intro Hinv. rewrite report_joins.
  rewrite filter_none; [reflexivity | ].
  intros r _. unfold in_report. now rewrite inverted_range_empty.
Qed.

Lemma history_inverted st lc u s e :
  String.ltb e s = true -> getUserAttendanceHistory lc st u s e = [].
Proof.
  intro Hinv. rewrite history_sorts.
  rewrite filter_none; [reflexivity | ].
  intros r _. unfold by_user_in_range.
  rewrite inverted_range_empty by assumption. apply andb_false_r.
Qed.

(** C8 (as amended). The report is refused, with status 400 and the
    message that both dates are required, exactly when the start date or
    the end date is missing or empty; no other check of the range is made:
    with both dates given the report succeeds, and when the end date is
    before the start date it is the empty report; the history query of the
    store returns no record for such a range. *)
Theorem report_range_handling
        (localeCompare : string -> string -> comparison)
        (st : MemStorage) (startDate endDate employee : option string)
        (userId : string) :
  (report localeCompare st startDate endDate employee
   = (400, Message "Start date and end date are required")
   <-> truthy startDate = false \/ truthy endDate = false)
  /\ (truthy startDate = true -> truthy endDate = true ->
      exists result,
        report localeCompare st startDate endDate employee = (200, Json result))
  /\ (truthy startDate = true -> truthy endDate = true ->
      String.ltb (narrow endDate) (narrow startDate) = true ->
      report localeCompare st startDate endDate employee
      = (200, Json (mkReport [] empty_summary))
      /\ getUserAttendanceHistory localeCompare st userId
           (narrow startDate) (narrow endDate) = []).
Proof.
  unfold report.
  destruct (truthy startDate) eqn:Hs, (truthy endDate) eqn:He;
    cbn [negb orb].
  - split; [ | split].
    + split; [intro H; discriminate H | intros [H | H]; discriminate H].
    + intros _ _. eexists. reflexivity.
    + intros _ _ Hinv. split.
      * now rewrite report_inverted.
      * now apply history_inverted.
  - split; [ | split]; try (intros; discriminate).
    split; [now right | reflexivity].
  - split; [ | split]; try (intros; discriminate).
    split; [now left | reflexivity].
  - split; [ | split]; try (intros; discriminate).
    split; [now left | reflexivity].
Qed.

End QueryFacts.

(* ================================================================== *)
(** * The properties on the small store *)
(* ================================================================== *)

Module Witnesses.
Import JS Storage Routes Spec Examples StoreFacts QueryFacts.
Local Open Scope list_scope.

Ltac distinct :=
  repeat (apply NoDup_cons; [cbn; intuition discriminate | ]); apply NoDup_nil.

Ltac invariant :=
  split; [split; [cbn; distinct | repeat constructor]
         | split; [unfold unique_user_date; cbn; distinct
                  | repeat apply Forall_cons; try apply Forall_nil;
                    unfold checked_out, checked_in; cbn; congruence]].

Lemma checkin_checkout_outcomes_witness :
  Inv store
  /\ checkin_outcomes store "u1" "2024-03-04" (mkClock 17 0 0) "b1" 1
  /\ checkout_outcomes store "u1" "2024-03-04" (mkClock 17 0 0).
Proof.
  assert (H : Inv store) by invariant.
  split; [exact H | ].
  exact (checkin_checkout_outcomes store "u1" "2024-03-04" (mkClock 17 0 0) "b1" 1 H).
Defined.

Lemma reachable_store_invariants_witness :
  (store_ok (attendance store)
   /\ unique_user_date (attendance store)
   /\ checkout_has_checkin (attendance store))
  /\ unique_user_date (attendance (run store morning))
  /\ checkout_has_checkin (attendance (run store morning)).
Proof.
  assert (H : Inv store) by invariant.
  split; [exact H | ].
  destruct H as (H1 & H2 & H3).
  exact (reachable_store_invariants store morning H1 H2 H3).
Defined.

Lemma rejected_write_keeps_store_witness :
  fst (checkin store "u1" "2024-03-04" (mkClock 9 20 0) "b1" 1) = AlreadyCheckedIn
  /\ snd (checkin store "u1" "2024-03-04" (mkClock 9 20 0) "b1" 1) = store.
Proof.
  split; [reflexivity | ].
  exact (proj1 (rejected_write_keeps_store store "u1" "2024-03-04"
                  (mkClock 9 20 0) "b1" 1) eq_refl).
Defined.

Lemma range_queries_witness :
  (collates_dates String.compare
   /\ dates_canonical store
   /\ unique_user_date (attendance store))
  /\ StronglySorted date_strictly_desc
       (getUserAttendanceHistory String.compare store "u1"
                                 "2024-03-01" "2024-03-04").
Proof.
  assert (H1 : collates_dates String.compare) by (intros a b _ _; reflexivity).
  assert (H2 : dates_canonical store) by (repeat constructor).
  assert (H3 : unique_user_date (attendance store))
    by (unfold unique_user_date; cbn; distinct).
  split; [now repeat split | ].
  exact (proj2 (proj2 (proj2 (proj2 (proj2
           (range_queries String.compare store "u1" "2024-03-01" "2024-03-04"
                          None))))) H1 H2 H3).
Defined.

Lemma joined_views_witness :
  same_public directory hashed_directory
  /\ getAllAttendanceForDate (mkStorage hashed_directory records) "2024-03-04"
     = getAllAttendanceForDate (mkStorage directory records) "2024-03-04".
Proof.
  split; [reflexivity | ].
  exact (proj1 (proj2 (proj2 (proj2 (proj2
           (joined_views String.compare directory records "2024-03-04"
                         "2024-03-01" "2024-03-04" None))))
                hashed_directory eq_refl)).
Defined.

Lemma report_range_handling_witness :
  (truthy (Some "2024-03-04") = true /\ truthy (Some "2024-03-01") = true
   /\ String.ltb "2024-03-01" "2024-03-04" = true)
  /\ report String.compare store (Some "2024-03-04") (Some "2024-03-01") None
     = (200, Json (mkReport [] empty_summary)).
Proof.
  split; [now repeat split | ].
  exact (proj1 (proj2 (proj2
           (report_range_handling String.compare store
              (Some "2024-03-04") (Some "2024-03-01") None "u1"))
           eq_refl eq_refl eq_refl)).
Defined.

(** The two scenarios of a working day: a check-in at 09:15:00 and a
    check-out at 17:00:00 store 7.75 hours and keep ["present"], and the
    second check-out changes nothing; a check-in at 11:00:00 is ["late"]
    and the check-out at 12:30:00 stores 1.50 hours and ["half-day"]. *)
Lemma morning_records :
  get (attendance (run store morning)) "b1"
  = Some (Attendance.mk "b1" "u1" "2024-03-05" (Some "09:15:00")
            (Some "17:00:00") "present" (Some "7.75") 1)
  /\ get (attendance (run store morning)) "b2"
     = Some (Attendance.mk "b2" "u2" "2024-03-05" (Some "11:00:00")
               (Some "12:30:00") "half-day" (Some "1.50") 2)
  /\ List.length (attendance (run store morning))
     = S (S (List.length (attendance store))).
Proof. repeat split. Qed.

(** C8, the claim as written, fails: a manager's report request whose end
    date is before its start date is answered with status 200 and an empty
    report, not refused. *)
Lemma inverted_range_not_rejected :
  String.ltb "2024-03-01" "2024-03-04" = true
  /\ get_report String.compare store (Some "m1")
       (Some "2024-03-04") (Some "2024-03-01") None
     = (200, Json (mkReport [] empty_summary))
  /\ rejected (get_report String.compare store (Some "m1")
                 (Some "2024-03-04") (Some "2024-03-01") None) = false
  /\ getUserAttendanceHistory String.compare store "u1" "2024-03-04" "2024-03-01"
     = [].
Proof. repeat split. Qed.

Lemma manager_dashboard_counts_witness :
  let alice := removePassword
                 (employee "u4" "Alice Brown" "alice@company.com" "EMP004" "Design") in
  (In alice (getAllEmployees store)
   /\ forall r, In r (records_on store "2024-03-04") ->
                Attendance.userId r <> UserWithoutPassword.id alice)
  /\ In alice (ManagerDashboardStats.absentEmployees
                 (getManagerDashboardStats store "2024-03-04" [])).
Proof.
  intro alice.
  assert (H : In alice (getAllEmployees store)
              /\ forall r, In r (records_on store "2024-03-04") ->
                           Attendance.userId r <> UserWithoutPassword.id alice).
  { split; [cbn; tauto | ].
    intros r Hr. cbn in Hr.
    destruct Hr as [<- | [<- | [<- | []]]]; discriminate. }
  split; [exact H | ].
  exact (proj2 (proj1 (proj2 (proj2 (proj2 (proj2
           (manager_dashboard_counts store "2024-03-04" [])))))
                  alice) H).
Defined.

End Witnesses.

(* ================================================================== *)
(** * Reading and writing single records *)
(* ================================================================== *)

Module CrudFacts.
Import JS Storage Routes Spec Laws MapFacts StoreFacts.
Local Open Scope list_scope.

Section WithValues.
Context {V : Type}.
Implicit Types (m : Map V) (k : string) (v : V).

Lemma get_set_same m k v : get (set m k v) k = Some v.
Proof.
  induction m as [| [k' v'] m IH]; cbn [set get].
  - now rewrite String.eqb_refl.
  - destruct (String.eqb_spec k' k) as [-> | Hne]; cbn [get].
    + now rewrite String.eqb_refl.
    + destruct (String.eqb_spec k' k); [contradiction | assumption].
Qed.

Lemma get_set_other m k v k' : k' <> k -> get (set m k v) k' = get m k'.
Proof.
  intro Hne. induction m as [| [k0 v0] m IH]; cbn [set get].
  - destruct (String.eqb_spec k k'); [congruence | reflexivity].
  - destruct (String.eqb_spec k0 k) as [-> | Hk]; cbn [get].
    + destruct (String.eqb_spec k k'); [congruence | reflexivity].
    + now rewrite IH.
Qed.

Lemma In_set_value m k v : In v (values (set m k v)).
Proof.
  unfold values. apply in_map_iff. exists (k, v). split; [reflexivity | ].
  apply get_In. apply get_set_same.
Qed.

Lemma length_set m k v :
  List.length (set m k v)
  = match get m k with Some _ => List.length m | None => S (List.length m) end.
Proof.
  destruct (get m k) as [old | ] eqn:E.
  - destruct (set_found m k old v E) as (l1 & l2 & -> & ->).
    rewrite !length_app. reflexivity.
  - rewrite (set_fresh m k v E), length_app. cbn. lia.
Qed.

Lemma keys_set_kept m k v k' : In k' (keys m) -> In k' (keys (set m k v)).
Proof.
  intro H. destruct (get m k) as [old | ] eqn:E.
  - now rewrite (keys_set_found m k old v E).
  - rewrite (set_fresh m k v E). unfold keys in *.
    rewrite map_app, in_app_iff. now left.
Qed.
End WithValues.

(** X1. A record made by [createAttendance] is stored under the given id
    and is what a lookup of that id returns; every other id reads as
    before, the directory is untouched, and a new id places the record
    after all the others. *)
Theorem createAttendance_then_lookup
        (st : MemStorage) (ins : InsertAttendance.t) (id : string) (now : Z) :
  let out := createAttendance st ins id now in
  getAttendanceById (snd out) id = Some (fst out)
  /\ Attendance.id (fst out) = id
  /\ Attendance.createdAt (fst out) = now
  /\ (forall k, k <> id -> getAttendanceById (snd out) k = getAttendanceById st k)
  /\ users (snd out) = users st
  /\ (getAttendanceById st id = None ->
      values (attendance (snd out)) = values (attendance st) ++ [fst out])
  /\ (forall old, getAttendanceById st id = Some old ->
                  keys (attendance (snd out)) = keys (attendance st)).
Proof.
  cbv zeta. unfold createAttendance, getAttendanceById.
  cbn [fst snd with_attendance attendance users Attendance.id Attendance.createdAt].
  repeat split.
  - apply get_set_same.
  - intros k Hk. now apply get_set_other.
  - intro Hfresh. rewrite (set_fresh _ _ _ Hfresh).
    unfold values. now rewrite map_app.
  - intros old Hold. now apply (keys_set_found _ _ old).
Qed.

Lemma spread_empty (r : Attendance.t) :
  PartialAttendance.spread r PartialAttendance.empty = r.
Proof. now destruct r. Qed.

(** X2. [updateAttendance] on an id that is not stored returns
    [undefined] and changes nothing; on a stored id it returns the record
    with the given fields replaced, stores it under the same id and at the
    same place, and leaves every other id as it was; an update without
    fields stores the record itself. *)
Theorem updateAttendance_behaviour
        (st : MemStorage) (id : string) (updates : PartialAttendance.t) :
  (getAttendanceById st id = None ->
   updateAttendance st id updates = (None, st))
  /\ (forall r,
        getAttendanceById st id = Some r ->
        let out := updateAttendance st id updates in
        fst out = Some (PartialAttendance.spread r updates)
        /\ getAttendanceById (snd out) id
           = Some (PartialAttendance.spread r updates)
        /\ (forall k, k <> id ->
                      getAttendanceById (snd out) k = getAttendanceById st k)
        /\ keys (attendance (snd out)) = keys (attendance st)
        /\ users (snd out) = users st)
  /\ (forall r,
        getAttendanceById st id = Some r ->
        fst (updateAttendance st id PartialAttendance.empty) = Some r
        /\ getAttendanceById
             (snd (updateAttendance st id PartialAttendance.empty)) id = Some r).
Proof.
  unfold updateAttendance, getAttendanceById.
  split; [ | split].
  - intro H. now rewrite H.
  - intros r H. rewrite H. cbv zeta.
    cbn [fst snd with_attendance attendance users].
    repeat split.
    + apply get_set_same.
    + intros k Hk. now apply get_set_other.
    + now apply (keys_set_found _ _ r).
  - intros r H. rewrite H.
    cbn [fst snd with_attendance attendance]. rewrite spread_empty.
    split; [reflexivity | apply get_set_same].
Qed.

End CrudFacts.

(* ================================================================== *)
(** * A working day: how check-in and check-out compose *)
(* ================================================================== *)

Module DayFacts.
Import JS Storage Routes Spec Laws MapFacts StoreFacts CrudFacts.
Local Open Scope list_scope.

(** After a check-in, whatever its outcome, the user has a record of the
    day with a check-in time. *)
Lemma checked_in_after_checkin st u d now uuid created :
  Inv st ->
  exists r, record_for (snd (checkin st u d now uuid created)) u d r
            /\ checked_in r.
Proof.
  intros (Hok & Hu & Hc).
  destruct (getAttendanceByUserAndDate st u d) as [e | ] eqn:He.
  - pose proof (lookup_found st u d e He) as (Hin & Hue & Hde).
    destruct (truthy (Attendance.checkInTime e)) eqn:Hci.
    + rewrite (checkin_rejects st u d now uuid created e He Hci).
      exists e. now repeat split.
    + rewrite (checkin_fills st u d now uuid created e Hok He Hci).
      exists (checked_in_record e now).
      repeat split; try assumption.
      cbn [snd with_attendance attendance]. apply In_set_value.
  - rewrite (checkin_creates st u d now uuid created He).
    exists (new_record uuid u d now created).
    repeat split.
    cbn [snd with_attendance attendance]. apply In_set_value.
Qed.

(** X3. On a store that satisfies the invariant, a check-in that follows a
    check-in of the same user on the same day is answered
    [AlreadyCheckedIn] and changes nothing, whatever the first one did. *)
Theorem second_checkin_rejected
        (st : MemStorage) (userId today : string) (now now' : Clock)
        (uuid uuid' : string) (created created' : Z) :
  Inv st ->
  let st1 := snd (checkin st userId today now uuid created) in
  checkin st1 userId today now' uuid' created' = (AlreadyCheckedIn, st1).
Proof.
  intros HInv st1.
  assert (HInv1 : Inv st1) by now apply Inv_checkin.
  destruct (checked_in_after_checkin st userId today now uuid created HInv)
    as (r & Hr & Hci).
  fold st1 in Hr.
  destruct HInv1 as (_ & Hu1 & _).
  exact (checkin_rejects st1 userId today now' uuid' created' r
           (lookup_record st1 userId today r Hu1 Hr) Hci).
Qed.

(** X4. On a store that satisfies the invariant, a check-out that follows a
    check-out of the same user on the same day changes nothing: it is
    answered [AlreadyCheckedOut] when the first one was accepted or
    answered so, and [NotCheckedIn] when the first one was. *)
Theorem second_checkout_rejected
        (st : MemStorage) (userId today : string) (now now' : Clock) :
  Inv st ->
  let first := checkout st userId today now in
  let second := checkout (snd first) userId today now' in
  snd second = snd first
  /\ (fst first = NotCheckedIn -> fst second = NotCheckedIn)
  /\ (fst first <> NotCheckedIn -> fst second = AlreadyCheckedOut).
Proof.
  intros (Hok & Hu & Hc) first second. subst first second.
  destruct (getAttendanceByUserAndDate st userId today) as [e | ] eqn:He.
  - destruct (truthy (Attendance.checkInTime e)) eqn:Hci.
    + destruct (truthy (Attendance.checkOutTime e)) eqn:Hco.
      * rewrite (checkout_rejects_done st userId today now e He Hci Hco).
        cbn [fst snd].
        rewrite (checkout_rejects_done st userId today now' e He Hci Hco).
        repeat split. intro H. discriminate H.
      * rewrite (checkout_writes st userId today now e Hok He Hci Hco).
        cbn [fst snd].
        set (st1 := with_attendance st _).
        assert (HInv1 : Inv st1).
        { pose proof (Inv_checkout st userId today now
                        (conj Hok (conj Hu Hc))) as H.
          now rewrite (checkout_writes st userId today now e Hok He Hci Hco)
            in H. }
        destruct HInv1 as (_ & Hu1 & _).
        pose proof (lookup_found st userId today e He) as (Hin & Hue & Hde).
        assert (Hr : record_for st1 userId today (checked_out_record e now)).
        { repeat split; try assumption. subst st1.
          cbn [with_attendance attendance]. apply In_set_value. }
        rewrite (checkout_rejects_done st1 userId today now'
                   (checked_out_record e now)
                   (lookup_record st1 userId today _ Hu1 Hr) Hci eq_refl).
        repeat split. intro H. discriminate H.
    + rewrite (checkout_rejects_unchecked st userId today now e He Hci).
      cbn [fst snd].
      rewrite (checkout_rejects_unchecked st userId today now' e He Hci).
      repeat split. intro H. now contradiction H.
  - rewrite (checkout_rejects_missing st userId today now He).
    cbn [fst snd].
    rewrite (checkout_rejects_missing st userId today now' He).
    repeat split. intro H. now contradiction H.
Qed.


(** X5. A whole day on a store that satisfies the invariant: when the user
    has no record of the day, a check-in at [h1:m1:s1] followed by a
    check-out at [h2:m2:s2] is accepted and leaves one record of the user
    and day, under the id drawn at check-in, with both times, the printed
    duration, and the status of the check-in time unless fewer than 240
    minutes lie between the two times, when it is ["half-day"]. *)
Theorem checkin_then_checkout
        (st : MemStorage) (userId today uuid : string) (created : Z)
        (t1 t2 : Clock) :
  Inv st -> no_record_for st userId today -> clock_ok t1 -> clock_ok t2 ->
  let st1 := snd (checkin st userId today t1 uuid created) in
  let out := checkout st1 userId today t2 in
  let final :=
    Attendance.mk uuid userId today
      (Some (format_time t1)) (Some (format_time t2))
      (if minutes_between (hours t1) (minutes t1) (hours t2) (minutes t2) <? 240
       then "half-day" else calculateStatus (format_time t1))
      (Some (calculateTotalHours (format_time t1) (format_time t2)))
      created in
  fst out = (200, Json (Some final))
  /\ getAttendanceById (snd out) uuid = Some final
  /\ getAttendanceByUserAndDate (snd out) userId today = Some final.
Proof.
  intros HInv Hnone Hc1 Hc2 st1 out final.
  assert (He : getAttendanceByUserAndDate st userId today = None).
  { destruct (getAttendanceByUserAndDate st userId today) as [e | ] eqn:E;
      [ | reflexivity].
    exfalso. apply (Hnone e). now apply lookup_found. }
  assert (HInv1 : Inv st1) by now apply Inv_checkin.
  subst out st1.
  rewrite (checkin_creates st userId today t1 uuid created He) in *.
  cbn [snd] in *.
  set (new := new_record uuid userId today t1 created) in *.
  set (st1 := with_attendance st (set (attendance st) uuid new)) in *.
  destruct HInv1 as (Hok1 & Hu1 & Hco1).
  assert (Hr : record_for st1 userId today new).
  { repeat split. subst st1. cbn [with_attendance attendance].
    apply In_set_value. }
  pose proof (lookup_record st1 userId today new Hu1 Hr) as Hl.
  rewrite (checkout_writes st1 userId today t2 new Hok1 Hl eq_refl eq_refl).
  assert (Hfinal : checked_out_record new t2 = final).
  { destruct Hc1 as (H1 & H2 & H3).
    pose proof (checked_out_status new t2 (hours t1) (minutes t1) (seconds t1)
                  eq_refl ltac:(lia) ltac:(lia) ltac:(lia) Hc2) as Hs.
    unfold checked_out_record in *. cbn [Attendance.status] in Hs.
    rewrite Hs. reflexivity. }
  rewrite Hfinal. cbn [fst snd].
  assert (Hok2 : Inv (with_attendance st1 (set (attendance st1) uuid final))).
  { pose proof (Inv_checkout st1 userId today t2
                  (conj Hok1 (conj Hu1 Hco1))) as H.
    rewrite (checkout_writes st1 userId today t2 new Hok1 Hl eq_refl eq_refl),
      Hfinal in H. exact H. }
  split; [reflexivity | split].
  - unfold getAttendanceById. cbn [with_attendance attendance].
    apply get_set_same.
  - apply lookup_record; [apply Hok2 | ].
    repeat split. cbn [with_attendance attendance]. apply In_set_value.
Qed.

(** The values of the map after each handler, by cases. *)
Lemma checkin_values st u d now uuid created :
  Inv st ->
  let st' := snd (checkin st u d now uuid created) in
  st' = st
  \/ (exists r, record_for st u d r
                /\ replaced (attendance st) (attendance st') r
                            (checked_in_record r now))
  \/ (no_record_for st u d
      /\ attendance st'
         = set (attendance st) uuid (new_record uuid u d now created)).
Proof.
  intros (Hok & Hu & Hc) st'. subst st'.
  destruct (getAttendanceByUserAndDate st u d) as [e | ] eqn:He.
  - destruct (truthy (Attendance.checkInTime e)) eqn:Hci.
    + left. now rewrite (checkin_rejects st u d now uuid created e He Hci).
    + right. left. exists e.
      pose proof (lookup_found st u d e He) as Hr.
      split; [assumption | ].
      rewrite (checkin_fills st u d now uuid created e Hok He Hci).
      cbn [snd with_attendance attendance].
      apply replaced_set; [assumption | apply Hr].
  - right. right. split; [now apply lookup_none | ].
    now rewrite (checkin_creates st u d now uuid created He).
Qed.

Lemma checkout_values st u d now :
  Inv st ->
  let st' := snd (checkout st u d now) in
  st' = st
  \/ (exists r, record_for st u d r
                /\ replaced (attendance st) (attendance st') r
                            (checked_out_record r now)).
Proof.
  intros (Hok & Hu & Hc) st'. subst st'.
  destruct (getAttendanceByUserAndDate st u d) as [e | ] eqn:He.
  - destruct (truthy (Attendance.checkInTime e)) eqn:Hci.
    + destruct (truthy (Attendance.checkOutTime e)) eqn:Hco.
      * left. now rewrite (checkout_rejects_done st u d now e He Hci Hco).
      * right. exists e.
        pose proof (lookup_found st u d e He) as Hr.
        split; [assumption | ].
        rewrite (checkout_writes st u d now e Hok He Hci Hco).
        cbn [snd with_attendance attendance].
        apply replaced_set; [assumption | apply Hr].
    + left. now rewrite (checkout_rejects_unchecked st u d now e He Hci).
  - left. now rewrite (checkout_rejects_missing st u d now He).
Qed.

Lemma replaced_In m m' r r' x :
  replaced m m' r r' -> x <> r -> x <> r' ->
  (In x (values m') <-> In x (values m)).
Proof.
  intros (l1 & l2 & -> & ->) H1 H2.
  rewrite !in_app_iff. cbn [In]. intuition congruence.
Qed.

(** X6. On a store that satisfies the invariant, a check-in under an id
    that is not yet in use and a check-out leave every record of another
    user or another day in the store, and bring no such record into it. *)
Theorem other_records_untouched
        (st : MemStorage) (userId today : string) (now : Clock)
        (uuid : string) (created : Z) (r : Attendance.t) :
  Inv st ->
  getAttendanceById st uuid = None ->
  user_date r <> (userId, today) ->
  (In r (values (attendance (snd (checkin st userId today now uuid created))))
   <-> In r (values (attendance st)))
  /\ (In r (values (attendance (snd (checkout st userId today now))))
      <-> In r (values (attendance st))).
Proof.
  intros HInv Hfresh Hother. split.
  - destruct (checkin_values st userId today now uuid created HInv)
      as [-> | [(e & (_ & Hue & Hde) & Hrep) | (_ & ->)]].
    + reflexivity.
    + apply (replaced_In _ _ _ _ _ Hrep); intros ->; apply Hother;
        unfold user_date; cbn; now rewrite Hue, Hde.
    + unfold getAttendanceById in Hfresh.
      rewrite (set_fresh _ _ _ Hfresh). unfold values.
      rewrite map_app, in_app_iff. cbn [map snd In].
      split; [ | tauto].
      intros [H | [<- | []]]; [assumption | ].
      exfalso. now apply Hother.
  - destruct (checkout_values st userId today now HInv)
      as [-> | (e & (_ & Hue & Hde) & Hrep)].
    + reflexivity.
    + apply (replaced_In _ _ _ _ _ Hrep); intros ->; apply Hother;
        unfold user_date; cbn; now rewrite Hue, Hde.
Qed.


(** ** Statuses *)

Lemma calculateStatus_cases (t : string) :
  calculateStatus t = "present" \/ calculateStatus t = "late"
  \/ calculateStatus t = "half-day".
Proof.
  unfold calculateStatus.
  destruct (le _ _); [now left | ].
  destruct (le _ _); [right; now left | right; now right].
Qed.

Lemma calculateStatus_valid (t : string) : valid_status (calculateStatus t).
Proof.
  unfold valid_status.
  destruct (calculateStatus_cases t) as [-> | [-> | ->]]; tauto.
Qed.

Lemma statuses_valid_set st k v :
  statuses_valid st -> valid_status (Attendance.status v) ->
  statuses_valid (with_attendance st (set (attendance st) k v)).
Proof.
  unfold statuses_valid. cbn [with_attendance attendance].
  rewrite !Forall_forall. intros H Hv x Hx.
  apply In_values_set in Hx as [-> | Hx]; auto.
Qed.

Lemma statuses_valid_get st k r :
  statuses_valid st -> get (attendance st) k = Some r ->
  valid_status (Attendance.status r).
Proof.
  unfold statuses_valid. rewrite Forall_forall. intros H Hg.
  apply H. unfold values. apply in_map_iff. exists (k, r).
  split; [reflexivity | now apply get_In].
Qed.

Lemma statuses_valid_checkin st u d now uuid created :
  statuses_valid st -> statuses_valid (snd (checkin st u d now uuid created)).
Proof.
  intro H. unfold checkin.
  destruct (getAttendanceByUserAndDate st u d) as [e | ].
  - destruct (truthy (Attendance.checkInTime e)); [assumption | ].
    unfold updateAttendance.
    destruct (get (attendance st) (Attendance.id e)) as [r | ] eqn:E;
      [ | assumption].
    cbn [snd]. apply statuses_valid_set; [assumption | ].
    apply calculateStatus_valid.
  - unfold createAttendance. cbn [snd].
    apply statuses_valid_set; [assumption | ].
    apply calculateStatus_valid.
Qed.

Lemma statuses_valid_checkout st u d now :
  statuses_valid st -> statuses_valid (snd (checkout st u d now)).
Proof.
  intro H. unfold checkout.
  destruct (getAttendanceByUserAndDate st u d) as [e | ] eqn:He;
    [ | assumption].
  destruct (truthy (Attendance.checkInTime e)); cbn [negb]; [ | assumption].
  destruct (truthy (Attendance.checkOutTime e)); [assumption | ].
  unfold updateAttendance.
  destruct (get (attendance st) (Attendance.id e)) as [r | ] eqn:E;
    [ | assumption].
  cbn [snd]. apply statuses_valid_set; [assumption | ].
  cbn [PartialAttendance.spread PartialAttendance.pick Attendance.status
       PartialAttendance.status].
  unfold reconcileStatusOnCheckout.
  destruct (lt _ _); [unfold valid_status; tauto | ].
  unfold statuses_valid in H. rewrite Forall_forall in H. apply H.
  apply (lookup_found st u d e He).
Qed.

Lemma statuses_valid_handle st rq :
  statuses_valid st -> statuses_valid (handle st rq).
Proof.
  intro H. destruct rq as [session today now uuid created | session today now];
    cbn [handle]; unfold post_checkin, post_checkout;
    destruct (requireAuth session); cbn [snd]; try assumption.
  - now apply statuses_valid_checkin.
  - now apply statuses_valid_checkout.
Qed.

(** X7. [calculateStatus] answers ["present"], ["late"] or ["half-day"] on
    every text, never ["absent"] (a text it cannot read is ["half-day"]);
    and if every stored status is one of the four statuses, this is still
    so after any sequence of check-in and check-out requests. *)
Theorem statuses_stay_valid (st : MemStorage) (rqs : list Request) :
  (forall t,
      calculateStatus t = "present" \/ calculateStatus t = "late"
      \/ calculateStatus t = "half-day")
  /\ calculateStatus "late o'clock" = "half-day"
  /\ (statuses_valid st -> statuses_valid (run st rqs)).
Proof.
  split; [apply calculateStatus_cases | split; [reflexivity | ]].
  revert st. induction rqs as [| rq rqs IH]; intros st H; cbn [run fold_left].
  - assumption.
  - apply IH. now apply statuses_valid_handle.
Qed.

(** ** What the two writes never do *)

Lemma handle_keeps st rq :
  users (handle st rq) = users st
  /\ (forall k, In k (keys (attendance st)) ->
                In k (keys (attendance (handle st rq))))
  /\ (List.length (attendance st) <= List.length (attendance (handle st rq))
      <= S (List.length (attendance st)))%nat
  /\ (forall session today now,
        rq = CheckOut session today now ->
        keys (attendance (handle st rq)) = keys (attendance st)).
Proof.
  destruct rq as [session today now uuid created | session today now];
    cbn [handle]; unfold post_checkin, post_checkout;
    (destruct (requireAuth session);
     [cbn [snd]; repeat split; auto; lia | ]).
  - unfold checkin.
    destruct (getAttendanceByUserAndDate st _ today) as [e | ].
    + destruct (truthy (Attendance.checkInTime e));
        [cbn [snd]; repeat split; auto; try lia; discriminate | ].
      unfold updateAttendance.
      destruct (get (attendance st) (Attendance.id e)) as [r | ] eqn:E;
        [ | cbn [snd]; repeat split; auto; try lia; discriminate].
      cbn [snd with_attendance attendance users].
      rewrite length_set, E.
      repeat split; try lia; try discriminate.
      intros k Hk. now apply keys_set_kept.
    + unfold createAttendance. cbn [snd with_attendance attendance users].
      rewrite length_set.
      repeat split; try discriminate.
      * intros k Hk. now apply keys_set_kept.
      * destruct (get (attendance st) uuid); lia.
      * destruct (get (attendance st) uuid); lia.
  - unfold checkout.
    destruct (getAttendanceByUserAndDate st _ today) as [e | ];
      [ | cbn [snd]; repeat split; auto; lia].
    destruct (truthy (Attendance.checkInTime e)); cbn [negb];
      [ | cbn [snd]; repeat split; auto; lia].
    destruct (truthy (Attendance.checkOutTime e));
      [cbn [snd]; repeat split; auto; lia | ].
    unfold updateAttendance.
    destruct (get (attendance st) (Attendance.id e)) as [r | ] eqn:E;
      [ | cbn [snd]; repeat split; auto; lia].
    cbn [snd with_attendance attendance users].
    rewrite length_set, E.
    repeat split; try lia.
    + intros k Hk. now apply keys_set_kept.
    + intros _ _ _ _. now apply (keys_set_found _ _ r).
Qed.

(** X8. Check-in and check-out requests never touch the user directory
    and never remove an attendance record: after any sequence of them
    every id that was stored is still stored, and the number of records
    has grown by at most the number of requests; a check-out request
    leaves the ids exactly as they were. *)
Theorem writes_never_delete (st : MemStorage) (rqs : list Request) :
  users (run st rqs) = users st
  /\ (forall k, In k (keys (attendance st)) ->
                In k (keys (attendance (run st rqs))))
  /\ (List.length (attendance st) <= List.length (attendance (run st rqs))
      <= List.length (attendance st) + List.length rqs)%nat
  /\ (forall session today now,
        keys (attendance (handle st (CheckOut session today now)))
        = keys (attendance st)).
Proof.
  split; [ | split; [ | split]].
  - revert st. induction rqs as [| rq rqs IH]; intro st; cbn [run fold_left];
      [reflexivity | ].
    unfold run in IH. rewrite IH. apply handle_keeps.
  - revert st. induction rqs as [| rq rqs IH]; intros st k Hk;
      cbn [run fold_left]; [assumption | ].
    apply IH. now apply handle_keeps.
  - revert st. induction rqs as [| rq rqs IH]; intro st; cbn [run fold_left].
    + cbn. lia.
    + pose proof (IH (handle st rq)) as H. unfold run in H.
      pose proof (handle_keeps st rq) as (_ & _ & Hl & _).
      cbn [List.length]. lia.
  - intros session today now.
    destruct (handle_keeps st (CheckOut session today now)) as (_ & _ & _ & H).
    exact (H session today now eq_refl).
Qed.

(** X9. On a store that satisfies the invariant, every record found in the
    store after a check-in or check-out request was there before the
    request or belongs to the session's user and the request's day; a
    request without a session is answered 401 and changes nothing. *)
Theorem writes_belong_to_session
        (st : MemStorage) (session : option string) (today : string)
        (now : Clock) (uuid : string) (created : Z) :
  Inv st ->
  (forall r,
      In r (values (attendance (snd (post_checkin st session today now uuid created))))
      \/ In r (values (attendance (snd (post_checkout st session today now)))) ->
      In r (values (attendance st))
      \/ (session = Some (Attendance.userId r)
          /\ Attendance.userId r <> "" /\ Attendance.date r = today))
  /\ (truthy session = false ->
      post_checkin st session today now uuid created = (Unauthorized, st)
      /\ post_checkout st session today now = (Unauthorized, st)).
Proof.
  intro HInv. split.
  - intro r. unfold post_checkin, post_checkout, requireAuth.
    destruct session as [sid | ]; cbn [truthy]; [ | cbn [snd]; tauto].
    destruct (String.eqb_spec sid "") as [-> | Hne]; cbn [negb snd narrow];
      [tauto | ].
    assert (Hmine : forall x,
               Attendance.userId x = sid -> Attendance.date x = today ->
               Some sid = Some (Attendance.userId x)
               /\ Attendance.userId x <> "" /\ Attendance.date x = today).
    { intros x Hx Hd. rewrite Hx. now repeat split. }
    intros [Hin | Hin].
    + destruct (checkin_values st sid today now uuid created HInv)
        as [Heq | [(e & (_ & Hue & Hde) & (l1 & l2 & H1 & H2)) | (_ & Heq)]].
      * rewrite Heq in Hin. now left.
      * rewrite H2 in Hin. rewrite H1.
        rewrite in_app_iff in Hin |- *. cbn [In] in Hin |- *.
        destruct Hin as [H | [<- | H]]; [tauto | | tauto].
        right. now apply Hmine.
      * rewrite Heq in Hin. apply In_values_set in Hin as [-> | H];
          [ | now left].
        right. now apply Hmine.
    + destruct (checkout_values st sid today now HInv)
        as [Heq | (e & (_ & Hue & Hde) & (l1 & l2 & H1 & H2))].
      * rewrite Heq in Hin. now left.
      * rewrite H2 in Hin. rewrite H1.
        rewrite in_app_iff in Hin |- *. cbn [In] in Hin |- *.
        destruct Hin as [H | [<- | H]]; [tauto | | tauto].
        right. now apply Hmine.
  - intro Hs. unfold post_checkin, post_checkout, requireAuth.
    now rewrite Hs.
Qed.

End DayFacts.

(* ================================================================== *)
(** * More on the classifier and the duration *)
(* ================================================================== *)

Module ClassifierLaws.
Import JS Routes Spec Laws JSFacts ClassifierFacts DurationFacts.

(** X10. A later check-in never has an earlier bracket: for two times
    written [HH:MM:SS], if the first is not after the second, counted in
    minutes, then the status of the first comes no later than that of the
    second in the order present, late, half-day. *)
Theorem calculateStatus_monotone (h1 m1 s1 h2 m2 s2 : Z) :
  0 <= h1 < 100 -> 0 <= m1 < 100 -> 0 <= s1 < 100 ->
  0 <= h2 < 100 -> 0 <= m2 < 100 -> 0 <= s2 < 100 ->
  h1 * 60 + m1 <= h2 * 60 + m2 ->
  status_rank (calculateStatus (hhmmss h1 m1 s1))
  <= status_rank (calculateStatus (hhmmss h2 m2 s2)).
Proof.
  intros Hh1 Hm1 Hs1 Hh2 Hm2 Hs2 Hle.
  rewrite !calculateStatus_hhmmss by assumption.
  destruct (Z.leb_spec (h1 * 60 + m1) 570), (Z.leb_spec (h2 * 60 + m2) 570),
           (Z.leb_spec (h1 * 60 + m1) 720), (Z.leb_spec (h2 * 60 + m2) 720);
    cbn; lia.
Qed.

(** X11. Rounding the duration to two decimals does not move the
    four-hour line: for times written [HH:MM:SS], the status revision
    applied to the printed duration answers ["half-day"] exactly when
    fewer than 240 minutes lie between check-in and check-out (also when
    the check-out is the earlier time), and the given status otherwise. *)
Theorem half_day_below_240_minutes (status : string) (h1 m1 s1 h2 m2 s2 : Z) :
  0 <= h1 < 100 -> 0 <= m1 < 100 -> 0 <= s1 < 100 ->
  0 <= h2 < 100 -> 0 <= m2 < 100 -> 0 <= s2 < 100 ->
  reconcileStatusOnCheckout status
    (parseFloat (calculateTotalHours (hhmmss h1 m1 s1) (hhmmss h2 m2 s2)))
  = if minutes_between h1 m1 h2 m2 <? 240 then "half-day" else status.
Proof.
  intros. rewrite calculateTotalHours_hhmmss by assumption.
  unfold reconcileStatusOnCheckout. now rewrite hoursWorked_below_4.
Qed.

Lemma digit_not_minus (c : ascii) : is_digit c = true -> c <> "-"%char.
Proof. intros H ->. discriminate H. Qed.

(** X12. The printed duration carries a minus sign exactly when the
    check-out is the earlier time, counted in minutes; equal times print
    ["0.00"]; and exchanging the two times of a positive duration prints
    the same digits behind a minus sign. *)
Theorem calculateTotalHours_sign (h1 m1 s1 h2 m2 s2 : Z) :
  0 <= h1 < 100 -> 0 <= m1 < 100 -> 0 <= s1 < 100 ->
  0 <= h2 < 100 -> 0 <= m2 < 100 -> 0 <= s2 < 100 ->
  let there := calculateTotalHours (hhmmss h1 m1 s1) (hhmmss h2 m2 s2) in
  let back := calculateTotalHours (hhmmss h2 m2 s2) (hhmmss h1 m1 s1) in
  (minutes_between h1 m1 h2 m2 < 0 <-> exists rest, there = String "-" rest)
  /\ (minutes_between h1 m1 h2 m2 = 0 -> there = "0.00")
  /\ (0 < minutes_between h1 m1 h2 m2 -> back = "-" ++ there).
Proof.
  intros Hh1 Hm1 Hs1 Hh2 Hm2 Hs2 there back. subst there back.
  rewrite !calculateTotalHours_hhmmss by assumption.
  rewrite !toFixed2_sixtieths.
  assert (Hswap : minutes_between h2 m2 h1 m1 = - minutes_between h1 m1 h2 m2)
    by (unfold minutes_between; lia).
  rewrite Hswap. set (d := minutes_between h1 m1 h2 m2).
  split; [ | split].
  - split.
    + intro Hd. apply Z.ltb_lt in Hd. rewrite Hd. eexists. reflexivity.
    + intros (rest & Hrest).
      destruct (Z.ltb_spec d 0) as [Hd | Hd]; [assumption | exfalso].
      assert (Hn : 0 <= (10 * Z.abs d + 3) / 6 / 100)
        by (apply Z.div_pos; [apply Z.div_pos | ]; lia).
      destruct (string_of_nonneg_head _ Hn) as (c & tl & Hs & Hc).
      rewrite Hs in Hrest. cbn [append] in Hrest.
      injection Hrest as Hc' _. now apply (digit_not_minus c).
  - intros ->. reflexivity.
  - intro Hd.
    assert (H1 : (d <? 0) = false) by (apply Z.ltb_ge; lia).
    assert (H2 : (- d <? 0) = true) by (apply Z.ltb_lt; lia).
    rewrite H1, H2, Z.abs_opp. reflexivity.
Qed.

End ClassifierLaws.

(* ================================================================== *)
(** * The manager dashboard: trend and departments *)
(* ================================================================== *)

Module DashboardLaws.
Import JS Storage Routes Spec Laws MapFacts CrudFacts QueryFacts.
Local Open Scope list_scope.

Lemma len_cons {A : Type} (x : A) (l : list A) : len (x :: l) = len l + 1.
Proof. unfold len. cbn [List.length]. lia. Qed.

Lemma len_nil {A : Type} : len (@nil A) = 0.
Proof. reflexivity. Qed.

Lemma len_app {A : Type} (l1 l2 : list A) : len (l1 ++ l2) = len l1 + len l2.
Proof. unfold len. rewrite length_app. lia. Qed.

(** The three statuses that count as present are counted apart. *)
Lemma present_splits (l : list Attendance.t) :
  len (filter counts_as_present l)
  = len (filter (has_status "present") l) + len (filter (has_status "late") l)
    + len (filter (has_status "half-day") l).
Proof.
  induction l as [| r l IH]; [reflexivity | ].
  cbn [filter]. unfold counts_as_present, has_status in *.
  destruct (String.eqb_spec (Attendance.status r) "present") as [E1 | E1],
           (String.eqb_spec (Attendance.status r) "late") as [E2 | E2],
           (String.eqb_spec (Attendance.status r) "half-day") as [E3 | E3];
    try congruence; cbn [orb]; rewrite ?len_cons, IH; lia.
Qed.

(** X13. [weeklyTrend] has one entry for each day of the week given, in
    order, with the counts of that day's records; the entry of the
    dashboard's own day has the dashboard's [absentToday] and [lateToday],
    while its [present] counts the ["present"] records only, so that
    [presentToday] is its [present] plus its [late] plus the day's
    ["half-day"] records. *)
Theorem weekly_trend_matches_today
        (st : MemStorage) (today : string) (week : list string) :
  let stats := getManagerDashboardStats st today week in
  map ManagerDashboardStats.t_date (ManagerDashboardStats.weeklyTrend stats) = week
  /\ (forall e,
        In e (ManagerDashboardStats.weeklyTrend stats) ->
        let rs := records_on st (ManagerDashboardStats.t_date e) in
        ManagerDashboardStats.t_present e = len (filter (has_status "present") rs)
        /\ ManagerDashboardStats.t_late e = len (filter (has_status "late") rs)
        /\ ManagerDashboardStats.t_absent e
           = ManagerDashboardStats.totalEmployees stats - len rs
             + len (filter (has_status "absent") rs))
  /\ (forall e,
        In e (ManagerDashboardStats.weeklyTrend stats) ->
        ManagerDashboardStats.t_date e = today ->
        ManagerDashboardStats.t_absent e = ManagerDashboardStats.absentToday stats
        /\ ManagerDashboardStats.t_late e = ManagerDashboardStats.lateToday stats
        /\ ManagerDashboardStats.presentToday stats
           = ManagerDashboardStats.t_present e + ManagerDashboardStats.t_late e
             + len (filter (has_status "half-day") (records_on st today))).
Proof.
  intro stats. subst stats. unfold getManagerDashboardStats.
  cbn [ManagerDashboardStats.weeklyTrend ManagerDashboardStats.totalEmployees
       ManagerDashboardStats.absentToday ManagerDashboardStats.lateToday
       ManagerDashboardStats.presentToday].
  assert (Hentry : forall e,
             In e (map (trend_of st (getAllEmployees st)) week) ->
             e = trend_of st (getAllEmployees st) (ManagerDashboardStats.t_date e)).
  { intros e He. apply in_map_iff in He as (d & <- & _). reflexivity. }
  assert (Hcount : forall s d,
             count_status s (getAllAttendanceForDate st d)
             = len (filter (has_status s) (records_on st d))).
  { intros s d. unfold count_status, getAllAttendanceForDate, records_on.
    apply (len_filter_joined st (has_status s)). }
  assert (Hlen : forall d,
             len (getAllAttendanceForDate st d) = len (records_on st d)).
  { intro d. unfold getAllAttendanceForDate, records_on. apply len_map. }
  split; [ | split].
  - rewrite map_map. cbn [trend_of ManagerDashboardStats.t_date]. apply map_id.
  - intros e He. rewrite (Hentry e He) at 1 3 5.
    cbn [trend_of ManagerDashboardStats.t_present ManagerDashboardStats.t_late
         ManagerDashboardStats.t_absent].
    rewrite !Hcount, Hlen. repeat split. lia.
  - intros e He Hd. rewrite (Hentry e He) at 1 2 3 4. rewrite Hd.
    cbn [trend_of ManagerDashboardStats.t_present ManagerDashboardStats.t_late
         ManagerDashboardStats.t_absent].
    rewrite !Hcount, !Hlen.
    assert (Hp : len (filter
                        (fun r =>
                           (AttendanceWithUser.status r =? "present")%string
                           || (AttendanceWithUser.status r =? "late")%string
                           || (AttendanceWithUser.status r =? "half-day")%string)
                        (getAllAttendanceForDate st today))
                 = len (filter counts_as_present (records_on st today))).
    { unfold getAllAttendanceForDate, records_on.
      apply (len_filter_joined st counts_as_present). }
    rewrite Hp, present_splits. repeat split; lia.
Qed.


(** ** Department counters *)

Lemma In_keys_get {V : Type} (m : Map V) (k : string) :
  In k (keys m) -> exists v, get m k = Some v.
Proof.
  induction m as [| [k' v'] m IH]; cbn [keys map fst In get]; [tauto | ].
  intros [-> | H].
  - rewrite String.eqb_refl. now exists v'.
  - destruct (k' =? k)%string; [now exists v' | now apply IH].
Qed.

Lemma has_In (xs : list string) (x : string) : has xs x = true <-> In x xs.
Proof.
  unfold has. rewrite existsb_exists. split.
  - intros (y & Hy & Heq). apply String.eqb_eq in Heq. now subst.
  - intro H. exists x. split; [assumption | apply String.eqb_refl].
Qed.

Lemma has_keys_get {V : Type} (m : Map V) (k : string) :
  has (keys m) k = match get m k with Some _ => true | None => false end.
Proof.
  destruct (get m k) as [v | ] eqn:E.
  - apply has_In. change k with (fst (k, v)). apply in_map. now apply get_In.
  - destruct (has (keys m) k) eqn:H; [ | reflexivity].
    apply has_In in H. now apply get_None in E.
Qed.

Lemma sum_present_app (m1 m2 : Map (Z * Z)) :
  sum_present (dept_rows (m1 ++ m2))
  = sum_present (dept_rows m1) + sum_present (dept_rows m2).
Proof.
  induction m1 as [| [d [p a]] m1 IH]; cbn; [reflexivity | ].
  unfold sum_present, dept_rows in *. cbn in IH |- *. rewrite IH. lia.
Qed.

Lemma sum_absent_app (m1 m2 : Map (Z * Z)) :
  sum_absent (dept_rows (m1 ++ m2))
  = sum_absent (dept_rows m1) + sum_absent (dept_rows m2).
Proof.
  induction m1 as [| [d [p a]] m1 IH]; cbn; [reflexivity | ].
  unfold sum_absent, dept_rows in *. cbn in IH |- *. rewrite IH. lia.
Qed.

Lemma bump_counts (present : bool) (m : Map (Z * Z)) (d : string) :
  keys (bump present m d) = keys m
  /\ sum_present (dept_rows (bump present m d))
     = sum_present (dept_rows m)
       + (if has (keys m) d && present then 1 else 0)
  /\ sum_absent (dept_rows (bump present m d))
     = sum_absent (dept_rows m)
       + (if has (keys m) d && negb present then 1 else 0).
Proof.
  unfold bump. rewrite has_keys_get.
  destruct (get m d) as [[p a] | ] eqn:E; [ | cbn; repeat split; lia].
  destruct (set_found m d (p, a)
              (if present then (p + 1, a) else (p, a + 1)) E)
    as (l1 & l2 & Hm & Hs).
  subst m. rewrite Hs.
  unfold keys. rewrite !map_app, !sum_present_app, !sum_absent_app.
  cbn [map fst]. destruct present; cbn; repeat split; lia.
Qed.

(** The first loop: one zero counter for each department, in the order
    of first appearance. *)
Lemma departments_start (emps : list UserWithoutPassword.t) :
  forall m : Map (Z * Z),
    let m0 :=
      fold_left
        (fun m emp =>
           match get m (UserWithoutPassword.department emp) with
           | Some _ => m
           | None => set m (UserWithoutPassword.department emp) (0, 0)
           end)
        emps m in
    keys m0
    = keys m ++ first_occurrences (keys m)
                                  (map UserWithoutPassword.department emps)
    /\ sum_present (dept_rows m0) = sum_present (dept_rows m)
    /\ sum_absent (dept_rows m0) = sum_absent (dept_rows m).
Proof.
  induction emps as [| emp emps IH]; intro m; cbv zeta;
    cbn [fold_left map first_occurrences].
  - rewrite app_nil_r. now repeat split.
  - rewrite has_keys_get.
    destruct (get m (UserWithoutPassword.department emp)) as [v | ] eqn:E.
    + apply IH.
    + destruct (IH (set m (UserWithoutPassword.department emp) (0, 0)))
        as (Hk & Hp & Ha).
      rewrite (set_fresh _ _ _ E) in Hk, Hp, Ha |- *.
      rewrite sum_present_app in Hp. rewrite sum_absent_app in Ha.
      unfold keys in Hk |- *. rewrite map_app in Hk. cbn [map fst] in Hk.
      rewrite Hk, <- app_assoc. cbn [app].
      repeat split; [rewrite Hp | rewrite Ha]; cbn; lia.
Qed.

Lemma In_first_occurrences (xs : list string) : forall seen x,
  In x (first_occurrences seen xs) <-> In x xs /\ ~ In x seen.
Proof.
  induction xs as [| y xs IH]; intros seen x; cbn [first_occurrences In];
    [tauto | ].
  destruct (has seen y) eqn:H.
  - apply has_In in H. rewrite IH. split; [tauto | ].
    intros [[-> | Hx] Hs]; [contradiction | tauto].
  - assert (Hy : ~ In y seen) by (rewrite <- has_In; congruence).
    cbn [In]. rewrite IH, in_app_iff. cbn [In].
    destruct (String.eqb_spec y x) as [-> | Hne]; [tauto | ].
    split; [ | intros [[? | ?] ?]; [contradiction | tauto]].
    intros [? | (? & ?)]; [contradiction | tauto].
Qed.

Lemma NoDup_first_occurrences (xs : list string) : forall seen,
  NoDup (first_occurrences seen xs).
Proof.
  induction xs as [| y xs IH]; intro seen; cbn [first_occurrences];
    [constructor | ].
  destruct (has seen y); [apply IH | ].
  constructor; [ | apply IH].
  rewrite In_first_occurrences, in_app_iff. cbn [In]. tauto.
Qed.

(** The second loop, over the day's joined records. *)
Lemma departments_records (rs : list AttendanceWithUser.t) :
  forall m : Map (Z * Z),
    let m1 :=
      fold_left
        (fun m record =>
           match AttendanceWithUser.user record with
           | Some u =>
               if truthy (Some (UserWithoutPassword.department u))
               then bump (negb (AttendanceWithUser.status record =? "absent")%string)
                         m (UserWithoutPassword.department u)
               else m
           | None => m
           end)
        rs m in
    keys m1 = keys m
    /\ sum_present (dept_rows m1)
       = sum_present (dept_rows m)
         + len (filter (fun x => counted_among (keys m) x && negb (is_absent x)) rs)
    /\ sum_absent (dept_rows m1)
       = sum_absent (dept_rows m)
         + len (filter (fun x => counted_among (keys m) x && is_absent x) rs).
Proof.
  induction rs as [| x rs IH]; intro m; cbv zeta; cbn [fold_left filter].
  - rewrite len_nil. repeat split; lia.
  - assert (Hc : counted_among (keys m) x
                 = match AttendanceWithUser.user x with
                   | Some u =>
                       negb (UserWithoutPassword.department u =? "")%string
                       && has (keys m) (UserWithoutPassword.department u)
                   | None => false
                   end) by reflexivity.
    destruct (AttendanceWithUser.user x) as [u | ];
      [ | rewrite Hc; cbn [andb]; apply (IH m)].
    change (truthy (Some (UserWithoutPassword.department u)))
      with (negb (UserWithoutPassword.department u =? "")%string).
    destruct (UserWithoutPassword.department u =? "")%string; cbn [negb andb] in *;
      [rewrite Hc; cbn [andb]; apply (IH m) | ].
    pose proof (bump_counts
                  (negb (AttendanceWithUser.status x =? "absent")%string)
                  m (UserWithoutPassword.department u)) as (Hk & Hp & Ha).
    pose proof (IH (bump (negb (AttendanceWithUser.status x =? "absent")%string)
                         m (UserWithoutPassword.department u)))
      as (Hk' & Hp' & Ha').
    rewrite Hk in Hk', Hp', Ha'. rewrite Hk', Hp', Ha', Hp, Ha, Hc.
    change (AttendanceWithUser.status x =? "absent")%string with (is_absent x).
    rewrite negb_involutive.
    destruct (has (keys m) (UserWithoutPassword.department u)),
             (is_absent x);
      cbn [negb andb]; rewrite ?len_cons; repeat split; lia.
Qed.

(** The third loop, over the employees without a record. *)
Lemma departments_no_shows (ids : list string) (emps : list UserWithoutPassword.t) :
  forall m : Map (Z * Z),
    (forall emp, In emp emps -> In (UserWithoutPassword.department emp) (keys m)) ->
    let m2 :=
      fold_left
        (fun m emp =>
           if negb (has ids (UserWithoutPassword.id emp))
           then bump false m (UserWithoutPassword.department emp)
           else m)
        emps m in
    keys m2 = keys m
    /\ sum_present (dept_rows m2) = sum_present (dept_rows m)
    /\ sum_absent (dept_rows m2)
       = sum_absent (dept_rows m)
         + len (filter (fun emp => negb (has ids (UserWithoutPassword.id emp)))
                       emps).
Proof.
  induction emps as [| emp emps IH]; intros m Hin; cbv zeta;
    cbn [fold_left filter].
  - rewrite len_nil. repeat split; lia.
  - assert (Hrest : forall e, In e emps ->
                              In (UserWithoutPassword.department e) (keys m))
      by (intros e He; apply Hin; now right).
    destruct (negb (has ids (UserWithoutPassword.id emp))).
    + pose proof (bump_counts false m (UserWithoutPassword.department emp))
        as (Hk & Hp & Ha).
      assert (Hhit : has (keys m) (UserWithoutPassword.department emp) = true)
        by (apply has_In, Hin; now left).
      rewrite Hhit in Hp, Ha. cbn [andb negb] in Hp, Ha.
      destruct (IH (bump false m (UserWithoutPassword.department emp)))
        as (Hk' & Hp' & Ha'); [now rewrite Hk | ].
      rewrite Hk', Hp', Ha', Hk, Hp, Ha, len_cons. repeat split; lia.
    + now apply IH.
Qed.

(** X14. [departmentStats] lists each department of the employees once, in
    the order of first appearance.  Over all departments, [present] adds
    up to the day's records that are not ["absent"] and whose owner is
    known with a department of the employees; [absent] adds up to the
    ["absent"] ones among such records plus the employees listed in
    [absentEmployees]. *)
Theorem department_counters
        (st : MemStorage) (today : string) (week : list string) :
  let stats := getManagerDashboardStats st today week in
  let rows := ManagerDashboardStats.departmentStats stats in
  let employees := getAllEmployees st in
  let counted :=
    counted_among (map UserWithoutPassword.department employees) in
  map ManagerDashboardStats.d_department rows
  = first_occurrences [] (map UserWithoutPassword.department employees)
  /\ NoDup (map ManagerDashboardStats.d_department rows)
  /\ (forall d, In d (map ManagerDashboardStats.d_department rows)
                <-> In d (map UserWithoutPassword.department employees))
  /\ sum_present rows
     = len (filter (fun x => counted x && negb (is_absent x))
                   (getAllAttendanceForDate st today))
  /\ sum_absent rows
     = len (filter (fun x => counted x && is_absent x)
                   (getAllAttendanceForDate st today))
       + len (ManagerDashboardStats.absentEmployees stats).
Proof.
  intros stats rows employees counted. subst rows stats.
  unfold getManagerDashboardStats.
  cbn [ManagerDashboardStats.departmentStats ManagerDashboardStats.absentEmployees].
  fold employees. fold (dept_rows
    (departmentMap employees (getAllAttendanceForDate st today)
       (map AttendanceWithUser.userId (getAllAttendanceForDate st today)))).
  unfold departmentMap.
  set (ids := map AttendanceWithUser.userId (getAllAttendanceForDate st today)).
  destruct (departments_start employees []) as (Hk0 & Hp0 & Ha0).
  cbv zeta in Hk0, Hp0, Ha0. cbn [keys map app] in Hk0.
  match goal with
  | |- context [fold_left ?f employees []] =>
      set (m0 := fold_left f employees []) in *
  end.
  destruct (departments_records (getAllAttendanceForDate st today) m0)
    as (Hk1 & Hp1 & Ha1).
  cbv zeta in Hk1, Hp1, Ha1.
  match goal with
  | |- context [fold_left ?f (getAllAttendanceForDate st today) m0] =>
      set (m1 := fold_left f (getAllAttendanceForDate st today) m0) in *
  end.
  assert (Hall : forall emp, In emp employees ->
                   In (UserWithoutPassword.department emp) (keys m1)).
  { intros emp He. rewrite Hk1, Hk0.
    apply In_first_occurrences. split; [now apply in_map | tauto]. }
  destruct (departments_no_shows ids employees m1 Hall) as (Hk2 & Hp2 & Ha2).
  cbv zeta in Hk2, Hp2, Ha2.
  match goal with
  | |- context [fold_left ?f employees m1] =>
      set (m2 := fold_left f employees m1) in *
  end.
  assert (Hnames : map ManagerDashboardStats.d_department (dept_rows m2)
                   = keys m2).
  { unfold dept_rows, keys. rewrite map_map. apply map_ext.
    now intros [d [p a]]. }
  assert (Hsame : forall x,
             counted_among (keys m0) x = counted x).
  { intro x. subst counted. unfold counted_among, keys.
    destruct (AttendanceWithUser.user x) as [u | ]; [ | reflexivity].
    f_equal. fold (keys m0). rewrite Hk0.
    destruct (has (map UserWithoutPassword.department employees)
                  (UserWithoutPassword.department u)) eqn:E.
    - apply has_In. apply has_In in E.
      apply In_first_occurrences. tauto.
    - destruct (has (first_occurrences [] _) _) eqn:E'; [ | reflexivity].
      apply has_In, In_first_occurrences in E' as [E' _].
      apply has_In in E'. congruence. }
  rewrite Hnames, Hk2, Hk1, Hk0.
  split; [reflexivity | split; [apply NoDup_first_occurrences | split]].
  - intro d. rewrite In_first_occurrences. cbn [In]. tauto.
  - split.
    + rewrite Hp2, Hp1, Hp0. cbn.
      f_equal. apply filter_ext. intro x. now rewrite Hsame.
    + rewrite Ha2, Ha1, Ha0. cbn.
      f_equal. f_equal. apply filter_ext. intro x. now rewrite Hsame.
Qed.

End DashboardLaws.

(* ================================================================== *)
(** * Summaries, the calendar and the employee dashboard *)
(* ================================================================== *)

Module ViewLaws.
Import JS Storage Routes Spec Views Laws SortFacts QueryFacts DashboardLaws.
Local Open Scope list_scope.

(** Records with one of the four statuses are counted once. *)
Lemma four_counts (l : list Attendance.t) :
  Forall (fun r => valid_status (Attendance.status r)) l ->
  len l
  = len (filter (has_status "present") l) + len (filter (has_status "absent") l)
    + len (filter (has_status "late") l) + len (filter (has_status "half-day") l).
Proof.
  induction l as [| r l IH]; intro H; [reflexivity | ].
  apply Forall_cons_iff in H as [Hr Hl]. specialize (IH Hl).
  cbn [filter]. unfold has_status in *.
  destruct (String.eqb_spec (Attendance.status r) "present") as [E1 | E1],
           (String.eqb_spec (Attendance.status r) "absent") as [E2 | E2],
           (String.eqb_spec (Attendance.status r) "late") as [E3 | E3],
           (String.eqb_spec (Attendance.status r) "half-day") as [E4 | E4];
    try (exfalso; destruct Hr as [E | [E | [E | E]]]; congruence);
    rewrite ?len_cons; lia.
Qed.

Lemma valid_sublist (st : MemStorage) (l : list Attendance.t) :
  statuses_valid st -> (forall r, In r l -> In r (values (attendance st))) ->
  Forall (fun r => valid_status (Attendance.status r)) l.
Proof.
  unfold statuses_valid. rewrite !Forall_forall. auto.
Qed.

Lemma count_status_joined st s (l : list Attendance.t) :
  count_status s (map (join_user st) l) = len (filter (has_status s) l).
Proof. unfold count_status. apply (len_filter_joined st (has_status s)). Qed.

(** X15. On a store whose statuses are the four statuses, a report with
    both dates given is answered 200 and its summary adds up:
    [totalRecords] is the number of records returned and the sum of the
    four status counts. *)
Theorem report_summary_adds_up
        (localeCompare : string -> string -> comparison)
        (st : MemStorage) (startDate endDate employee : option string) :
  statuses_valid st ->
  truthy startDate = true -> truthy endDate = true ->
  exists result,
    report localeCompare st startDate endDate employee = (200, Json result)
    /\ totalRecords (summary result) = len (records result)
    /\ totalRecords (summary result)
       = presentCount (summary result) + absentCount (summary result)
         + lateCount (summary result) + halfDayCount (summary result).
Proof.
  intros Hvalid Hs He. unfold report. rewrite Hs, He. cbn [negb orb].
  eexists. split; [reflexivity | ].
  cbn [summary records totalRecords presentCount absentCount lateCount
       halfDayCount].
  split; [reflexivity | ].
  rewrite report_joins, !count_status_joined, len_map.
  apply four_counts. apply (valid_sublist st); [assumption | ].
  intros r Hr. apply In_sort, filter_In in Hr. apply Hr.
Qed.

(** X16. The calendar has one entry for each day given, in order; an
    entry holds the joined records of its day and their number, is all
    zero with no records when the day has none, and on a store whose
    statuses are the four statuses its [total] is the sum of its four
    counts. *)
Theorem calendar_entries (st : MemStorage) (days : list string) :
  let calendar := getCalendarData st days in
  map CalendarDay.date calendar = days
  /\ (forall e,
        In e calendar ->
        CalendarDay.records e = getAllAttendanceForDate st (CalendarDay.date e)
        /\ CalendarDay.total e = len (records_on st (CalendarDay.date e))
        /\ (records_on st (CalendarDay.date e) = [] ->
            e = CalendarDay.mk (CalendarDay.date e) 0 0 0 0 0 []))
  /\ (statuses_valid st ->
      forall e,
        In e calendar ->
        CalendarDay.total e
        = CalendarDay.present e + CalendarDay.absent e
          + CalendarDay.late e + CalendarDay.halfDay e).
Proof.
  intro calendar. subst calendar. unfold getCalendarData.
  split; [ | split].
  - rewrite map_map. cbn [CalendarDay.date]. apply map_id.
  - intros e He. apply in_map_iff in He as (d & <- & _).
    cbn [CalendarDay.date CalendarDay.records CalendarDay.total].
    unfold getAllAttendanceForDate. fold (records_on st d).
    rewrite len_map. repeat split.
    intro Hnone. now rewrite Hnone.
  - intros Hvalid e He. apply in_map_iff in He as (d & <- & _).
    cbn [CalendarDay.total CalendarDay.present CalendarDay.absent
         CalendarDay.late CalendarDay.halfDay].
    unfold getAllAttendanceForDate. fold (records_on st d).
    rewrite !count_status_joined, len_map.
    apply four_counts. apply (valid_sublist st); [assumption | ].
    intros r Hr. unfold records_on in Hr. apply filter_In in Hr. apply Hr.
Qed.

Lemma count_rows_has (s : string) (l : list Attendance.t) :
  count_rows s l = len (filter (has_status s) l).
Proof. reflexivity. Qed.

(** X17. The monthly summary of a user with no record between the bounds,
    and of every user when the end is before the start, is all zero with
    zero hours; on a store whose statuses are the four statuses its four
    counts add up to the number of the user's records between the
    bounds. *)
Theorem monthly_summary_counts
        (localeCompare : string -> string -> comparison)
        (st : MemStorage) (userId startDate endDate : string) :
  let s := getUserMonthlySummary localeCompare st userId startDate endDate in
  let zero := AttendanceSummary.mk 0 0 0 0 (of_Z 0) in
  ((forall r, In r (values (attendance st)) ->
              by_user_in_range userId startDate endDate r = false) ->
   s = zero)
  /\ (String.ltb endDate startDate = true -> s = zero)
  /\ (statuses_valid st ->
      AttendanceSummary.presentDays s + AttendanceSummary.absentDays s
      + AttendanceSummary.lateDays s + AttendanceSummary.halfDays s
      = len (filter (by_user_in_range userId startDate endDate)
                    (values (attendance st)))).
Proof.
  intros s zero. subst s zero. unfold getUserMonthlySummary.
  split; [ | split].
  - intro Hnone. rewrite history_sorts, (filter_none _ _ Hnone). reflexivity.
  - intro Hinv. now rewrite history_inverted.
  - intro Hvalid.
    cbn [AttendanceSummary.presentDays AttendanceSummary.absentDays
         AttendanceSummary.lateDays AttendanceSummary.halfDays].
    rewrite history_sorts, !count_rows_has.
    set (l := filter _ (values (attendance st))).
    rewrite <- four_counts.
    + unfold len. f_equal. apply Permutation_length, sort_perm.
    + apply (valid_sublist st); [assumption | ].
      intros r Hr. apply In_sort in Hr. subst l. apply filter_In in Hr.
      apply Hr.
Qed.

Lemma leb_refl (a : string) : String.leb a a = true.
Proof.
  unfold String.leb.
  assert (H : String.compare a a = Eq).
  { induction a as [| c a IH]; cbn [String.compare]; [reflexivity | ].
    unfold Ascii.compare. now rewrite N.compare_refl. }
  now rewrite H.
Qed.

Lemma ltb_not_leb (a b : string) :
  String.ltb a b = true -> String.leb b a = true -> False.
Proof.
  unfold String.ltb, String.leb. rewrite (String.compare_antisym b a).
  destruct (String.compare a b); cbn; congruence.
Qed.

(** X18. With the host collating canonical dates as their code units, on
    a store of canonical dates with at most one record for each user and
    date, and with the first of the seven days not after today: when the
    employee dashboard shows a record for today, that record is the first
    of its recent attendance. *)
Theorem today_heads_recent
        (localeCompare : string -> string -> comparison)
        (st : MemStorage) (userId today monthStart monthEnd sevenDaysAgo : string)
        (r : Attendance.t) :
  collates_dates localeCompare ->
  dates_canonical st ->
  unique_user_date (attendance st) ->
  String.leb sevenDaysAgo today = true ->
  let stats :=
    getEmployeeDashboardStats localeCompare st userId today
                              monthStart monthEnd sevenDaysAgo in
  DashboardStats.todayStatus stats = Some r ->
  exists rest, DashboardStats.recentAttendance stats = r :: rest.
Proof.
  intros Hlc Hdates Huniq Hweek stats Hr. subst stats.
  unfold getEmployeeDashboardStats in *.
  cbn [DashboardStats.todayStatus DashboardStats.recentAttendance] in *.
  apply StoreFacts.lookup_found in Hr as (Hin & Hu & Hd).
  rewrite history_sorts.
  set (l := filter (by_user_in_range userId sevenDaysAgo today)
                   (values (attendance st))).
  assert (Hrl : In r l).
  { subst l. apply filter_In. split; [assumption | ].
    unfold by_user_in_range, in_range. rewrite Hu, Hd, String.eqb_refl, Hweek.
    now rewrite leb_refl. }
  assert (Hstrict : StronglySorted date_strictly_desc
                      (sort (by_date_desc localeCompare) l)).
  { apply (sorted_strict Attendance.date).
    - apply (Permutation_NoDup
               (Permutation_map Attendance.date
                  (Permutation_sym (sort_perm (by_date_desc localeCompare) l)))).
      apply (NoDup_map_finer user_date).
      + intros a b Ha Hb Hab. subst l.
        apply filter_In in Ha as [_ Ha], Hb as [_ Hb].
        unfold by_user_in_range in Ha, Hb.
        apply andb_true_iff in Ha as [Ha _], Hb as [Hb _].
        apply String.eqb_eq in Ha, Hb. unfold user_date. congruence.
      + subst l. now apply NoDup_map_filter.
    - apply sorted_desc; [assumption | subst l; now apply Forall_filter]. }
  assert (Hrs : In r (sort (by_date_desc localeCompare) l))
    by now apply In_sort.
  destruct (sort (by_date_desc localeCompare) l) as [| x rest] eqn:E;
    [contradiction | ].
  assert (Hx : In x l) by (apply (In_sort (by_date_desc localeCompare)); rewrite E; now left).
  destruct Hrs as [-> | Hrest]; [now exists rest | exfalso].
  apply StronglySorted_inv in Hstrict as [_ Hall].
  rewrite Forall_forall in Hall. specialize (Hall r Hrest).
  unfold date_strictly_desc in Hall. rewrite Hd in Hall.
  subst l. apply filter_In in Hx as [_ Hx].
  unfold by_user_in_range, in_range in Hx.
  apply andb_true_iff in Hx as [_ Hx]. apply andb_true_iff in Hx as [_ Hx].
  exact (ltb_not_leb _ _ Hall Hx).
Qed.

End ViewLaws.

(* ================================================================== *)
(** * Registration, login and the guarded routes *)
(* ================================================================== *)

Module AuthLaws.
Import JS Storage Routes Spec Directory Views Auth Laws.
Import JSFacts MapFacts StoreFacts CrudFacts SortFacts QueryFacts.
Local Open Scope list_scope.

(** ** Employee codes *)

Lemma digits_value_zeros (k : nat) (s : string) :
  digits_value 0 (repeat_char "0" k ++ s)%string = digits_value 0 s.
Proof. induction k as [| k IH]; [reflexivity | exact IH]. Qed.

Lemma employee_code_reads (n : Z) :
  0 <= n ->
  exists digits,
    employee_code n = ("EMP" ++ digits)%string
    /\ digits_value 0 digits = Some n.
Proof.
  intro Hn. exists (padStart 3 "0" (string_of_nonneg n)).
  split; [reflexivity | ].
  unfold padStart. rewrite digits_value_zeros.
  now apply digits_value_string_of_nonneg.
Qed.

Lemma employee_code_inj (a b : Z) :
  0 <= a -> 0 <= b -> employee_code a = employee_code b -> a = b.
Proof.
  intros Ha Hb Heq.
  destruct (employee_code_reads a Ha) as (da & Ea & Va).
  destruct (employee_code_reads b Hb) as (db & Eb & Vb).
  rewrite Ea, Eb in Heq. cbn [append] in Heq.
  injection Heq as Heq. rewrite Heq in Va. congruence.
Qed.

Lemma length_append (a b : string) :
  String.length (a ++ b)%string = (String.length a + String.length b)%nat.
Proof. induction a as [| c a IH]; cbn; [reflexivity | now rewrite IH]. Qed.

Lemma length_repeat_char (c : ascii) (k : nat) : String.length (repeat_char c k) = k.
Proof. induction k as [| k IH]; cbn; [reflexivity | now rewrite IH]. Qed.

(** X19. Employee codes are ["EMP"] followed by the counter value in
    decimal, padded with zeros to three digits and longer from 1000 on;
    distinct counter values give distinct codes, and the digits read back
    as the counter value. *)
Theorem employee_codes_distinct (a b : Z) :
  0 <= a -> 0 <= b ->
  (employee_code a = employee_code b -> a = b)
  /\ (exists digits,
        employee_code a = ("EMP" ++ digits)%string
        /\ digits_value 0 digits = Some a
        /\ String.length digits
           = Nat.max 3 (String.length (string_of_nonneg a)))
  /\ employee_code 7 = "EMP007"
  /\ employee_code 1000 = "EMP1000".
Proof.
  intros Ha Hb. split; [now apply employee_code_inj | split].
  - exists (padStart 3 "0" (string_of_nonneg a)).
    split; [reflexivity | split].
    + unfold padStart. rewrite digits_value_zeros.
      now apply digits_value_string_of_nonneg.
    + unfold padStart. rewrite length_append, length_repeat_char. lia.
  - split; reflexivity.
Qed.

(** ** Registration *)

Lemma lookup_email_none st e :
  getUserByEmail st e = None ->
  forall u, In u (values (users st)) -> User.email u <> e.
Proof.
  unfold getUserByEmail, find. intros H u Hu Heq.
  pose proof (find_none _ _ H u Hu) as Hp. cbn beta in Hp.
  apply String.eqb_neq in Hp. contradiction.
Qed.

Lemma lookup_email_some st e u :
  getUserByEmail st e = Some u ->
  In u (values (users st)) /\ User.email u = e.
Proof.
  unfold getUserByEmail, find. intro H. apply find_some in H as [Hin Hp].
  apply String.eqb_eq in Hp. now split.
Qed.

Lemma NoDup_map_set {V B : Type} (f : V -> B) (m : Map V) (k : string) (v : V) :
  NoDup (map f (values m)) ->
  (forall x, In x (values m) -> f x <> f v) ->
  NoDup (map f (values (set m k v))).
Proof.
  unfold values. intros Hu Hnew.
  assert (Hnot : ~ In (f v) (map f (map snd m))).
  { intro H. apply in_map_iff in H as (x & Hx & Hin). now apply (Hnew x). }
  destruct (get m k) as [old | ] eqn:E.
  - destruct (set_found m k old v E) as (l1 & l2 & -> & ->).
    rewrite !map_app in *. cbn [map snd] in *.
    apply (NoDup_replace _ _ (f old)); [assumption | ].
    intro H. apply Hnot. rewrite in_app_iff in *. cbn [In]. tauto.
  - rewrite (set_fresh m k v E), !map_app. cbn [map snd].
    now apply NoDup_snoc.
Qed.

Lemma find_only {A : Type} (p : A -> bool) (l : list A) (v : A) :
  In v l -> p v = true -> (forall x, In x l -> p x = true -> x = v) ->
  List.find p l = Some v.
Proof.
  intros Hin Hp Honly. destruct (List.find p l) as [x | ] eqn:E.
  - apply find_some in E as [Hx Hpx]. f_equal. now apply Honly.
  - pose proof (find_none _ _ E v Hin). congruence.
Qed.

(** The state after a registration that is accepted. *)
Lemma register_accepts s session name email password role department hashed
      uuid created :
  getUserByEmail (mem s) email = None ->
  let user := User.mk uuid name email hashed role
                      (employee_code (employeeCounter s + 1)) department created in
  register s session name email password role department hashed uuid created
  = ((201, Json (removePassword user)),
     mkState (mkStorage (set (users (mem s)) uuid user) (attendance (mem s)))
             (employeeCounter s + 1),
     Some uuid).
Proof. intro H. unfold register. now rewrite H. Qed.

Lemma register_refuses s session name email password role department hashed
      uuid created existing :
  getUserByEmail (mem s) email = Some existing ->
  register s session name email password role department hashed uuid created
  = ((400, Message "Email already registered"), s, session).
Proof. intro H. unfold register. now rewrite H. Qed.

Lemma enroll_keeps s rq :
  emails_unique (mem s) -> codes_issued s ->
  emails_unique (mem (enroll s rq)) /\ codes_issued (enroll s rq)
  /\ attendance (mem (enroll s rq)) = attendance (mem s).
Proof.
  intros He (Hc & Hnd & Hall).
  destruct rq as [session name email password role department hashed uuid created].
  cbn [enroll].
  destruct (getUserByEmail (mem s) email) as [existing | ] eqn:E.
  - rewrite (register_refuses _ _ _ _ _ _ _ _ _ _ _ E). cbn [fst snd].
    split; [assumption | split; [ | reflexivity]].
    split; [assumption | split; assumption].
  - rewrite (register_accepts _ _ _ _ _ _ _ _ _ _ E). cbn [fst snd].
    unfold emails_unique, codes_issued.
    cbn [mem users attendance employeeCounter].
    split; [ | split; [split; [lia | split] | reflexivity]].
    + apply NoDup_map_set; [assumption | ].
      intros x Hx. cbn [User.email]. now apply (lookup_email_none _ _ E).
    + apply NoDup_map_set; [assumption | ].
      intros x Hx. cbn [User.employeeId]. intro Heq.
      rewrite Forall_forall in Hall.
      destruct (Hall x Hx) as (k & Hk & Hcode). rewrite Hcode in Heq.
      apply employee_code_inj in Heq; lia.
    + rewrite Forall_forall in Hall |- *. intros x Hx.
      apply In_values_set in Hx as [-> | Hx].
      * exists (employeeCounter s + 1). split; [lia | reflexivity].
      * destruct (Hall x Hx) as (k & Hk & Hcode).
        exists k. split; [lia | assumption].
Qed.

(** X20. From a directory in which no two users share an email or an
    employee code, and every code was issued by the counter, any sequence
    of registrations leads to a directory in which again no two users
    share an email or an employee code; registrations leave the attendance
    records alone. *)
Theorem registrations_keep_unique (s : State) (rqs : list Registration) :
  emails_unique (mem s) -> codes_issued s ->
  let s' := enroll_all s rqs in
  emails_unique (mem s')
  /\ NoDup (map User.employeeId (values (users (mem s'))))
  /\ attendance (mem s') = attendance (mem s).
Proof.
  intros He Hc s'. subst s'.
  assert (H : emails_unique (mem (enroll_all s rqs))
              /\ codes_issued (enroll_all s rqs)
              /\ attendance (mem (enroll_all s rqs)) = attendance (mem s)).
  { revert s He Hc. induction rqs as [| rq rqs IH]; intros s He Hc;
      cbn [enroll_all fold_left];
      [split; [assumption | split; [assumption | reflexivity]] | ].
    destruct (enroll_keeps s rq He Hc) as (He1 & Hc1 & Ha1).
    destruct (IH _ He1 Hc1) as (He2 & Hc2 & Ha2).
    unfold enroll_all in *. rewrite Ha2, Ha1.
    split; [assumption | split; [assumption | reflexivity]]. }
  destruct H as (H1 & (_ & H2 & _) & H3).
  split; [assumption | split; assumption].
Qed.

Lemma registered_lookup (us : Map User.t) (att : Map Attendance.t)
      (user : User.t) :
  getUserByEmail (mkStorage us att) (User.email user) = None ->
  getUser (mkStorage (set us (User.id user) user) att) (User.id user) = Some user
  /\ getUserByEmail (mkStorage (set us (User.id user) user) att)
                    (User.email user) = Some user.
Proof.
  intro E. split.
  - unfold getUser. cbn [users]. apply get_set_same.
  - unfold getUserByEmail, find. cbn [users].
    apply find_only.
    + apply In_set_value.
    + apply String.eqb_refl.
    + intros x Hx Hp. apply String.eqb_eq in Hp.
      apply In_values_set in Hx as [-> | Hx]; [reflexivity | ].
      exfalso. now apply (lookup_email_none _ _ E x).
Qed.

(** X21. A registration is refused with status 400 exactly when some
    user already has the email, and then neither the storage nor the
    session changes.  Otherwise it is answered 201 with the public profile
    of the new user, who is stored under the drawn id with the hash as the
    password, the next employee code and the role given, and the session
    becomes that of the new user. *)
Theorem register_outcomes
        (s : State) (session : option string)
        (name email password role department hashedPassword uuid : string)
        (created : Z) :
  let out := register s session name email password role department
                      hashedPassword uuid created in
  let user := User.mk uuid name email hashedPassword role
                      (employee_code (employeeCounter s + 1)) department created in
  (fst (fst (fst out)) = 400
   <-> exists u, In u (values (users (mem s))) /\ User.email u = email)
  /\ (fst (fst (fst out)) = 400 -> snd (fst out) = s /\ snd out = session)
  /\ (fst (fst (fst out)) <> 400 ->
      out = ((201, Json (removePassword user)),
             mkState (mkStorage (set (users (mem s)) uuid user)
                                (attendance (mem s)))
                     (employeeCounter s + 1),
             Some uuid)
      /\ getUser (mem (snd (fst out))) uuid = Some user
      /\ getUserByEmail (mem (snd (fst out))) email = Some user).
Proof.
  intros out user. subst out.
  destruct (getUserByEmail (mem s) email) as [existing | ] eqn:E.
  - rewrite (register_refuses _ _ _ _ _ _ _ _ _ _ _ E). cbn [fst snd].
    split; [ | split].
    + split; [intros _ | reflexivity].
      exists existing. now apply lookup_email_some.
    + now split.
    + intro H. now contradiction H.
  - rewrite (register_accepts _ _ _ _ _ _ _ _ _ _ E). cbn [fst snd]. fold user.
    split; [ | split].
    + split; [intro H; discriminate H | ].
      intros (u & Hu & Hemail). exfalso.
      now apply (lookup_email_none _ _ E u).
    + intro H. discriminate H.
    + intros _. split; [reflexivity | ].
      cbn [mem].
      apply (registered_lookup (users (mem s)) (attendance (mem s)) user).
      now destruct (mem s).
Qed.


(** ** Login *)

(** X22. A login is answered 200 only for a user of the directory who has
    the email given and whose stored password accepts the password given:
    through [bcrypt.compare] when the stored text starts with ["$2b$"], by
    equality of the two texts otherwise.  The answer is then that user's
    public profile and the session becomes the user's; every other login
    is answered 401 with one and the same message and leaves the session
    as it was. *)
Theorem login_outcomes
        (bcryptCompare : string -> string -> bool)
        (st : MemStorage) (session : option string) (email password : string) :
  let out := login bcryptCompare st session email password in
  (fst (fst out) = 200 ->
   exists user,
     In user (values (users st))
     /\ User.email user = email
     /\ (if startsWith (User.password user) "$2b$"
         then bcryptCompare password (User.password user) = true
         else User.password user = password)
     /\ out = ((200, Json (removePassword user)), Some (User.id user)))
  /\ (fst (fst out) <> 200 ->
      out = ((401, Message "Invalid email or password"), session))
  /\ (getUserByEmail st email = None ->
      out = ((401, Message "Invalid email or password"), session)).
Proof.
  intro out. subst out. unfold login.
  destruct (getUserByEmail st email) as [user | ] eqn:E.
  - apply lookup_email_some in E as (Hin & Hemail).
    destruct (startsWith (User.password user) "$2b$") eqn:Hprefix.
    + destruct (bcryptCompare password (User.password user)) eqn:Hc;
        cbn [negb fst snd].
      * split; [ | split; [intro H; now contradiction H | discriminate]].
        intros _. exists user. rewrite Hprefix. now repeat split.
      * split; [intro H; discriminate H | split; [reflexivity | discriminate]].
    + destruct (String.eqb_spec (User.password user) password) as [Hp | Hp];
        cbn [negb fst snd].
      * split; [ | split; [intro H; now contradiction H | discriminate]].
        intros _. exists user. rewrite Hprefix. now repeat split.
      * split; [intro H; discriminate H | split; [reflexivity | discriminate]].
  - cbn [fst snd].
    split; [intro H; discriminate H | split; reflexivity].
Qed.

(** X23. Registration and login fit together: after a registration that
    is accepted, with a hash that starts with ["$2b$"], a login with the
    same email is answered 200, with the profile the registration
    returned and the session of the new user, exactly when
    [bcrypt.compare] accepts the password against that hash; the password
    text given at registration is not what is compared. *)
Theorem register_then_login
        (bcryptCompare : string -> string -> bool)
        (s : State) (session session' : option string)
        (name email password role department hashedPassword uuid attempt : string)
        (created : Z) :
  getUserByEmail (mem s) email = None ->
  startsWith hashedPassword "$2b$" = true ->
  let registered := register s session name email password role department
                             hashedPassword uuid created in
  let s' := snd (fst registered) in
  login bcryptCompare (mem s') session' email attempt
  = if bcryptCompare attempt hashedPassword
    then ((200, snd (fst (fst registered))), Some uuid)
    else ((401, Message "Invalid email or password"), session').
Proof.
  intros Hnew Hprefix registered s'. subst s' registered.
  rewrite (register_accepts _ _ _ _ _ _ _ _ _ _ Hnew). cbn [fst snd mem].
  set (user := User.mk uuid name email hashedPassword role _ department created).
  destruct (registered_lookup (users (mem s)) (attendance (mem s)) user)
    as (_ & Hfind); [now destruct (mem s) | ].
  unfold login. cbn [User.email User.id user] in Hfind. rewrite Hfind.
  cbn [User.password User.id user]. rewrite Hprefix.
  now destruct (bcryptCompare attempt hashedPassword).
Qed.


(** ** The guards *)

Lemma requireManager_cases {A : Type} (st : MemStorage) (session : option string) :
  (manager_session st session /\ @requireManager A st session = None)
  \/ (truthy session = false /\ @requireManager A st session = Some Unauthorized)
  \/ (truthy session = true /\ ~ manager_session st session
      /\ @requireManager A st session = Some Forbidden).
Proof.
  unfold requireManager, manager_session.
  destruct session as [sid | ]; cbn [truthy]; [ | right; left; now split].
  destruct (String.eqb_spec sid "") as [-> | Hne]; cbn [negb];
    [right; left; now split | ].
  destruct (getUser st sid) as [user | ] eqn:Eu.
  - destruct (String.eqb_spec (User.role user) "manager") as [Hr | Hr];
      cbn [negb].
    + left. split; [ | reflexivity]. exists sid, user. now repeat split.
    + right. right. split; [reflexivity | split; [ | reflexivity]].
      intros (sid' & user' & Hs & _ & Hu & Hrole).
      injection Hs as <-. congruence.
  - right. right. split; [reflexivity | split; [ | reflexivity]].
    intros (sid' & user' & Hs & _ & Hu & _). injection Hs as <-. congruence.
Qed.

(** X24. The five manager routes (employees, attendance of a day,
    calendar, manager dashboard, report) answer 401 [Unauthorized] to a
    request without a session and 403 [Forbidden] to a session that is not
    a manager's, with no data in either case; for a manager's session they
    answer with what the storage computes. *)
Theorem manager_routes_guarded
        (localeCompare : string -> string -> comparison)
        (st : MemStorage) (session : option string)
        (date : option string) (today : string) (days week : list string)
        (startDate endDate employee : option string) :
  (truthy session = false ->
   get_employees st session = Unauthorized
   /\ get_all st session date today = Unauthorized
   /\ get_calendar st session days = Unauthorized
   /\ get_manager_dashboard st session today week = Unauthorized
   /\ get_report localeCompare st session startDate endDate employee = Unauthorized)
  /\ (truthy session = true -> ~ manager_session st session ->
      get_employees st session = Forbidden
      /\ get_all st session date today = Forbidden
      /\ get_calendar st session days = Forbidden
      /\ get_manager_dashboard st session today week = Forbidden
      /\ get_report localeCompare st session startDate endDate employee = Forbidden)
  /\ (manager_session st session ->
      get_employees st session = (200, Json (getAllEmployees st))
      /\ get_all st session date today
         = (200, Json (getAllAttendanceForDate st (or_else date today)))
      /\ get_calendar st session days = (200, Json (getCalendarData st days))
      /\ get_manager_dashboard st session today week
         = (200, Json (getManagerDashboardStats st today week))
      /\ get_report localeCompare st session startDate endDate employee
         = report localeCompare st startDate endDate employee).
Proof.
  unfold get_employees, get_all, get_calendar, get_manager_dashboard, get_report.
  split; [ | split].
  - intro Hs.
    assert (H : forall A, @requireManager A st session = Some Unauthorized).
    { intro A. destruct (@requireManager_cases A st session)
        as [((sid & u & -> & Hne & _) & _) | [(_ & H) | (Ht & _)]];
        [ | assumption | congruence].
      cbn in Hs. apply negb_false_iff, String.eqb_eq in Hs. contradiction. }
    rewrite !H. now repeat split.
  - intros Hs Hnot.
    assert (H : forall A, @requireManager A st session = Some Forbidden).
    { intro A. destruct (@requireManager_cases A st session)
        as [(Hm & _) | [(Hf & _) | (_ & _ & H)]];
        [contradiction | congruence | assumption]. }
    rewrite !H. now repeat split.
  - intro Hm.
    assert (H : forall A, @requireManager A st session = None).
    { intro A. destruct (@requireManager_cases A st session)
        as [(_ & H) | [(Hf & _) | (_ & Hnot & _)]];
        [assumption | | contradiction].
      destruct Hm as (sid & u & -> & Hne & _). cbn in Hf.
      apply negb_false_iff, String.eqb_eq in Hf. contradiction. }
    rewrite !H. now repeat split.
Qed.

(** X25. What an employee's read routes return belongs to the session:
    the record of today, every record of the month's history, and the
    record and the recent records of the employee dashboard all carry the
    session's user id, and the profile of [/api/auth/me] is the one stored
    under it; without a session the four routes answer 401. *)
Theorem employee_routes_own_data
        (localeCompare : string -> string -> comparison)
        (st : MemStorage) (session : option string)
        (today startDate endDate monthStart monthEnd sevenDaysAgo : string) :
  (forall r,
      get_today st session today = (200, Json (Some r)) ->
      session = Some (Attendance.userId r) /\ Attendance.date r = today)
  /\ (forall history s r,
        get_my_history localeCompare st session startDate endDate
        = (200, Json (history, s)) ->
        In r history -> session = Some (Attendance.userId r))
  /\ (forall stats r,
        get_employee_dashboard localeCompare st session today
                               monthStart monthEnd sevenDaysAgo
        = (200, Json stats) ->
        DashboardStats.todayStatus stats = Some r
        \/ In r (DashboardStats.recentAttendance stats) ->
        session = Some (Attendance.userId r))
  /\ (forall profile,
        get_me st session = (200, Json profile) ->
        exists sid user,
          session = Some sid /\ getUser st sid = Some user
          /\ profile = removePassword user)
  /\ (truthy session = false ->
      get_today st session today = Unauthorized
      /\ get_my_history localeCompare st session startDate endDate = Unauthorized
      /\ get_employee_dashboard localeCompare st session today
                                monthStart monthEnd sevenDaysAgo = Unauthorized
      /\ get_me st session = Unauthorized).
Proof.
  unfold get_today, get_my_history, get_employee_dashboard, get_me, requireAuth.
  destruct session as [sid | ]; cbn [truthy narrow].
  2: { repeat split; try (intros; discriminate). }
  destruct (String.eqb_spec sid "") as [-> | Hne]; cbn [negb].
  { repeat split; try (intros; discriminate). }
  assert (Hhist : forall a b r,
             In r (getUserAttendanceHistory localeCompare st sid a b) ->
             Some sid = Some (Attendance.userId r)).
  { intros a b r Hr. rewrite history_sorts in Hr.
    apply In_sort, filter_In in Hr as [_ Hr].
    unfold by_user_in_range in Hr. apply andb_true_iff in Hr as [Hr _].
    apply String.eqb_eq in Hr. now rewrite Hr. }
  split; [ | split; [ | split; [ | split]]].
  - intros r H. injection H as H.
    apply lookup_found in H as (_ & Hu & Hd). now rewrite Hu.
  - intros history s r H Hr. injection H as <- _.
    exact (Hhist startDate endDate r Hr).
  - intros stats r H Hr. injection H as <-.
    unfold getEmployeeDashboardStats in Hr.
    cbn [DashboardStats.todayStatus DashboardStats.recentAttendance] in Hr.
    destruct Hr as [Hr | Hr].
    + apply lookup_found in Hr as (_ & Hu & _). now rewrite Hu.
    + exact (Hhist sevenDaysAgo today r Hr).
  - intros profile H.
    destruct (getUser st sid) as [user | ] eqn:Eu; [ | discriminate H].
    injection H as <-. now exists sid, user.
  - intro H. discriminate H.
Qed.

End AuthLaws.

(* ================================================================== *)
(** * The further properties on the small store *)
(* ================================================================== *)

Module MoreWitnesses.
Import JS Storage Routes Spec Directory Views Auth Laws Examples Witnesses.
Import StoreFacts DayFacts ClassifierLaws ViewLaws AuthLaws.
Local Open Scope list_scope.

Lemma second_checkin_rejected_witness :
  Inv store
  /\ checkin (snd (checkin store "u4" "2024-03-04" (mkClock 9 0 0) "b1" 1))
             "u4" "2024-03-04" (mkClock 9 5 0) "b2" 2
     = (AlreadyCheckedIn,
        snd (checkin store "u4" "2024-03-04" (mkClock 9 0 0) "b1" 1)).
Proof.
  assert (H : Inv store) by invariant.
  split; [exact H | ].
  exact (second_checkin_rejected store "u4" "2024-03-04" (mkClock 9 0 0)
           (mkClock 9 5 0) "b1" "b2" 1 2 H).
Defined.

Lemma second_checkout_rejected_witness :
  Inv store
  /\ snd (checkout (snd (checkout store "u1" "2024-03-04" (mkClock 17 0 0)))
                   "u1" "2024-03-04" (mkClock 17 30 0))
     = snd (checkout store "u1" "2024-03-04" (mkClock 17 0 0))
  /\ fst (checkout (snd (checkout store "u1" "2024-03-04" (mkClock 17 0 0)))
                   "u1" "2024-03-04" (mkClock 17 30 0))
     = AlreadyCheckedOut.
Proof.
  assert (H : Inv store) by invariant.
  split; [exact H | ].
  pose proof (second_checkout_rejected store "u1" "2024-03-04"
                (mkClock 17 0 0) (mkClock 17 30 0) H) as (H1 & _ & H3).
  split; [exact H1 | ].
  apply H3. intro E. discriminate E.
Defined.

Lemma checkin_then_checkout_witness :
  (Inv store /\ no_record_for store "u4" "2024-03-04"
   /\ clock_ok (mkClock 11 0 0) /\ clock_ok (mkClock 12 30 0))
  /\ fst (checkout (snd (checkin store "u4" "2024-03-04" (mkClock 11 0 0) "b1" 1))
                   "u4" "2024-03-04" (mkClock 12 30 0))
     = (200, Json (Some (Attendance.mk "b1" "u4" "2024-03-04"
                           (Some "11:00:00") (Some "12:30:00")
                           "half-day" (Some "1.50") 1))).
Proof.
  assert (H : Inv store) by invariant.
  assert (Hn : no_record_for store "u4" "2024-03-04").
  { intros r (Hin & Hu & Hd). cbn in Hin.
    destruct Hin as [<- | [<- | [<- | [<- | [<- | []]]]]]; discriminate. }
  assert (H1 : clock_ok (mkClock 11 0 0)) by (unfold clock_ok; cbn; lia).
  assert (H2 : clock_ok (mkClock 12 30 0)) by (unfold clock_ok; cbn; lia).
  split; [exact (conj H (conj Hn (conj H1 H2))) | ].
  exact (proj1 (checkin_then_checkout store "u4" "2024-03-04" "b1" 1
                  (mkClock 11 0 0) (mkClock 12 30 0) H Hn H1 H2)).
Defined.

Lemma other_records_untouched_witness :
  let r := Attendance.mk "a4" "u2" "2024-03-04"
             (Some "08:50:00") (Some "17:20:00") "present" (Some "8.50") 0 in
  (Inv store /\ getAttendanceById store "b1" = None
   /\ user_date r <> ("u4", "2024-03-04"))
  /\ In r (values (attendance
                     (snd (checkin store "u4" "2024-03-04" (mkClock 9 0 0) "b1" 1)))).
Proof.
  intro r.
  assert (H : Inv store) by invariant.
  assert (Hr : user_date r <> ("u4", "2024-03-04")) by discriminate.
  split; [exact (conj H (conj eq_refl Hr)) | ].
  apply (proj1 (other_records_untouched store "u4" "2024-03-04" (mkClock 9 0 0)
                  "b1" 1 r H eq_refl Hr)).
  cbn. tauto.
Defined.

Lemma writes_belong_to_session_witness :
  Inv store
  /\ post_checkin store None "2024-03-04" (mkClock 9 0 0) "b1" 1
     = (Unauthorized, store).
Proof.
  assert (H : Inv store) by invariant.
  split; [exact H | ].
  exact (proj1 (proj2 (writes_belong_to_session store None "2024-03-04"
                         (mkClock 9 0 0) "b1" 1 H) eq_refl)).
Defined.

Lemma calculateStatus_monotone_witness :
  (0 <= 9 < 100 /\ 0 <= 29 < 100 /\ 0 <= 59 < 100
   /\ 0 <= 9 < 100 /\ 0 <= 31 < 100 /\ 0 <= 0 < 100
   /\ 9 * 60 + 29 <= 9 * 60 + 31)
  /\ status_rank (calculateStatus (hhmmss 9 29 59))
     <= status_rank (calculateStatus (hhmmss 9 31 0)).
Proof.
  split; [lia | ].
  apply calculateStatus_monotone; lia.
Defined.

Lemma half_day_below_240_minutes_witness :
  (0 <= 9 < 100 /\ 0 <= 0 < 100 /\ 0 <= 0 < 100
   /\ 0 <= 12 < 100 /\ 0 <= 59 < 100 /\ 0 <= 0 < 100)
  /\ reconcileStatusOnCheckout "present"
       (parseFloat (calculateTotalHours (hhmmss 9 0 0) (hhmmss 12 59 0)))
     = (if minutes_between 9 0 12 59 <? 240 then "half-day" else "present").
Proof.
  split; [lia | ].
  apply half_day_below_240_minutes; lia.
Defined.

Lemma calculateTotalHours_sign_witness :
  (0 <= 9 < 100 /\ 0 <= 0 < 100 /\ 0 <= 0 < 100
   /\ 0 <= 17 < 100 /\ 0 <= 30 < 100 /\ 0 <= 0 < 100
   /\ 0 < minutes_between 9 0 17 30)
  /\ calculateTotalHours (hhmmss 17 30 0) (hhmmss 9 0 0)
     = ("-" ++ calculateTotalHours (hhmmss 9 0 0) (hhmmss 17 30 0))%string.
Proof.
  split; [unfold minutes_between; lia | ].
  refine (proj2 (proj2 (calculateTotalHours_sign 9 0 0 17 30 0 _ _ _ _ _ _)) _);
    unfold minutes_between; lia.
Defined.

Ltac four_statuses :=
  unfold statuses_valid; cbn;
  repeat (apply Forall_cons; [unfold valid_status; tauto | ]); apply Forall_nil.

Lemma report_summary_adds_up_witness :
  (statuses_valid store /\ truthy (Some "2024-03-01") = true
   /\ truthy (Some "2024-03-04") = true)
  /\ exists result,
      report String.compare store (Some "2024-03-01") (Some "2024-03-04") None
      = (200, Json result)
      /\ totalRecords (summary result) = len (Routes.records result)
      /\ totalRecords (summary result)
         = presentCount (summary result) + absentCount (summary result)
           + lateCount (summary result) + halfDayCount (summary result).
Proof.
  assert (H : statuses_valid store) by four_statuses.
  split; [exact (conj H (conj eq_refl eq_refl)) | ].
  exact (report_summary_adds_up String.compare store (Some "2024-03-01")
           (Some "2024-03-04") None H eq_refl eq_refl).
Defined.

Lemma today_heads_recent_witness :
  let r := Attendance.mk "a3" "u1" "2024-03-04"
             (Some "09:15:00") None "present" None 0 in
  (collates_dates String.compare /\ dates_canonical store
   /\ unique_user_date (attendance store)
   /\ String.leb "2024-02-26" "2024-03-04" = true
   /\ DashboardStats.todayStatus
        (getEmployeeDashboardStats String.compare store "u1" "2024-03-04"
           "2024-03-01" "2024-03-31" "2024-02-26") = Some r)
  /\ exists rest,
      DashboardStats.recentAttendance
        (getEmployeeDashboardStats String.compare store "u1" "2024-03-04"
           "2024-03-01" "2024-03-31" "2024-02-26") = r :: rest.
Proof.
  intro r.
  assert (H1 : collates_dates String.compare) by (intros a b _ _; reflexivity).
  assert (H2 : dates_canonical store) by (repeat constructor).
  assert (H3 : unique_user_date (attendance store))
    by (unfold unique_user_date; cbn; distinct).
  split; [exact (conj H1 (conj H2 (conj H3 (conj eq_refl eq_refl)))) | ].
  exact (today_heads_recent String.compare store "u1" "2024-03-04"
           "2024-03-01" "2024-03-31" "2024-02-26" r H1 H2 H3 eq_refl eq_refl).
Defined.

Lemma employee_codes_distinct_witness :
  (0 <= 7 /\ 0 <= 70)
  /\ (employee_code 7 = employee_code 70 -> 7 = 70).
Proof.
  split; [lia | ].
  exact (proj1 (employee_codes_distinct 7 70 ltac:(lia) ltac:(lia))).
Defined.

Ltac issued :=
  first [ exists 1; split; [cbn; lia | reflexivity]
        | exists 2; split; [cbn; lia | reflexivity]
        | exists 3; split; [cbn; lia | reflexivity]
        | exists 4; split; [cbn; lia | reflexivity]
        | exists 5; split; [cbn; lia | reflexivity]
        | exists 6; split; [cbn; lia | reflexivity] ].

Lemma registrations_keep_unique_witness :
  (emails_unique (mem office) /\ codes_issued office)
  /\ emails_unique (mem (enroll_all office enrolments))
  /\ NoDup (map User.employeeId
                (values (users (mem (enroll_all office enrolments)))))
  /\ attendance (mem (enroll_all office enrolments)) = attendance (mem office).
Proof.
  assert (H1 : emails_unique (mem office))
    by (unfold emails_unique; cbn; distinct).
  assert (H2 : codes_issued office).
  { split; [cbn; lia | split; [cbn; distinct | ]].
    cbn. repeat (apply Forall_cons; [issued | ]). apply Forall_nil. }
  split; [exact (conj H1 H2) | ].
  exact (registrations_keep_unique office enrolments H1 H2).
Defined.

Lemma register_then_login_witness :
  (getUserByEmail (mem office) "dana@company.com" = None
   /\ startsWith (toy_hash "secret1") "$2b$" = true)
  /\ fst (fst (login toy_compare
                 (mem (snd (fst (register office None "Dana Egan"
                                   "dana@company.com" "secret1" "employee"
                                   "Design" (toy_hash "secret1") "u7" 7))))
                 None "dana@company.com" "secret1")) = 200
  /\ fst (fst (login toy_compare
                 (mem (snd (fst (register office None "Dana Egan"
                                   "dana@company.com" "secret1" "employee"
                                   "Design" (toy_hash "secret1") "u7" 7))))
                 None "dana@company.com" "secret2")) = 401.
Proof.
  split; [exact (conj eq_refl eq_refl) | ].
  split.
  - rewrite (register_then_login toy_compare office None None "Dana Egan"
               "dana@company.com" "secret1" "employee" "Design"
               (toy_hash "secret1") "u7" "secret1" 7 eq_refl eq_refl).
    reflexivity.
  - rewrite (register_then_login toy_compare office None None "Dana Egan"
               "dana@company.com" "secret1" "employee" "Design"
               (toy_hash "secret1") "u7" "secret2" 7 eq_refl eq_refl).
    reflexivity.
Defined.

End MoreWitnesses.
